(** * Trexx analytics dashboard: artifact loader and panel builders

    A shallow embedding of [app_final.py].  The program is a Streamlit
    script: a cached CSV loader ([load_data]) and five panel functions
    ([display_home], [display_revenue_forecast], [display_team_revenue],
    [display_fan_segmentation], [display_model_performance]) that read
    tables through the loader, transform them with pandas and hand the
    results to Streamlit widgets.

    Modelling choices.
    - A pandas [DataFrame] is an index plus an ordered list of named, typed
      columns.  A float cell is [NaN] (the missing value) or a finite
      value, kept as the rational it stands for.  Comparisons of cells are
      exact.  Sums of float cells round, in an order the library chooses:
      they are not computed here but taken from the [library].
    - What the source leaves to pandas, NumPy and Plotly and their
      documentation does not fix is a field of the record [library]: the
      order the default sort gives to equal keys, the date spellings
      [pd.to_datetime] reads, the rounding of float sums, the cells a
      chart refuses.  The program is a function of a [library]; theorems
      hold for every one.
    - An operation whose outcome the model does not fix (the order of text
      in a sort, the sum of an object column that holds cells) ends the run
      with [Unknown]: the model says nothing of what follows, and no theorem
      is stated of such a run.
    - A file of the disk holds a table or is one that [read_csv] cannot
      parse; reading the latter raises.
    - Python names are references: data frames live in a heap and the
      in-place operations of the source ([df[c] = ...],
      [rename(..., inplace=True)]) update the heap object.
    - [st.cache_data] keeps a serialized copy of each result, keyed by the
      argument, and hands every caller an object of its own.
    - The page is the sequence of Streamlit commands issued so far.  String
      formatting of numbers ([f"R$ {x:,.2f}"]), chart layout options and
      the column containers of [st.columns] are not modelled: a widget
      carries the values it is given. *)

From Stdlib Require Import String Ascii ZArith QArith Bool Arith Lia Lqa.
From Stdlib Require Import List Permutation Sorted.
Import ListNotations.
Close Scope Q_scope.
Open Scope string_scope.
Open Scope list_scope.

(* ------------------------------------------------------------------ *)
(** ** Values *)

(** A float64 cell. *)
Inductive float64 : Type :=
| NaN
| Fin (q : Q).

(** A column has one dtype: float64, int64, object (strings, [None] for a
    missing cell) or datetime64[ns] (nanoseconds since 1970-01-01, [None]
    for NaT). *)
Inductive column : Type :=
| FloatCol (l : list float64)
| IntCol (l : list Z)
| ObjCol (l : list (option string))
| TimeCol (l : list (option Z)).

Inductive scalar : Type :=
| SFloat (x : float64)
| SInt (z : Z)
| SObj (s : option string)
| STime (t : option Z).

Record DataFrame : Type := mkDF {
  index : list nat;
  columns : list (string * column)
}.

(** A series with text labels, as [groupby(...)[...].sum()] produces. *)
Record Series : Type := mkSeries {
  labels : list string;
  values : column
}.

Inductive exn : Type :=
| KeyError (key : string)
| ValueError (msg : string)
| TypeError (msg : string)
| AttributeError (msg : string)
| FileNotFoundError (path : string).

(** The outcome of an operation: a value, a Python exception, or [Unknown]
    where the model does not fix what the libraries do. *)
Inductive result (A : Type) : Type :=
| Ok (a : A)
| Raise (e : exn)
| Unknown (what : string).
Arguments Ok {A} a.
Arguments Raise {A} e.
Arguments Unknown {A} what.

Definition rbind {A B : Type} (r : result A) (k : A -> result B) : result B :=
  match r with
  | Ok a => k a
  | Raise e => Raise e
  | Unknown s => Unknown s
  end.

Declare Scope result_scope.
Delimit Scope result_scope with res.
Notation "x <-- r ;; k" := (rbind r (fun x => k))
  (at level 61, r at next level, right associativity) : result_scope.
Open Scope result_scope.

(* ------------------------------------------------------------------ *)
(** ** What the libraries decide *)

(** [a.argsort(kind=...)]: the positions of [a] in ascending order of
    value. *)
Definition argsort_fn : Type := list Q -> list nat.

Record library : Type := mkLibrary {
  (** NumPy: [argsort] with the default [kind='quicksort'].  Its result is
      sorted; the order of equal keys depends on the build of NumPy. *)
  quicksort : argsort_fn;
  (** pandas: the timestamp [pd.to_datetime] reads from one text cell of a
      column (given whole, since the spelling may be inferred from it), or
      nothing when it cannot read the cell. *)
  parse_datetime : list (option string) -> string -> option Z;
  (** pandas: [Series.sum()] of a float64 column, missing cells skipped,
      as the library rounds it. *)
  float_sum : list float64 -> float64;
  (** pandas: the sum of the cells of one group of [groupby(...).sum()],
      in row order, which adds in another way. *)
  group_float_sum : list float64 -> float64;
  (** Plotly Express: whether the cells behind the arguments of a scatter
      or of a treemap pass its validation. *)
  plotly_accepts : string -> DataFrame -> list (string * string) -> bool
}.

(* ------------------------------------------------------------------ *)
(** ** List helpers *)

(** A Python dict with string keys, read with [.get]. *)
Fixpoint dict_get {V : Type} (d : list (string * V)) (k : string) : option V :=
  match d with
  | [] => None
  | (k', v) :: d' => if String.eqb k k' then Some v else dict_get d' k
  end.

Fixpoint dict_set {V : Type} (d : list (string * V)) (k : string) (v : V)
  : list (string * V) :=
  match d with
  | [] => [(k, v)]
  | (k', v') :: d' =>
      if String.eqb k k' then (k', v) :: d' else (k', v') :: dict_set d' k v
  end.

(** [arr[indexer]]: positional selection. *)
Definition take {A : Type} (l : list A) (indexer : list nat) : list A :=
  flat_map (fun i => match nth_error l i with Some x => [x] | None => [] end)
           indexer.

(** [arr[mask]]: boolean selection. *)
Fixpoint select {A : Type} (mask : list bool) (l : list A) : list A :=
  match mask, l with
  | b :: mask', x :: l' => if b then x :: select mask' l' else select mask' l'
  | _, _ => []
  end.

Definition enumerate {A : Type} (l : list A) : list (nat * A) :=
  combine (seq 0 (length l)) l.

Fixpoint set_nth {A : Type} (i : nat) (x : A) (l : list A) : list A :=
  match l, i with
  | [], _ => []
  | _ :: l', O => x :: l'
  | y :: l', S i' => y :: set_nth i' x l'
  end.

(* ------------------------------------------------------------------ *)
(** ** Numbers *)

(** An int64 result wraps around. *)
Definition wrap64 (z : Z) : Z :=
  ((z + 2 ^ 63) mod 2 ^ 64 - 2 ^ 63)%Z.

(** The float64 nearest to an integer, ties to the even significand.  An
    int64 is within the range of float64. *)
Definition float_of_int (z : Z) : Q :=
  let a := Z.abs z in
  if (a <? 2 ^ 53)%Z then inject_Z z
  else
    let e := (Z.log2 a - 52)%Z in
    let q := Z.shiftr a e in
    let r := (a - Z.shiftl q e)%Z in
    let half := Z.shiftl 1 (e - 1) in
    let q' := if (half <? r)%Z || ((r =? half)%Z && Z.odd q)
              then (q + 1)%Z else q in
    inject_Z (Z.sgn z * Z.shiftl q' e).

(* ------------------------------------------------------------------ *)
(** ** pandas: columns and frames *)

Definition col_len (c : column) : nat :=
  match c with
  | FloatCol l => length l
  | IntCol l => length l
  | ObjCol l => length l
  | TimeCol l => length l
  end.

Definition col_take (c : column) (indexer : list nat) : column :=
  match c with
  | FloatCol l => FloatCol (take l indexer)
  | IntCol l => IntCol (take l indexer)
  | ObjCol l => ObjCol (take l indexer)
  | TimeCol l => TimeCol (take l indexer)
  end.

Definition col_select (mask : list bool) (c : column) : column :=
  match c with
  | FloatCol l => FloatCol (select mask l)
  | IntCol l => IntCol (select mask l)
  | ObjCol l => ObjCol (select mask l)
  | TimeCol l => TimeCol (select mask l)
  end.

Definition col_iloc (c : column) (i : nat) : option scalar :=
  match c with
  | FloatCol l => option_map SFloat (nth_error l i)
  | IntCol l => option_map SInt (nth_error l i)
  | ObjCol l => option_map SObj (nth_error l i)
  | TimeCol l => option_map STime (nth_error l i)
  end.

(** The cells of a numeric column as numbers, for comparisons, which are
    exact on both dtypes; other dtypes are refused. *)
Definition as_floats (c : column) : result (list float64) :=
  match c with
  | FloatCol l => Ok l
  | IntCol l => Ok (map (fun z => Fin (inject_Z z)) l)
  | ObjCol _ => Raise (TypeError "object column is not numeric")
  | TimeCol _ => Raise (TypeError "datetime column is not numeric")
  end.

(** [df[c]] *)
Definition getitem (df : DataFrame) (c : string) : result column :=
  match dict_get (columns df) c with
  | Some col => Ok col
  | None => Raise (KeyError c)
  end.

(** [df[c] = col]: replaces the column of that name or appends a new one. *)
Definition setitem (df : DataFrame) (c : string) (col : column)
  : result DataFrame :=
  if Nat.eqb (col_len col) (length (index df))
  then Ok (mkDF (index df) (dict_set (columns df) c col))
  else Raise (ValueError "Length of values does not match length of index").

(** [df.take(indexer)] *)
Definition df_take (df : DataFrame) (indexer : list nat) : DataFrame :=
  mkDF (take (index df) indexer)
       (map (fun nc => (fst nc, col_take (snd nc) indexer)) (columns df)).

(** [df[mask]] *)
Definition df_select (df : DataFrame) (mask : list bool) : DataFrame :=
  mkDF (select mask (index df))
       (map (fun nc => (fst nc, col_select mask (snd nc))) (columns df)).

(** [df.rename(columns={old: new})] *)
Definition rename_columns (df : DataFrame) (old new : string) : DataFrame :=
  mkDF (index df)
       (map (fun nc => (if String.eqb (fst nc) old then new else fst nc, snd nc))
            (columns df)).

Definition has_column (df : DataFrame) (c : string) : bool :=
  existsb (String.eqb c) (map fst (columns df)).

(** [df.shape[0]] *)
Definition n_rows (df : DataFrame) : nat := length (index df).

(** A row as a labelled series of scalars: [df.loc[label]]. *)
Definition Row : Type := list (string * scalar).

Fixpoint index_of (label : nat) (idx : list nat) : option nat :=
  match idx with
  | [] => None
  | l :: idx' =>
      if Nat.eqb label l then Some 0%nat else option_map S (index_of label idx')
  end.

Fixpoint row_at (cols : list (string * column)) (i : nat) : option Row :=
  match cols with
  | [] => Some []
  | (n, c) :: cols' =>
      match col_iloc c i, row_at cols' i with
      | Some v, Some r => Some ((n, v) :: r)
      | _, _ => None
      end
  end.

(** The dtype of a row taken across columns: a row of int64 and float64
    cells, with one float64 at least, is a float64 series, its integers
    converted; any other mix keeps every cell as it is. *)
Definition is_numeric (c : column) : bool :=
  match c with
  | FloatCol _ | IntCol _ => true
  | _ => false
  end.

Definition is_float (c : column) : bool :=
  match c with
  | FloatCol _ => true
  | _ => false
  end.

Definition upcast (v : scalar) : scalar :=
  match v with
  | SInt z => SFloat (Fin (float_of_int z))
  | _ => v
  end.

Definition row_dtype (cols : list (string * column)) (r : Row) : Row :=
  if forallb (fun nc => is_numeric (snd nc)) cols
     && existsb (fun nc => is_float (snd nc)) cols
  then map (fun kv => (fst kv, upcast (snd kv))) r
  else r.

(** [df.loc[label]]; the label of an all-missing [idxmax] is NaN, which no
    index holds. *)
Definition df_loc (df : DataFrame) (label : option nat) : result Row :=
  match label with
  | None => Raise (KeyError "nan")
  | Some l =>
      match index_of l (index df) with
      | None => Raise (KeyError "label")
      | Some i =>
          match row_at (columns df) i with
          | Some r => Ok (row_dtype (columns df) r)
          | None => Raise (KeyError "label")
          end
      end
  end.

(** [row.iloc[0]] and [row[c]] *)
Definition row_first (r : Row) : result scalar :=
  match r with
  | (_, v) :: _ => Ok v
  | [] => Raise (KeyError "single positional indexer is out-of-bounds")
  end.

Definition row_get (r : Row) (c : string) : result scalar :=
  match dict_get r c with
  | Some v => Ok v
  | None => Raise (KeyError c)
  end.

(* ------------------------------------------------------------------ *)
(** ** pandas: reductions and comparisons *)

(** [series.sum()].  The sum of an int64 column wraps around; an empty
    object column sums to the integer 0. *)
Definition series_sum (L : library) (c : column) : result scalar :=
  match c with
  | FloatCol l => Ok (SFloat (float_sum L l))
  | IntCol l => Ok (SInt (wrap64 (fold_left Z.add l 0%Z)))
  | ObjCol [] => Ok (SInt 0)
  | ObjCol (_ :: _) => Unknown "sum of an object column"
  | TimeCol _ => Raise (TypeError "datetime64 does not support sum")
  end.

(** Position of the first occurrence of the largest finite cell, scanning
    left to right: the candidate changes only on a strictly larger value. *)
Fixpoint nanargmax_from (best : option (nat * Q)) (i : nat) (l : list float64)
  : option (nat * Q) :=
  match l with
  | [] => best
  | NaN :: l' => nanargmax_from best (S i) l'
  | Fin q :: l' =>
      match best with
      | None => nanargmax_from (Some (i, q)) (S i) l'
      | Some (_, b) =>
          if Qle_bool q b
          then nanargmax_from best (S i) l'
          else nanargmax_from (Some (i, q)) (S i) l'
      end
  end.

Definition nanargmax (l : list float64) : option nat :=
  option_map fst (nanargmax_from None 0 l).

(** [df[c].idxmax()]: the index label of the maximum; an empty column is an
    error, a column of missing cells only gives the NaN label ([None]). *)
Definition idxmax (df : DataFrame) (c : string) : result (option nat) :=
  col <-- getitem df c ;;
  if Nat.eqb (col_len col) 0
  then Raise (ValueError "attempt to get argmax of an empty sequence")
  else
    l <-- as_floats col ;;
    match nanargmax l with
    | Some i => Ok (nth_error (index df) i)
    | None => Ok None
    end.

Definition Qgt_bool (x y : Q) : bool := negb (Qle_bool x y).

(** [series > t]; a comparison with NaN is false; text does not compare
    with a number. *)
Definition series_gt (c : column) (t : Q) : result (list bool) :=
  match c with
  | FloatCol l =>
      Ok (map (fun x => match x with Fin q => Qgt_bool q t | NaN => false end) l)
  | IntCol l => Ok (map (fun z => Qgt_bool (inject_Z z) t) l)
  | ObjCol [] => Ok []
  | ObjCol (_ :: _) =>
      Raise (TypeError "'>' not supported between str and float")
  | TimeCol _ => Raise (TypeError "invalid comparison between datetime and float")
  end.

(** [series != k] for an integer [k]; cells that are not numbers differ
    from every number. *)
Definition series_ne (c : column) (k : Z) : list bool :=
  match c with
  | FloatCol l =>
      map (fun x => match x with
                    | Fin q => negb (Qeq_bool q (inject_Z k))
                    | NaN => true
                    end) l
  | IntCol l => map (fun z => negb (Z.eqb z k)) l
  | ObjCol l => map (fun _ => true) l
  | TimeCol l => map (fun _ => true) l
  end.

(* ------------------------------------------------------------------ *)
(** ** pandas: dates *)

Definition ns_per_day : Z := 86400000000000.

(** [pd.to_datetime(series)]: every text cell is read by the library, a
    cell it cannot read is an error, a missing cell becomes NaT; numbers
    count nanoseconds since the epoch. *)
Fixpoint parse_cells (parse : string -> option Z) (l : list (option string))
  : result (list (option Z)) :=
  match l with
  | [] => Ok []
  | None :: l' => ts <-- parse_cells parse l' ;; Ok (None :: ts)
  | Some s :: l' =>
      match parse s with
      | Some t => ts <-- parse_cells parse l' ;; Ok (Some t :: ts)
      | None => Raise (ValueError "Unknown datetime string format")
      end
  end.

Definition to_datetime (L : library) (c : column) : result column :=
  match c with
  | ObjCol l => ts <-- parse_cells (parse_datetime L l) l ;; Ok (TimeCol ts)
  | TimeCol l => Ok (TimeCol l)
  | IntCol l => Ok (TimeCol (map Some l))
  | FloatCol l =>
      Ok (TimeCol (map (fun x => match x with
                                 | Fin q => Some (Z.quot (Qnum q) (Zpos (Qden q)))
                                 | NaN => None
                                 end) l))
  end.

Definition weekdays : list string :=
  ["Monday"; "Tuesday"; "Wednesday"; "Thursday"; "Friday"; "Saturday"; "Sunday"].

(** 1970-01-01 was a Thursday. *)
Definition day_name (t : Z) : string :=
  nth (Z.to_nat ((t / ns_per_day + 3) mod 7)) weekdays "".

(** [series.dt.day_name()] *)
Definition dt_day_name (c : column) : result column :=
  match c with
  | TimeCol l => Ok (ObjCol (map (option_map day_name) l))
  | _ => Raise (AttributeError "Can only use .dt accessor with datetimelike values")
  end.

(* ------------------------------------------------------------------ *)
(** ** pandas: group-by, reindex *)

Fixpoint insert_key (k : string) (l : list string) : list string :=
  match l with
  | [] => [k]
  | h :: t =>
      match String.compare k h with
      | Lt => k :: l
      | Eq => l
      | Gt => h :: insert_key k t
      end
  end.

(** The group labels: the distinct keys in sorted order; rows with a missing
    key belong to no group. *)
Definition group_keys (keys : list (option string)) : list string :=
  fold_left (fun acc k => match k with Some s => insert_key s acc | None => acc end)
            keys [].

Definition key_is (k : string) (k' : option string) : bool :=
  match k' with
  | Some s => String.eqb s k
  | None => false
  end.

(** The cells of one group, in row order. *)
Definition group_values {A : Type} (k : string) (keys : list (option string))
  (vals : list A) : list A :=
  select (map (key_is k) keys) vals.

(** [df.groupby(by)[val].sum()]: one entry per group.  Float cells are
    added by the library; int64 sums wrap around. *)
Definition groupby_sum (L : library) (df : DataFrame) (by_ val : string)
  : result Series :=
  kc <-- getitem df by_ ;;
  vc <-- getitem df val ;;
  match kc with
  | ObjCol keys =>
      let ks := group_keys keys in
      match vc with
      | FloatCol vals =>
          Ok (mkSeries ks
                (FloatCol (map (fun k => group_float_sum L
                                           (group_values k keys vals)) ks)))
      | IntCol vals =>
          Ok (mkSeries ks
                (IntCol (map (fun k => wrap64 (fold_left Z.add
                                                 (group_values k keys vals) 0%Z))
                             ks)))
      | _ => Unknown "group sum of a column that holds no numbers"
      end
  | _ => Unknown "group keys that are not text"
  end.

(** The position of the first occurrence of a label, counted from [i]. *)
Fixpoint position_from (i : nat) (k : string) (l : list string) : option nat :=
  match l with
  | [] => None
  | h :: t => if String.eqb k h then Some i else position_from (S i) k t
  end.

Definition position_of (k : string) (l : list string) : option nat :=
  position_from 0 k l.

(** [series.reindex(new_labels)]: a label the series lacks gets NaN; an
    int64 series that gets one becomes float64. *)
Definition reindex (s : Series) (new_labels : list string) : result Series :=
  match values s with
  | FloatCol vals =>
      Ok (mkSeries new_labels
            (FloatCol (map (fun k => match position_of k (labels s) with
                                     | Some i => nth i vals NaN
                                     | None => NaN
                                     end) new_labels)))
  | IntCol vals =>
      if forallb (fun k => match position_of k (labels s) with
                           | Some _ => true
                           | None => false
                           end) new_labels
      then Ok (mkSeries new_labels
                 (IntCol (map (fun k => match position_of k (labels s) with
                                        | Some i => nth i vals 0%Z
                                        | None => 0%Z
                                        end) new_labels)))
      else Ok (mkSeries new_labels
                 (FloatCol (map (fun k => match position_of k (labels s) with
                                          | Some i =>
                                              Fin (float_of_int (nth i vals 0%Z))
                                          | None => NaN
                                          end) new_labels)))
  | _ => Unknown "reindex of a series that holds no numbers"
  end.

(** [series.reset_index()]: the labels become a column. *)
Definition reset_index (s : Series) (index_name value_name : string)
  : DataFrame :=
  mkDF (seq 0 (length (labels s)))
       [(index_name, ObjCol (map Some (labels s)));
        (value_name, values s)].

(* ------------------------------------------------------------------ *)
(** ** numpy: argsort *)

Definition Qlt_bool (x y : Q) : bool := negb (Qle_bool y x).

(** *** kind='mergesort' (also 'stable')

    A stable sort has one possible result, so the order of insertion sort
    stands for it: an element goes before the first one that is not
    smaller, and elements are inserted from the last to the first. *)
Fixpoint insert_by (x : nat * Q) (l : list (nat * Q)) : list (nat * Q) :=
  match l with
  | [] => [x]
  | y :: l' =>
      if Qle_bool (snd x) (snd y) then x :: l else y :: insert_by x l'
  end.

Definition stable_sort (l : list (nat * Q)) : list (nat * Q) :=
  fold_right insert_by [] l.

Definition argsort_stable : argsort_fn :=
  fun a => map fst (stable_sort (enumerate a)).

(* ------------------------------------------------------------------ *)
(** ** pandas: sorting and selection *)

(** The finite cells with their positions, and the positions of the missing
    ones: [items[~mask]], [idx[~mask]] and [np.nonzero(mask)]. *)
Definition notna_enum (items : list float64) : list (nat * Q) :=
  flat_map (fun p => match snd p with Fin q => [(fst p, q)] | NaN => [] end)
           (enumerate items).

Definition isna_idx (items : list float64) : list nat :=
  flat_map (fun p => match snd p with Fin _ => [] | NaN => [fst p] end)
           (enumerate items).

(** [nargsort(items, kind, ascending, na_position='last')]: for a
    descending sort the finite cells are reversed, sorted ascending and the
    outcome is reversed again; missing cells go last. *)
Definition nargsort (argsort : argsort_fn) (ascending : bool)
  (items : list float64) : list nat :=
  let non_nans := map snd (notna_enum items) in
  let non_nan_idx := map fst (notna_enum items) in
  let nan_idx := isna_idx items in
  let non_nans := if ascending then non_nans else rev non_nans in
  let non_nan_idx := if ascending then non_nan_idx else rev non_nan_idx in
  let indexer := take non_nan_idx (argsort non_nans) in
  let indexer := if ascending then indexer else rev indexer in
  indexer ++ nan_idx.

(** The keys of a sort.  Numbers compare exactly; a column without cells
    has nothing to order; the order of text is not modelled. *)
Definition sort_keys (c : column) : result (list float64) :=
  match c with
  | FloatCol l => Ok l
  | IntCol l => Ok (map (fun z => Fin (inject_Z z)) l)
  | ObjCol [] => Ok []
  | ObjCol (_ :: _) => Unknown "sort of an object column"
  | TimeCol _ => Unknown "sort of a datetime column"
  end.

(** [df.sort_values(by, ascending=...)] with the default kind. *)
Definition sort_values (L : library) (df : DataFrame) (by_ : string)
  (ascending : bool) : result DataFrame :=
  k <-- getitem df by_ ;;
  keys <-- sort_keys k ;;
  Ok (df_take df (nargsort (quicksort L) ascending keys)).

(** [algos.kth_smallest(arr, k)] *)
Definition kth_smallest (arr : list Q) (k : nat) : Q :=
  nth k (map snd (stable_sort (enumerate arr))) 0%Q.

(** Positions of [np.nonzero(arr <= x)]. *)
Definition le_positions (arr : list Q) (x : Q) : list nat :=
  map fst (filter (fun p => Qle_bool (snd p) x) (enumerate arr)).

(** [series.nlargest(n, keep='first')] as an indexer.  With [n] at least the
    length, the series is sorted with the default kind and cut; otherwise
    the finite cells are negated, those up to the [n]-th smallest are kept
    and sorted with a stable sort, and missing cells follow. *)
Definition nlargest_indexer (quicksort : argsort_fn) (n : nat)
  (vals : list float64) : list nat :=
  if (n =? 0)%nat then []
  else if (length vals <=? n)%nat
  then firstn n (nargsort quicksort false vals)
  else
    let dropped := notna_enum vals in
    let nan_index := isna_idx vals in
    let arr := map (fun p => Qopp (snd p)) dropped in
    let n' := Nat.min n (length arr) in
    let kth_val := kth_smallest arr (n' - 1) in
    let ns := le_positions arr kth_val in
    let inds := take ns (argsort_stable (take arr ns)) in
    let inds := firstn n' inds in
    firstn n (take (map fst dropped) inds ++ nan_index).

(** [df.nlargest(n, column)]: the column must hold numbers. *)
Definition nlargest (L : library) (df : DataFrame) (n : nat)
  (c : string) : result DataFrame :=
  col <-- getitem df c ;;
  match col with
  | TimeCol _ => Unknown "nlargest of a datetime column"
  | _ =>
      vals <-- as_floats col ;;
      Ok (df_take df (nlargest_indexer (quicksort L) n vals))
  end.

(* ------------------------------------------------------------------ *)
(** ** pandas: melt *)

Definition col_concat (c1 c2 : column) : result column :=
  match c1, c2 with
  | FloatCol l1, FloatCol l2 => Ok (FloatCol (l1 ++ l2))
  | IntCol l1, IntCol l2 => Ok (IntCol (l1 ++ l2))
  | FloatCol l1, IntCol l2 =>
      Ok (FloatCol (l1 ++ map (fun z => Fin (float_of_int z)) l2))
  | IntCol l1, FloatCol l2 =>
      Ok (FloatCol (map (fun z => Fin (float_of_int z)) l1 ++ l2))
  | ObjCol l1, ObjCol l2 => Ok (ObjCol (l1 ++ l2))
  | TimeCol l1, TimeCol l2 => Ok (TimeCol (l1 ++ l2))
  | _, _ => Unknown "columns of mixed dtype in one column"
  end.

(** [df.melt(id_vars=id, value_vars=[v1, v2], var_name=..., value_name=...)]:
    one row per (row, value column), the rows of [v1] first. *)
Definition melt2 (df : DataFrame) (id_var v1 v2 var_name value_name : string)
  : result DataFrame :=
  ids <-- getitem df id_var ;;
  c1 <-- getitem df v1 ;;
  c2 <-- getitem df v2 ;;
  ids2 <-- col_concat ids ids ;;
  vals <-- col_concat c1 c2 ;;
  let n := n_rows df in
  Ok (mkDF (seq 0 (n + n))
           [(id_var, ids2);
            (var_name, ObjCol (repeat (Some v1) n ++ repeat (Some v2) n));
            (value_name, vals)]).

(* ------------------------------------------------------------------ *)
(** ** Streamlit and Plotly: the page *)

(** [go.Scatter(x=..., y=..., name=...)] *)
Inductive trace : Type :=
| Scatter (x y : column) (name : string).

(** A figure is a list of traces ([go.Figure]) or a Plotly Express chart: its
    kind, its data frame and the columns given to its arguments. *)
Inductive figure : Type :=
| GoFigure (traces : list trace)
| PxFigure (kind : string) (data_frame : DataFrame)
           (args : list (string * string)).

(** One Streamlit command.  [Sidebar x] is [st.sidebar.x]; [Tabs] is
    [st.tabs]; [Tab k] records that a [with tabk:] block is entered, so
    what follows it goes into that tab. *)
Inductive widget : Type :=
| PageConfig (page_title page_icon layout initial_sidebar_state : string)
| Title (body : string)
| Markdown (body : string)
| Info (body : string)
| Metric (label : string) (value : scalar) (delta : option scalar)
| Error (body : string)
| Warning (body : string)
| PlotlyChart (fig : figure)
| DataFrameView (data : DataFrame)
| Sidebar (x : widget)
| Tabs (tab_labels : list string)
| Tab (k : nat).

(** The kinds of chart whose cells Plotly Express validates: the marker
    sizes of a scatter, the hierarchy of a treemap. *)
Definition validated (kind : string) : bool :=
  String.eqb kind "scatter" || String.eqb kind "treemap".

(** A Plotly Express chart.  An argument that names no column is refused.
    A bar or a pie chart takes the cells as they are; for a scatter and a
    treemap the library decides. *)
Definition px (L : library) (kind : string) (df : DataFrame)
  (args : list (string * string)) : result figure :=
  if forallb (fun a => has_column df (snd a)) args
  then
    if validated kind && negb (plotly_accepts L kind df args)
    then Raise (ValueError "Invalid value received by the chart")
    else Ok (PxFigure kind df args)
  else Raise (ValueError "Value of argument is not the name of a column").

(* ------------------------------------------------------------------ *)
(** ** The interpreter state *)

Definition ref : Type := nat.

(** A file of the disk: a CSV that [read_csv] parses into a table, or one
    it cannot parse (empty, damaged). *)
Inductive file : Type :=
| Csv (df : DataFrame)
| Damaged.

Record world : Type := mkWorld {
  files : list (string * file);        (* path -> file *)
  cache : list (string * option DataFrame); (* st.cache_data store *)
  heap : list DataFrame;               (* live DataFrame objects *)
  reads : list string;                 (* paths read from disk, in order *)
  page : list widget                   (* commands issued so far *)
}.

Definition M (A : Type) : Type := world -> result A * world.

Definition ret {A : Type} (a : A) : M A := fun w => (Ok a, w).
Arguments ret {A} a w /.

Definition bind {A B : Type} (c : M A) (k : A -> M B) : M B :=
  fun w =>
    match c w with
    | (Ok a, w') => k a w'
    | (Raise e, w') => (Raise e, w')
    | (Unknown s, w') => (Unknown s, w')
    end.
Arguments bind {A B} c k w /.

Definition lift {A : Type} (r : result A) : M A := fun w => (r, w).
Arguments lift {A} r w /.

Declare Scope prog_scope.
Delimit Scope prog_scope with prog.
Notation "x <- c ;; k" := (bind c (fun x => k))
  (at level 61, c at next level, right associativity) : prog_scope.
Notation "c ;; k" := (bind c (fun _ => k))
  (at level 61, right associativity) : prog_scope.
Open Scope prog_scope.

(** Issues one command. *)
Definition st (x : widget) : M unit :=
  fun w => (Ok tt, mkWorld (files w) (cache w) (heap w) (reads w) (page w ++ [x])).
Arguments st x w /.

(** A new object holding [df]. *)
Definition new_object (df : DataFrame) : M ref :=
  fun w => (Ok (length (heap w)),
            mkWorld (files w) (cache w) (heap w ++ [df]) (reads w) (page w)).
Arguments new_object df w /.

Definition deref (r : ref) : M DataFrame :=
  fun w => match nth_error (heap w) r with
           | Some df => (Ok df, w)
           | None => (Raise (ValueError "dangling reference"), w)
           end.
Arguments deref r w /.

Definition assign (r : ref) (df : DataFrame) : M unit :=
  fun w => (Ok tt,
            mkWorld (files w) (cache w) (set_nth r df (heap w)) (reads w) (page w)).
Arguments assign r df w /.

(** [df[c]] and the in-place [df[c] = col] on an object. *)
Definition get_column (r : ref) (c : string) : M column :=
  df <- deref r ;; lift (getitem df c).
Arguments get_column r c w /.

Definition set_column (r : ref) (c : string) (col : column) : M unit :=
  df <- deref r ;;
  df' <- lift (setitem df c col) ;;
  assign r df'.
Arguments set_column r c col w /.

(* ------------------------------------------------------------------ *)
(** ** The artifact loader *)

Definition ARTIFACTS_DIR : string := "artifacts".

Definition file_map : list (string * string) :=
  [("cluster_analysis", "cluster_analysis.csv");
   ("fan_probabilities", "fan_purchase_probabilities.csv");
   ("model_comparison", "model_comparison.csv");
   ("team_forecasts", "team_revenue_forecasts.csv");
   ("revenue_forecast", "revenue_forecast_30d.csv");
   ("xgboost_importance", "xgboost_feature_importance.csv");
   ("lstm_history", "lstm_training_history.csv")].

(** [os.path.join(a, b)] for a relative [b] *)
Definition os_path_join (a b : string) : string :=
  String.append a (String.append "/" b).

Definition os_path_exists (path : string) : M bool :=
  fun w => (Ok (match dict_get (files w) path with Some _ => true | None => false end),
            w).
Arguments os_path_exists path w /.

(** What [read_csv] raises on a file it cannot parse: [EmptyDataError] and
    [ParserError] are kinds of [ValueError]. *)
Definition unreadable : exn := ValueError "No columns to parse from file".

(** [pd.read_csv(path)]: one read of the disk; a new object when the file
    parses, an exception when it does not. *)
Definition pd_read_csv (path : string) : M ref :=
  fun w =>
    match dict_get (files w) path with
    | Some (Csv df) =>
        new_object df
          (mkWorld (files w) (cache w) (heap w) (reads w ++ [path]) (page w))
    | Some Damaged =>
        (Raise unreadable,
         mkWorld (files w) (cache w) (heap w) (reads w ++ [path]) (page w))
    | None => (Raise (FileNotFoundError path), w)
    end.
Arguments pd_read_csv path w /.

(** A Python string is true when it is not empty. *)
Definition truthy (s : string) : bool := negb (String.eqb s "").

(** The body of [load_data], without its decorator. *)
Definition load_data_body (file_name : string) : M (option ref) :=
  match dict_get file_map file_name with
  | Some filename =>
      if truthy filename then
        let path := os_path_join ARTIFACTS_DIR filename in
        e <- os_path_exists path ;;
        if e then r <- pd_read_csv path ;; ret (Some r) else ret None
      else ret None
  | None => ret None
  end.

Definition cache_write (key : string) (v : option DataFrame) : M unit :=
  fun w => (Ok tt,
            mkWorld (files w) (dict_set (cache w) key v) (heap w) (reads w) (page w)).
Arguments cache_write key v w /.

(** What pickling stores for a returned value. *)
Definition pickled (v : option ref) : M (option DataFrame) :=
  match v with
  | Some r => df <- deref r ;; ret (Some df)
  | None => ret None
  end.

(** [@st.cache_data]: on a hit the stored copy is unpickled into a new
    object and the function is not run; on a miss the function runs, a
    pickled copy of its value is stored and the value is returned.  A raised
    exception is not stored. *)
Definition st_cache_data (f : string -> M (option ref)) (arg : string)
  : M (option ref) :=
  fun w =>
    match dict_get (cache w) arg with
    | Some (Some df) => (r <- new_object df ;; ret (Some r)) w
    | Some None => (Ok None, w)
    | None =>
        (v <- f arg ;;
         copy <- pickled v ;;
         cache_write arg copy ;;
         ret v) w
    end.

Definition load_data : string -> M (option ref) := st_cache_data load_data_body.

(* ------------------------------------------------------------------ *)
(** ** Tab 1: executive summary *)

Definition home_summary : string :=
"
            A análise aprofundada dos dados de torcedores e transações revelou oportunidades significativas para o crescimento da receita.
            Identificamos dois principais segmentos de fãs (clusters) com comportamentos distintos:

            - **Cluster 2 (Fãs de Alto Valor):** Embora representem uma parcela menor da base, são responsáveis por **74% da receita total**. Eles gastam mais, compram com mais frequência e devem ser o foco principal de campanhas de marketing personalizadas.

            - **Cluster 1 (Fãs Ocasionais):** Um grupo maior com gastos menores. Existem oportunidades para aumentar seu engajamento e valor médio de transação através de ofertas direcionadas.

            O modelo **XGBoost** demonstrou a melhor performance para a previsão de receita diária, sendo a escolha para o forecast de 30 dias. A receita esperada por time indica que **Flamengo** e **Imperial** possuem o maior potencial de faturamento na próxima campanha.
            ".

Definition home_missing : string :=
  "Um ou mais arquivos de dados não foram encontrados na pasta 'artifacts'. Por favor, verifique se os arquivos 'team_revenue_forecasts.csv', 'revenue_forecast_30d.csv' e 'fan_purchase_probabilities.csv' existem.".

Definition display_home (L : library) : M unit :=
  st (Title "📊 Resumo Executivo e KPIs") ;;
  st (Markdown "Visão geral dos insights e principais indicadores de desempenho (KPIs) extraídos das análises.") ;;
  team_df <- load_data "team_forecasts" ;;
  forecast_df <- load_data "revenue_forecast" ;;
  fan_df <- load_data "fan_probabilities" ;;
  match team_df, forecast_df, fan_df with
  | Some team_df, Some forecast_df, Some fan_df =>
      revenue <- get_column forecast_df "Revenue_Forecast" ;;
      total_revenue_forecast <- lift (series_sum L revenue) ;;
      team <- deref team_df ;;
      label <- lift (idxmax team "Expected_Revenue") ;;
      top_team <- lift (df_loc team label) ;;
      fans <- deref fan_df ;;
      probability <- lift (getitem fans "Purchase_Probability") ;;
      mask <- lift (series_gt probability (3 # 4)) ;;
      let high_prob_fans := n_rows (df_select fans mask) in
      st (Markdown "### Principais Indicadores") ;;
      st (Metric "Receita Prevista (30d)" total_revenue_forecast None) ;;
      team_id <- lift (row_first top_team) ;;
      team_revenue <- lift (row_get top_team "Expected_Revenue") ;;
      st (Metric "Time de Maior Potencial" team_id (Some team_revenue)) ;;
      st (Metric "Fãs com Alta Prob. de Compra (>75%)"
                 (SInt (Z.of_nat high_prob_fans)) None) ;;
      st (Markdown "---") ;;
      st (Markdown home_summary)
  | _, _, _ => st (Error home_missing)
  end.

(* ------------------------------------------------------------------ *)
(** ** Tab 2: revenue forecast *)

Definition forecast_missing : string :=
  "Arquivo de previsão de receita ('revenue_forecast_30d.csv') não encontrado na pasta 'artifacts'.".

Definition display_revenue_forecast (L : library) : M unit :=
  st (Title "📈 Previsão de Receita (Próximos 30 Dias)") ;;
  st (Markdown "Projeção da receita diária com base no modelo preditivo de melhor performance (XGBoost).") ;;
  forecast_df <- load_data "revenue_forecast" ;;
  match forecast_df with
  | Some forecast_df =>
      raw <- get_column forecast_df "Date" ;;
      dates <- lift (to_datetime L raw) ;;
      set_column forecast_df "Date" dates ;;
      x1 <- get_column forecast_df "Date" ;;
      y1 <- get_column forecast_df "Upper_Bound" ;;
      x2 <- get_column forecast_df "Date" ;;
      y2 <- get_column forecast_df "Lower_Bound" ;;
      x3 <- get_column forecast_df "Date" ;;
      y3 <- get_column forecast_df "Revenue_Forecast" ;;
      st (PlotlyChart (GoFigure [Scatter x1 y1 "Limite Superior";
                                 Scatter x2 y2 "Limite Inferior";
                                 Scatter x3 y3 "Previsão de Receita"])) ;;
      st (Markdown "### Análise da Receita por Dia da Semana") ;;
      dates <- get_column forecast_df "Date" ;;
      names <- lift (dt_day_name dates) ;;
      set_column forecast_df "Day_of_Week" names ;;
      df <- deref forecast_df ;;
      by_day <- lift (groupby_sum L df "Day_of_Week" "Revenue_Forecast") ;;
      ordered <- lift (reindex by_day
                         ["Monday"; "Tuesday"; "Wednesday"; "Thursday";
                          "Friday"; "Saturday"; "Sunday"]) ;;
      let revenue_by_day :=
        reset_index ordered "Day_of_Week" "Revenue_Forecast" in
      fig2 <- lift (px L "bar" revenue_by_day
                       [("x", "Day_of_Week"); ("y", "Revenue_Forecast");
                        ("color", "Revenue_Forecast")]) ;;
      st (PlotlyChart fig2)
  | None => st (Error forecast_missing)
  end.

(* ------------------------------------------------------------------ *)
(** ** Tab 3: revenue by team *)

Definition teams_missing : string :=
  "Arquivo de estimativas por time ('team_revenue_forecasts.csv') não encontrado na pasta 'artifacts'.".

Definition display_team_revenue (L : library) : M unit :=
  st (Title "🏆 Estimativa de Receita por Time") ;;
  st (Markdown "Previsão de receita para cada time na próxima campanha, com base no comportamento dos seus fãs.") ;;
  team_df <- load_data "team_forecasts" ;;
  match team_df with
  | Some team_df =>
      loaded <- deref team_df ;;
      sorted <- lift (sort_values L loaded "Expected_Revenue" false) ;;
      team_df <- new_object sorted ;;
      df <- deref team_df ;;
      (if has_column df "Unnamed: 0"
       then assign team_df (rename_columns df "Unnamed: 0" "Time")
       else ret tt) ;;
      df <- deref team_df ;;
      st (Markdown "#### Comparativo de Receita Esperada") ;;
      fig <- lift (px L "bar" df
                      [("x", "Time"); ("y", "Expected_Revenue");
                       ("color", "Avg_Purchase_Probability")]) ;;
      st (PlotlyChart fig) ;;
      st (Markdown "#### Distribuição da Receita e Fãs") ;;
      fig2 <- lift (px L "treemap" df
                       [("path", "Time"); ("values", "Expected_Revenue");
                        ("color", "Fan_Count"); ("hover_data", "Historical_Avg")]) ;;
      st (PlotlyChart fig2) ;;
      st (Markdown "#### Detalhamento dos Dados por Time") ;;
      st (DataFrameView df)
  | None => st (Error teams_missing)
  end.

(* ------------------------------------------------------------------ *)
(** ** Tab 4: fan segmentation *)

Definition fans_missing : string :=
  "Arquivos de análise de fãs ('cluster_analysis.csv' ou 'fan_purchase_probabilities.csv') não encontrados na pasta 'artifacts'.".

Definition display_fan_segmentation (L : library) : M unit :=
  st (Title "👥 Análise de Fãs e Segmentação") ;;
  st (Markdown "Divisão dos fãs em grupos (clusters) com base em seu comportamento de compra e engajamento.") ;;
  cluster_df <- load_data "cluster_analysis" ;;
  fan_df <- load_data "fan_probabilities" ;;
  match cluster_df, fan_df with
  | Some cluster_df, Some fan_df =>
      loaded <- deref cluster_df ;;
      cluster <- lift (getitem loaded "Cluster") ;;
      let cluster_df := df_select loaded (series_ne cluster 0) in
      st (Markdown "### Comparativo entre Clusters") ;;
      fig1 <- lift (px L "pie" cluster_df
                       [("names", "Cluster"); ("values", "Revenue_Share")]) ;;
      st (PlotlyChart fig1) ;;
      fig2 <- lift (px L "bar" cluster_df
                       [("x", "Cluster"); ("y", "Total_Spent_mean");
                        ("color", "Cluster")]) ;;
      st (PlotlyChart fig2) ;;
      st (Markdown "### Análise Detalhada dos Fãs") ;;
      fans <- deref fan_df ;;
      fig3 <- lift (px L "scatter" fans
                       [("x", "Total_Spent"); ("y", "Purchase_Probability");
                        ("color", "Cluster"); ("size", "Total_Spent");
                        ("hover_data", "fan_id"); ("hover_data", "Favorite_Team")]) ;;
      st (PlotlyChart fig3)
  | _, _ => st (Error fans_missing)
  end.

(* ------------------------------------------------------------------ *)
(** ** Tab 5: model performance *)

(** The first [if] of the function: the model comparison chart. *)
Definition model_comparison_part (L : library) (comp_df : option ref)
  : M unit :=
  match comp_df with
  | Some comp_df =>
      st (Markdown "### Comparativo de Métricas dos Modelos") ;;
      df <- deref comp_df ;;
      metrics_df <- lift (melt2 df "Model" "RMSE" "MAE" "Metric" "Value") ;;
      fig1 <- lift (px L "bar" metrics_df
                       [("x", "Metric"); ("y", "Value"); ("color", "Model")]) ;;
      st (PlotlyChart fig1)
  | None =>
      st (Warning "Arquivo 'model_comparison.csv' não encontrado na pasta 'artifacts'.")
  end.

(** The second [if]: the feature importance chart. *)
Definition feature_importance_part (L : library)
  (importance_df : option ref) : M unit :=
  match importance_df with
  | Some importance_df =>
      st (Markdown "### Importância das Features (Modelo XGBoost)") ;;
      df <- deref importance_df ;;
      top <- lift (nlargest L df 15 "importance") ;;
      fig2 <- lift (px L "bar" top
                       [("x", "importance"); ("y", "feature");
                        ("color", "importance")]) ;;
      st (PlotlyChart fig2)
  | None =>
      st (Warning "Arquivo 'xgboost_feature_importance.csv' não encontrado na pasta 'artifacts'.")
  end.

Definition display_model_performance (L : library) : M unit :=
  st (Title "⚙️ Desempenho dos Modelos") ;;
  st (Markdown "Comparativo de performance entre os modelos de previsão e análise das features mais importantes.") ;;
  comp_df <- load_data "model_comparison" ;;
  importance_df <- load_data "xgboost_importance" ;;
  model_comparison_part L comp_df ;;
  feature_importance_part L importance_df.

(* ------------------------------------------------------------------ *)
(** ** The script *)

Inductive builder : Type :=
| Home
| RevenueForecast
| TeamRevenue
| FanSegmentation
| ModelPerformance.

Definition run_builder (L : library) (b : builder) : M unit :=
  match b with
  | Home => display_home L
  | RevenueForecast => display_revenue_forecast L
  | TeamRevenue => display_team_revenue L
  | FanSegmentation => display_fan_segmentation L
  | ModelPerformance => display_model_performance L
  end.

(** The double quote. *)
Definition dq : string := String (ascii_of_nat 34) "".

(** The style sheet of the page. *)
Definition style_sheet : string :=
  ("
<style>
    /* Melhora a fonte e o espaçamento */
    .main {
        font-family: 'sans-serif';
    }
    /* Estiliza os títulos das abas */
    .stTabs [data-baseweb=" ++ dq ++
  "tab-list" ++ dq ++
  "] {
        gap: 24px;
        padding-top: 10px;
        padding-bottom: 10px;
    }
    .stTabs [data-baseweb=" ++ dq ++
  "tab" ++ dq ++
  "] {
        height: 50px;
        white-space: pre-wrap;
        background-color: #F0F2F6;
        border-radius: 4px 4px 0px 0px;
        gap: 1px;
        padding-top: 10px;
        padding-bottom: 10px;
    }
    .stTabs [aria-selected=" ++ dq ++
  "true" ++ dq ++
  "] {
        background-color: #FFFFFF;
    }
    /* Adiciona um container com sombra para os gráficos */
    .stPlotlyChart {
        border-radius: 10px;
        padding: 20px;
        box-shadow: 0 4px 8px 0 rgba(0,0,0,0.2);
        transition: 0.3s;
    }
    .stPlotlyChart:hover {
        box-shadow: 0 8px 16px 0 rgba(0,0,0,0.2);
    }
</style>")%string.

(** What the module does before its panels: the page configuration, the
    style sheet, the sidebar and the bar of tabs. *)
Definition page_setup : M unit :=
  st (PageConfig "Trexx AI Analytics Dashboard" "⚽" "wide" "expanded") ;;
  st (Markdown style_sheet) ;;
  st (Sidebar (Title "⚽ Trexx AI Analytics")) ;;
  st (Sidebar (Markdown "Dashboard para análise de dados de engajamento e previsão de receita de clubes de futebol.")) ;;
  st (Sidebar (Info "Navegue pelas abas abaixo para explorar as diferentes análises.")) ;;
  st (Tabs ["🏠 Resumo Executivo"; "📈 Previsão de Receita";
            "🏆 Receita por Time"; "👥 Análise de Fãs";
            "⚙️ Performance dos Modelos"]).

(** One run of the script: the setup, then each panel in its tab.  An
    exception that leaves a panel ends the run. *)
Definition script (L : library) : M unit :=
  page_setup ;;
  st (Tab 1) ;; display_home L ;;
  st (Tab 2) ;; display_revenue_forecast L ;;
  st (Tab 3) ;; display_team_revenue L ;;
  st (Tab 4) ;; display_fan_segmentation L ;;
  st (Tab 5) ;; display_model_performance L.

(** The disk that holds the given tables as CSV files. *)
Definition on_disk (fs : list (string * DataFrame)) : list (string * file) :=
  map (fun p => (fst p, Csv (snd p))) fs.

(** A process that has just started: nothing cached, nothing rendered. *)
Definition fresh (fs : list (string * DataFrame)) : world :=
  mkWorld (on_disk fs) [] [] [] [].

(* ------------------------------------------------------------------ *)
(** ** Libraries *)

(** The libraries below serve to run the program on sample artifacts.  No
    theorem over every library depends on them. *)

Definition digit_of (c : ascii) : option Z :=
  let n := nat_of_ascii c in
  if (48 <=? n)%nat && (n <=? 57)%nat then Some (Z.of_nat (n - 48)) else None.

Fixpoint digits_value (acc : Z) (cs : list ascii) : option Z :=
  match cs with
  | [] => Some acc
  | c :: cs' =>
      match digit_of c with
      | Some d => digits_value (10 * acc + d)%Z cs'
      | None => None
      end
  end.

Definition is_leap (y : Z) : bool :=
  ((y mod 4 =? 0) && negb (y mod 100 =? 0) || (y mod 400 =? 0))%Z.

Definition days_in_month (y m : Z) : Z :=
  if (m =? 2)%Z then (if is_leap y then 29 else 28)%Z
  else if ((m =? 4) || (m =? 6) || (m =? 9) || (m =? 11))%Z then 30%Z
  else 31%Z.

(** Days from 1970-01-01 to the given day of the proleptic Gregorian
    calendar. *)
Definition days_from_civil (y m d : Z) : Z :=
  let y' := (if m <=? 2 then y - 1 else y)%Z in
  let era := (y' / 400)%Z in
  let yoe := (y' - era * 400)%Z in
  let mp := (if m >? 2 then m - 3 else m + 9)%Z in
  let doy := ((153 * mp + 2) / 5 + d - 1)%Z in
  let doe := (yoe * 365 + yoe / 4 - yoe / 100 + doy)%Z in
  (era * 146097 + doe - 719468)%Z.

(** A date text spelled [YYYY-MM-DD], as a timestamp. *)
Definition parse_date (s : string) : option Z :=
  match list_ascii_of_string s with
  | [y1; y2; y3; y4; "-"%char; m1; m2; "-"%char; d1; d2] =>
      match digits_value 0 [y1; y2; y3; y4], digits_value 0 [m1; m2],
            digits_value 0 [d1; d2] with
      | Some y, Some m, Some d =>
          if ((1 <=? m) && (m <=? 12) && (1 <=? d) && (d <=? days_in_month y m))%Z
          then Some (days_from_civil y m d * ns_per_day)%Z
          else None
      | _, _, _ => None
      end
  | _ => None
  end.

(** Reads the spelling [YYYY-MM-DD] and no other. *)
Definition iso_dates (column_cells : list (option string)) (s : string)
  : option Z :=
  parse_date s.

(** Adds the cells from left to right without rounding, missing cells
    skipped. *)
Definition exact_sum (l : list float64) : float64 :=
  Fin (fold_left (fun acc x => match x with
                               | Fin q => Qred (acc + q)
                               | NaN => acc
                               end) l 0%Q).


(** Marker sizes must be numbers that are present and not negative; the
    levels of a hierarchy must be present. *)
Definition size_ok (c : column) : bool :=
  match c with
  | FloatCol l => forallb (fun x => match x with
                                    | Fin q => Qle_bool 0 q
                                    | NaN => false
                                    end) l
  | IntCol l => forallb (fun z => (0 <=? z)%Z) l
  | _ => false
  end.

Definition present (c : column) : bool :=
  match c with
  | FloatCol l => forallb (fun x => match x with Fin _ => true | NaN => false end) l
  | ObjCol l => forallb (fun x => match x with Some _ => true | None => false end) l
  | TimeCol l => forallb (fun x => match x with Some _ => true | None => false end) l
  | IntCol _ => true
  end.

Definition checks_cells (kind : string) (df : DataFrame)
  (args : list (string * string)) : bool :=
  forallb (fun a =>
             match dict_get (columns df) (snd a) with
             | Some c =>
                 if String.eqb (fst a) "size" then size_ok c
                 else if String.eqb (fst a) "path" then present c
                 else true
             | None => false
             end) args.

(** A stable sort, ISO dates, exact sums, charts that check their cells. *)
Definition sample_library : library :=
  mkLibrary argsort_stable iso_dates exact_sum exact_sum checks_cells.


(* ------------------------------------------------------------------ *)
(** ** Sample artifacts *)

Definition floats (l : list Z) : column := FloatCol (map (fun z => Fin (inject_Z z)) l).
Definition texts (l : list string) : column := ObjCol (map Some l).
Definition range_index (n : nat) : list nat := seq 0 n.

(** Three teams; the second and third tie on the expected revenue. *)
Definition sample_teams : DataFrame :=
  mkDF (range_index 3)
       [("Unnamed: 0", texts ["Imperial"; "Flamengo"; "Santos"]);
        ("Expected_Revenue", floats [800; 1200; 1200]%Z);
        ("Avg_Purchase_Probability",
         FloatCol [Fin (1 # 2); Fin (3 # 5); Fin (2 # 5)]);
        ("Fan_Count", IntCol [40; 90; 70]%Z);
        ("Historical_Avg", floats [700; 1100; 900]%Z)].

(** A Monday and a Wednesday, as in the example of the specification, and a
    second Monday. *)
Definition sample_forecast : DataFrame :=
  mkDF (range_index 3)
       [("Date", texts ["2024-01-01"; "2024-01-03"; "2024-01-08"]);
        ("Revenue_Forecast", floats [100; 50; 25]%Z);
        ("Upper_Bound", floats [120; 60; 30]%Z);
        ("Lower_Bound", floats [80; 40; 20]%Z)].

Definition sample_fans : DataFrame :=
  mkDF (range_index 4)
       [("fan_id", IntCol [1; 2; 3; 4]%Z);
        ("Total_Spent", floats [0; 150; 900; 300]%Z);
        ("Purchase_Probability",
         FloatCol [Fin (1 # 10); Fin (3 # 4); Fin (9 # 10); Fin (4 # 5)]);
        ("Cluster", IntCol [0; 1; 2; 1]%Z);
        ("Favorite_Team", texts ["Santos"; "Flamengo"; "Flamengo"; "Imperial"])].

(** Cluster 0 holds the largest revenue share. *)
Definition sample_clusters : DataFrame :=
  mkDF (range_index 3)
       [("Cluster", IntCol [0; 1; 2]%Z);
        ("Revenue_Share", floats [60; 10; 30]%Z);
        ("Total_Spent_mean", floats [5; 150; 900]%Z)].

Definition sample_models : DataFrame :=
  mkDF (range_index 2)
       [("Model", texts ["XGBoost"; "LSTM"]);
        ("RMSE", floats [10; 14]%Z);
        ("MAE", floats [7; 9]%Z)].

(** [n] names: the prefix followed by a capital letter. *)
Definition lettered (prefix : string) (n : nat) : list string :=
  map (fun i => String.append prefix (String (ascii_of_nat (65 + i)) ""))
      (seq 0 n).

(** Twenty features; those at positions 5 and 16 tie on the importance at
    the rank where the selection of fifteen ends. *)
Definition sample_importance : DataFrame :=
  mkDF (range_index 20)
       [("feature", texts (lettered "feature_" 20));
        ("importance",
         floats [20; 3; 19; 18; 17; 7; 16; 15; 14; 13;
                 12; 11; 10; 9; 2; 30; 7; 25; 1; 0]%Z)].

Definition sample_files : list (string * DataFrame) :=
  [("artifacts/cluster_analysis.csv", sample_clusters);
   ("artifacts/fan_purchase_probabilities.csv", sample_fans);
   ("artifacts/model_comparison.csv", sample_models);
   ("artifacts/team_revenue_forecasts.csv", sample_teams);
   ("artifacts/revenue_forecast_30d.csv", sample_forecast);
   ("artifacts/xgboost_feature_importance.csv", sample_importance)].

(** The same directory without the file of the fans. *)
Definition files_without_fans : list (string * DataFrame) :=
  [("artifacts/cluster_analysis.csv", sample_clusters);
   ("artifacts/model_comparison.csv", sample_models);
   ("artifacts/team_revenue_forecasts.csv", sample_teams);
   ("artifacts/revenue_forecast_30d.csv", sample_forecast);
   ("artifacts/xgboost_feature_importance.csv", sample_importance)].

(** A team file that holds its header only: no row, and columns of dtype
    object, as [read_csv] types a column without cells. *)
Definition empty_teams : DataFrame :=
  mkDF []
       [("Unnamed: 0", ObjCol []);
        ("Expected_Revenue", ObjCol []);
        ("Avg_Purchase_Probability", ObjCol []);
        ("Fan_Count", ObjCol []);
        ("Historical_Avg", ObjCol [])].

Definition files_with_empty_teams : list (string * DataFrame) :=
  [("artifacts/fan_purchase_probabilities.csv", sample_fans);
   ("artifacts/team_revenue_forecasts.csv", empty_teams);
   ("artifacts/revenue_forecast_30d.csv", sample_forecast)].

(** A team file whose revenue cells are all empty. *)
Definition unrated_teams : DataFrame :=
  mkDF (range_index 2)
       [("Unnamed: 0", texts ["Imperial"; "Flamengo"]);
        ("Expected_Revenue", FloatCol [NaN; NaN]);
        ("Avg_Purchase_Probability", FloatCol [Fin (1 # 2); Fin (3 # 5)]);
        ("Fan_Count", IntCol [40; 90]%Z);
        ("Historical_Avg", floats [700; 1100]%Z)].

Definition files_with_unrated_teams : list (string * DataFrame) :=
  [("artifacts/fan_purchase_probabilities.csv", sample_fans);
   ("artifacts/team_revenue_forecasts.csv", unrated_teams);
   ("artifacts/revenue_forecast_30d.csv", sample_forecast)].

(** A process that has just started on a disk whose team file cannot be
    parsed. *)
Definition damaged_start : world :=
  mkWorld [("artifacts/team_revenue_forecasts.csv", Damaged)] [] [] [] [].

(* ------------------------------------------------------------------ *)
(** ** Vocabulary of the statements *)

(** The seven logical names of the data model. *)
Definition logical_names : list string :=
  ["cluster_analysis"; "fan_probabilities"; "model_comparison";
   "team_forecasts"; "revenue_forecast"; "xgboost_importance"; "lstm_history"].

Definition path_of (n : string) : string :=
  match dict_get file_map n with
  | Some f => os_path_join ARTIFACTS_DIR f
  | None => ""
  end.

(** What a call of [load_data] yields, given the disk and the cache: the
    cached value when there is one; otherwise the table of the file behind
    the name, nothing when there is no such file, and the exception of
    [read_csv] when the file cannot be parsed. *)
Definition table_of (fs : list (string * file))
  (c : list (string * option DataFrame)) (n : string)
  : result (option DataFrame) :=
  match dict_get c n with
  | Some v => Ok v
  | None =>
      match dict_get file_map n with
      | Some f =>
          if truthy f then
            match dict_get fs (os_path_join ARTIFACTS_DIR f) with
            | Some (Csv df) => Ok (Some df)
            | Some Damaged => Raise unreadable
            | None => Ok None
            end
          else Ok None
      | None => Ok None
      end
  end.

Definition lookup_table (w : world) (n : string) : result (option DataFrame) :=
  table_of (files w) (cache w) n.

(** The value behind the outcome of a call. *)
Definition returned (r : result (option ref) * world)
  : result (option DataFrame) :=
  match fst r with
  | Ok None => Ok None
  | Ok (Some x) =>
      match nth_error (heap (snd r)) x with
      | Some df => Ok (Some df)
      | None => Raise (ValueError "dangling reference")
      end
  | Raise e => Raise e
  | Unknown s => Unknown s
  end.

(** A frame as [read_csv] builds it: every column as long as the index, the
    index counting from 0. *)
Definition well_formed (df : DataFrame) : bool :=
  forallb (fun nc => Nat.eqb (col_len (snd nc)) (length (index df)))
          (columns df).

Definition range_indexed (df : DataFrame) : Prop :=
  index df = seq 0 (length (index df)).

(** What happens in a session: direct loads and panel renderings. *)
Inductive action : Type :=
| Fetch (n : string)
| Render (b : builder).

Definition run_action (L : library) (a : action) (w : world) : world :=
  match a with
  | Fetch n => snd (load_data n w)
  | Render b => snd (run_builder L b w)
  end.

Definition run_actions (L : library) (l : list action) (w : world) : world :=
  fold_left (fun w a => run_action L a w) l w.

(** The same state after every file has been removed from the disk. *)
Definition disk_emptied (w : world) : world :=
  mkWorld [] (cache w) (heap w) (reads w) (page w).

(** The effect of one [load_data n] on each part of the state. *)
Definition cache_after (c : list (string * option DataFrame)) (n : string)
  (t : option DataFrame) : list (string * option DataFrame) :=
  match dict_get c n with
  | Some _ => c
  | None => dict_set c n t
  end.

Definition reads_after (r : list string) (c : list (string * option DataFrame))
  (n : string) (t : option DataFrame) : list string :=
  match dict_get c n, t with
  | None, Some _ => r ++ [path_of n]
  | _, _ => r
  end.

Definition heap_after (h : list DataFrame) (t : option DataFrame)
  : list DataFrame :=
  match t with
  | Some df => h ++ [df]
  | None => h
  end.

Definition ref_after (h : list DataFrame) (t : option DataFrame) : option ref :=
  match t with
  | Some _ => Some (length h)
  | None => None
  end.

(** The state after [load_data n]: when the call returns [t], and when the
    read fails. *)
Definition after_load (w : world) (n : string) : world :=
  match lookup_table w n with
  | Ok t =>
      mkWorld (files w) (cache_after (cache w) n t) (heap_after (heap w) t)
              (reads_after (reads w) (cache w) n t) (page w)
  | _ =>
      mkWorld (files w) (cache w) (heap w) (reads w ++ [path_of n]) (page w)
  end.

Definition outcome_of_load (w : world) (n : string) : result (option ref) :=
  match lookup_table w n with
  | Ok t => Ok (ref_after (heap w) t)
  | Raise e => Raise e
  | Unknown s => Unknown s
  end.

(** The file of a logical name can be parsed, or is not there. *)
Definition readable (w : world) (n : string) : Prop :=
  dict_get (files w) (path_of n) <> Some Damaged.

(** Every file that was read is the file of a logical name; the file of a
    logical name, if it can be parsed, was read at most once, and if it was
    read the result is cached. *)
Definition reads_accounted (w : world) : Prop :=
  (forall p, In p (reads w) -> exists m, In m logical_names /\ p = path_of m) /\
  (forall n, In n logical_names -> readable w n ->
     (count_occ string_dec (reads w) (path_of n) <= 1)%nat /\
     (In (path_of n) (reads w) -> dict_get (cache w) n <> None)).

(** [w'] follows [w] without touching the disk or a cache entry. *)
Definition keeps (w w' : world) : Prop :=
  files w' = files w /\
  (forall n v, dict_get (cache w) n = Some v -> dict_get (cache w') n = Some v) /\
  (reads_accounted w -> reads_accounted w').

Definition sound {A : Type} (c : M A) : Prop :=
  forall w, keeps w (snd (c w)).

(** A purchase probability strictly above three quarters. *)
Definition above_three_quarters (p : float64) : bool :=
  match p with
  | Fin q => if Qlt_le_dec (3 # 4) q then true else false
  | NaN => false
  end.

(** The number of the weekday of a timestamp, Monday being 0: the days
    since 1970-01-01, a Thursday, counted modulo 7. *)
Definition weekday_number (t : Z) : Z :=
  ((t / 86400000000000 + 3) mod 7)%Z.

(** A row falls on the weekday of number [d] when its date does; a row
    without a date falls on no weekday. *)
Definition falls_on (d : Z) (t : option Z) : bool :=
  match t with
  | Some t => (weekday_number t =? d)%Z
  | None => false
  end.

(** The forecasts of the rows that fall on the weekday of number [d], in
    the order of the table. *)
Definition cells_on (d : Z) (times : list (option Z)) (revs : list float64)
  : list float64 :=
  map snd (filter (fun row => falls_on d (fst row)) (combine times revs)).

(** The entry of the weekday rollup for the weekday of number [d]: the sum
    the library gives for the forecasts of the rows that fall on it, and NaN
    when no row does. *)
Definition weekday_total (L : library) (times : list (option Z))
  (revs : list float64) (d : Z) : float64 :=
  match cells_on d times revs with
  | [] => NaN
  | cells => group_float_sum L cells
  end.

(** What every sort kind guarantees of [argsort] on one array [a]: the
    outcome lists each position of [a] once, and the values taken in that
    order ascend.  Nothing is said of the order of equal values. *)
Definition is_permutation_b (idx : list nat) (n : nat) : bool :=
  Nat.eqb (length idx) n &&
  forallb (fun i => existsb (Nat.eqb i) idx) (seq 0 n).

Fixpoint ascending_b (a : list Q) (idx : list nat) : bool :=
  match idx with
  | [] => true
  | i :: rest =>
      forallb (fun j => Qle_bool (nth i a 0%Q) (nth j a 0%Q)) rest &&
      ascending_b a rest
  end.

Definition argsort_ok (argsort : argsort_fn) (a : list Q) : bool :=
  is_permutation_b (argsort a) (length a) && ascending_b a (argsort a).

(** The array [nargsort] hands to [argsort] for a descending sort. *)
Definition descending_input (items : list float64) : list Q :=
  rev (map snd (notna_enum items)).

(** [x] may stand before [y] in a column sorted descending, missing cells
    last. *)
Definition not_below (x y : float64) : Prop :=
  match x, y with
  | Fin a, Fin b => (b <= a)%Q
  | _, NaN => True
  | NaN, Fin _ => False
  end.


(** Four teams listed by rising revenue, tied two by two. *)
Definition paired_teams : DataFrame :=
  mkDF (range_index 4)
       [("Unnamed: 0", texts ["Avai"; "Bahia"; "Ceara"; "Duque"]);
        ("Expected_Revenue", floats [1000; 1000; 2000; 2000]%Z);
        ("Avg_Purchase_Probability", FloatCol (repeat (Fin (1 # 2)) 4));
        ("Fan_Count", IntCol (repeat 10%Z 4));
        ("Historical_Avg", floats (repeat 1000%Z 4))].







(* ------------------------------------------------------------------ *)
(** ** Vocabulary of the further properties *)

(** The six names the panels ask [load_data] for.  [lstm_history] is in the
    file map and no panel asks for it. *)
Definition panel_names : list string :=
  ["team_forecasts"; "revenue_forecast"; "fan_probabilities";
   "cluster_analysis"; "model_comparison"; "xgboost_importance"].

Definition is_metric (x : widget) : bool :=
  match x with
  | Metric _ _ _ => true
  | _ => false
  end.

(** [c] loads names of [names] only: the other cache entries stay as they
    are, and every file it reads is the file of one of the names. *)
Definition confined {A : Type} (names : list string) (c : M A) : Prop :=
  forall w,
    (forall n, ~ In n names ->
               dict_get (cache (snd (c w))) n = dict_get (cache w) n) /\
    (forall p, In p (reads (snd (c w))) ->
               In p (reads w) \/ In p (map path_of names)).

(** Every table the panels load has a cache entry. *)
Definition warm (w : world) : Prop :=
  forall n, In n panel_names -> dict_get (cache w) n <> None.

(** [c] reads no file when it starts from a warm cache. *)
Definition quiet {A : Type} (c : M A) : Prop :=
  forall w, warm w -> reads (snd (c w)) = reads w.

(** A run of [c] that returns leaves a cache entry for [n]. *)
Definition caches {A : Type} (n : string) (c : M A) : Prop :=
  forall w a, fst (c w) = Ok a -> dict_get (cache (snd (c w))) n <> None.

(** What the module shows before its panels. *)
Definition setup_widgets : list widget :=
  [PageConfig "Trexx AI Analytics Dashboard" "⚽" "wide" "expanded";
   Markdown style_sheet;
   Sidebar (Title "⚽ Trexx AI Analytics");
   Sidebar (Markdown "Dashboard para análise de dados de engajamento e previsão de receita de clubes de futebol.");
   Sidebar (Info "Navegue pelas abas abaixo para explorar as diferentes análises.");
   Tabs ["🏠 Resumo Executivo"; "📈 Previsão de Receita";
         "🏆 Receita por Time"; "👥 Análise de Fãs";
         "⚙️ Performance dos Modelos"]].

(** The positions a boolean mask selects, counted from [k]. *)
Fixpoint positions_from (k : nat) (mask : list bool) : list nat :=
  match mask with
  | [] => []
  | b :: mask' =>
      if b then k :: positions_from (S k) mask' else positions_from (S k) mask'
  end.

Definition true_positions (mask : list bool) : list nat :=
  positions_from 0 mask.

(** [c] leaves every name standing for the table it stood for. *)
Definition stable {A : Type} (c : M A) : Prop :=
  forall w n, lookup_table (snd (c w)) n = lookup_table w n.

(* ------------------------------------------------------------------ *)
(** * Dictionaries and the heap *)

Lemma dict_get_set_same {V : Type} (d : list (string * V)) k v :
  dict_get (dict_set d k v) k = Some v.
Proof.
  induction d as [|[k' v'] d IH]; simpl.
  - now rewrite String.eqb_refl.
  - destruct (String.eqb k k') eqn:E; simpl; rewrite E; auto.
Qed.

Lemma dict_get_set_other {V : Type} (d : list (string * V)) k k' v :
  k' <> k -> dict_get (dict_set d k v) k' = dict_get d k'.
Proof.
  intros Hne. induction d as [|[k0 v0] d IH]; simpl.
  - apply String.eqb_neq in Hne. now rewrite Hne.
  - destruct (String.eqb k k0) eqn:E; simpl.
    + apply String.eqb_eq in E. subst k0.
      apply String.eqb_neq in Hne. now rewrite Hne.
    + now rewrite IH.
Qed.

Lemma nth_error_snoc {A : Type} (h : list A) (x : A) :
  nth_error (h ++ [x]) (length h) = Some x.
Proof.
  rewrite nth_error_app2 by lia. now rewrite Nat.sub_diag.
Qed.

Lemma world_eta w :
  mkWorld (files w) (cache w) (heap w) (reads w) (page w) = w.
Proof. now destruct w. Qed.

Lemma dict_get_on_disk fs p :
  dict_get (on_disk fs) p = option_map Csv (dict_get fs p).
Proof.
  induction fs as [|[k v] fs IH]; simpl; [reflexivity|].
  destruct (String.eqb p k); auto.
Qed.

(* ------------------------------------------------------------------ *)
(** * The loader *)

Ltac run :=
  cbn [bind ret lift st new_object deref assign get_column set_column
       cache_write pickled os_path_exists
       files cache heap reads page fst snd].

Lemma load_data_eq n w :
  load_data n w = (outcome_of_load w n, after_load w n).
Proof.
  unfold load_data, st_cache_data, outcome_of_load, after_load, ref_after,
    cache_after, heap_after, reads_after, lookup_table, table_of.
  destruct (dict_get (cache w) n) as [[df|]|] eqn:Hc.
  - reflexivity.
  - now rewrite world_eta.
  - unfold load_data_body, path_of.
    destruct (dict_get file_map n) as [f|] eqn:Hf; [|reflexivity].
    destruct (truthy f); [|reflexivity].
    run.
    destruct (dict_get (files w) (os_path_join ARTIFACTS_DIR f)) as [[df|]|] eqn:Hx.
    + unfold pd_read_csv. run. rewrite Hx. run.
      rewrite nth_error_snoc. reflexivity.
    + unfold pd_read_csv. run. rewrite Hx. reflexivity.
    + reflexivity.
Qed.

Lemma cache_after_get fs c n t :
  table_of fs c n = Ok t ->
  dict_get (cache_after c n t) n = Some t.
Proof.
  unfold cache_after, table_of.
  destruct (dict_get c n) as [v|] eqn:Hc.
  - intros [= <-]. exact Hc.
  - intros _. apply dict_get_set_same.
Qed.

Lemma cache_after_mono c n t m v :
  dict_get c m = Some v -> dict_get (cache_after c n t) m = Some v.
Proof.
  unfold cache_after. intros Hm.
  destruct (dict_get c n) eqn:Hc; [exact Hm|].
  rewrite dict_get_set_other; [exact Hm|]. congruence.
Qed.

Lemma table_of_cache_after fs c n t m :
  table_of fs c n = Ok t ->
  table_of fs (cache_after c n t) m = table_of fs c m.
Proof.
  intros Ht. unfold table_of at 1.
  destruct (String.eqb_spec m n) as [->|Hne].
  - now rewrite (cache_after_get _ _ _ _ Ht).
  - unfold cache_after. destruct (dict_get c n) eqn:Hc.
    + reflexivity.
    + now rewrite dict_get_set_other.
Qed.

Lemma lookup_table_after_load w n m :
  lookup_table (after_load w n) m = lookup_table w m.
Proof.
  unfold after_load. destruct (lookup_table w n) as [t| |] eqn:Ht;
    unfold lookup_table; simpl; try reflexivity.
  now apply table_of_cache_after.
Qed.

Lemma returned_load n w : returned (load_data n w) = lookup_table w n.
Proof.
  rewrite load_data_eq.
  unfold returned, outcome_of_load, ref_after, after_load, heap_after. simpl.
  destruct (lookup_table w n) as [[df|]| |]; simpl; try reflexivity.
  now rewrite nth_error_snoc.
Qed.

Lemma file_map_names n :
  In n logical_names <-> exists f, dict_get file_map n = Some f.
Proof.
  split.
  - intros H. simpl in H.
    repeat (destruct H as [<-|H]; [eexists; reflexivity|]). contradiction.
  - intros [f Hf]. unfold file_map in Hf. simpl in Hf.
    repeat match type of Hf with
           | context [String.eqb n ?k] =>
               destruct (String.eqb_spec n k) as [->|_];
               [simpl; now intuition|]
           end.
    discriminate.
Qed.

Lemma file_map_truthy n f : dict_get file_map n = Some f -> truthy f = true.
Proof.
  unfold file_map. simpl.
  repeat match goal with
         | |- context [String.eqb n ?k] =>
             destruct (String.eqb n k); [now intros [= <-]|]
         end.
  discriminate.
Qed.

Lemma path_of_inj n n' :
  In n logical_names -> In n' logical_names -> path_of n = path_of n' -> n = n'.
Proof.
  intros H H'. simpl in H, H'.
  repeat (destruct H as [<-|H]; [|]); try contradiction;
  repeat (destruct H' as [<-|H']; [|]); try contradiction;
  intros E; try reflexivity; vm_compute in E; discriminate.
Qed.

Lemma path_of_unknown n m :
  ~ In n logical_names -> In m logical_names -> path_of n <> path_of m.
Proof.
  intros Hn Hm. unfold path_of at 1.
  destruct (dict_get file_map n) as [f|] eqn:Hf.
  - exfalso. apply Hn. apply file_map_names. eauto.
  - simpl in Hm.
    repeat (destruct Hm as [<-|Hm]; [vm_compute; discriminate|]).
    contradiction.
Qed.

(** A name that is not cached and that the loader does not answer with
    [None] has a file on the disk. *)
Lemma lookup_table_known w n :
  dict_get (cache w) n = None -> lookup_table w n <> Ok None ->
  In n logical_names /\ dict_get (files w) (path_of n) <> None.
Proof.
  unfold lookup_table, table_of, path_of. intros ->.
  destruct (dict_get file_map n) as [f|] eqn:Hf; [|congruence].
  destruct (truthy f); [|congruence].
  intros H. split; [apply file_map_names; eauto|].
  destruct (dict_get (files w) (os_path_join ARTIFACTS_DIR f)); congruence.
Qed.

Lemma lookup_table_file w n :
  dict_get (cache w) n = None -> In n logical_names ->
  lookup_table w n =
  match dict_get (files w) (path_of n) with
  | Some (Csv df) => Ok (Some df)
  | Some Damaged => Raise unreadable
  | None => Ok None
  end.
Proof.
  unfold lookup_table, table_of, path_of. intros -> Hn.
  apply file_map_names in Hn. destruct Hn as [f Hf]. rewrite Hf.
  now rewrite (file_map_truthy _ _ Hf).
Qed.

(* ------------------------------------------------------------------ *)
(** * What a computation leaves alone *)

Lemma keeps_refl w : keeps w w.
Proof. unfold keeps. intuition. Qed.

Lemma keeps_trans w1 w2 w3 : keeps w1 w2 -> keeps w2 w3 -> keeps w1 w3.
Proof.
  intros (F1 & C1 & R1) (F2 & C2 & R2). unfold keeps.
  split; [congruence|]. split; auto.
Qed.

Lemma keeps_same w w' :
  files w' = files w -> cache w' = cache w -> reads w' = reads w -> keeps w w'.
Proof.
  intros F C R. unfold keeps, reads_accounted, readable. rewrite F, C, R.
  intuition.
Qed.

Lemma sound_ret {A} (a : A) : sound (ret a).
Proof. intros w. apply keeps_refl. Qed.

Lemma sound_lift {A} (r : result A) : sound (lift r).
Proof. intros w. apply keeps_refl. Qed.

Lemma sound_bind {A B} (c : M A) (k : A -> M B) :
  sound c -> (forall a, sound (k a)) -> sound (bind c k).
Proof.
  intros Hc Hk w. unfold bind. specialize (Hc w).
  destruct (c w) as [[a|e|s] w']; simpl in *.
  - eapply keeps_trans; [exact Hc|apply Hk].
  - exact Hc.
  - exact Hc.
Qed.

Lemma sound_st x : sound (st x).
Proof. intros w. now apply keeps_same. Qed.

Lemma sound_new_object df : sound (new_object df).
Proof. intros w. now apply keeps_same. Qed.

Lemma sound_deref r : sound (deref r).
Proof. intros w. unfold deref. destruct (nth_error (heap w) r); apply keeps_refl. Qed.

Lemma sound_assign r df : sound (assign r df).
Proof. intros w. now apply keeps_same. Qed.

Lemma sound_get_column r c : sound (get_column r c).
Proof.
  unfold get_column. apply sound_bind; [apply sound_deref|intros; apply sound_lift].
Qed.

Lemma sound_set_column r c col : sound (set_column r c col).
Proof.
  unfold set_column. apply sound_bind; [apply sound_deref|intros].
  apply sound_bind; [apply sound_lift|intros; apply sound_assign].
Qed.

Lemma count_occ_snoc (l : list string) x y :
  count_occ string_dec (l ++ [x]) y =
  (count_occ string_dec l y + if string_dec x y then 1 else 0)%nat.
Proof.
  rewrite count_occ_app. simpl. now destruct (string_dec x y).
Qed.

Lemma sound_load_data n : sound (load_data n).
Proof.
  intros w. rewrite load_data_eq. unfold keeps. cbn [snd].
  assert (F : files (after_load w n) = files w).
  { unfold after_load. now destruct (lookup_table w n). }
  assert (C : forall m v, dict_get (cache w) m = Some v ->
                          dict_get (cache (after_load w n)) m = Some v).
  { intros m v Hm. unfold after_load.
    destruct (lookup_table w n); simpl; auto using cache_after_mono. }
  split; [exact F|]. split; [exact C|].
  intros [Hnamed Hacc]. unfold reads_accounted.
  assert (Hkeep : forall m, dict_get (cache w) m <> None ->
                  dict_get (cache (after_load w n)) m <> None).
  { intros m Hne. destruct (dict_get (cache w) m) as [v|] eqn:Hv; [|congruence].
    rewrite (C m v Hv). discriminate. }
  destruct (dict_get (cache w) n) as [v|] eqn:Hc.
  - (* a hit: nothing is read *)
    assert (R : reads (after_load w n) = reads w).
    { unfold after_load, lookup_table, table_of, reads_after. rewrite Hc.
      simpl. rewrite ?Hc. reflexivity. }
    split; [now rewrite R|].
    intros m Hm Hr. unfold readable in Hr. rewrite F in Hr.
    destruct (Hacc m Hm Hr) as [Hcount Hcached].
    rewrite R. split; [exact Hcount|]. intros Hin. auto.
  - destruct (lookup_table w n) as [[df|]| |] eqn:Ht.
    + (* a miss, the file is read *)
      assert (Hk : In n logical_names).
      { apply (lookup_table_known w n Hc). rewrite Ht. discriminate. }
      assert (R : reads (after_load w n) = reads w ++ [path_of n]).
      { unfold after_load. rewrite Ht. cbn [reads]. unfold reads_after.
        now rewrite Hc. }
      assert (Cn : dict_get (cache (after_load w n)) n <> None).
      { unfold after_load. rewrite Ht. cbn [cache]. unfold cache_after.
        rewrite Hc, dict_get_set_same. discriminate. }
      rewrite R. split.
      { intros p Hp. apply in_app_or in Hp. destruct Hp as [Hp|[<-|[]]]; eauto. }
      intros m Hm Hr. unfold readable in Hr. rewrite F in Hr.
      destruct (Hacc m Hm Hr) as [Hcount Hcached].
      destruct (String.eqb_spec m n) as [->|Hne].
      * assert (Hnot : ~ In (path_of n) (reads w)).
        { intros Hin. now apply Hcached in Hin. }
        split; [|intros _; exact Cn].
        rewrite count_occ_snoc.
        rewrite (proj1 (count_occ_not_In string_dec _ _) Hnot).
        destruct (string_dec (path_of n) (path_of n)); lia.
      * assert (Hp : path_of n <> path_of m).
        { intros E. apply Hne. symmetry. now apply path_of_inj. }
        split.
        -- rewrite count_occ_snoc.
           destruct (string_dec (path_of n) (path_of m)); [contradiction|lia].
        -- intros Hin. apply in_app_or in Hin.
           destruct Hin as [Hin|[E|[]]]; [|contradiction]. auto.
    + (* a miss, no file *)
      assert (R : reads (after_load w n) = reads w).
      { unfold after_load. rewrite Ht. cbn [reads]. unfold reads_after.
        now rewrite Hc. }
      rewrite R. split; [exact Hnamed|].
      intros m Hm Hr. unfold readable in Hr. rewrite F in Hr.
      destruct (Hacc m Hm Hr) as [Hcount Hcached].
      split; [exact Hcount|]. auto.
    + (* a miss, the file cannot be parsed *)
      assert (Hk : In n logical_names /\ dict_get (files w) (path_of n) <> None).
      { apply (lookup_table_known w n Hc). rewrite Ht. discriminate. }
      destruct Hk as [Hk _].
      assert (Hd : dict_get (files w) (path_of n) = Some Damaged).
      { rewrite (lookup_table_file w n Hc Hk) in Ht.
        destruct (dict_get (files w) (path_of n)) as [[df|]|];
          try discriminate; reflexivity. }
      assert (R : reads (after_load w n) = reads w ++ [path_of n]).
      { unfold after_load. now rewrite Ht. }
      rewrite R. split.
      { intros p Hp. apply in_app_or in Hp. destruct Hp as [Hp|[<-|[]]]; eauto. }
      intros m Hm Hr. unfold readable in Hr. rewrite F in Hr.
      destruct (Hacc m Hm Hr) as [Hcount Hcached].
      assert (Hp : path_of n <> path_of m) by congruence.
      split.
      * rewrite count_occ_snoc.
        destruct (string_dec (path_of n) (path_of m)); [contradiction|lia].
      * intros Hin. apply in_app_or in Hin.
        destruct Hin as [Hin|[E|[]]]; [auto|contradiction].
    + exfalso. unfold lookup_table, table_of in Ht. rewrite Hc in Ht.
      destruct (dict_get file_map n); [|discriminate].
      destruct (truthy s); [|discriminate].
      destruct (dict_get (files w) _) as [[?|]|]; discriminate.
Qed.

Create HintDb frame.
#[local] Hint Resolve sound_ret sound_lift sound_st sound_new_object
  sound_deref sound_assign sound_get_column sound_set_column
  sound_load_data : frame.

Ltac sound_step :=
  match goal with
  | |- sound (bind _ _) => apply sound_bind; [|intros ?]
  | |- sound (match ?x with _ => _ end) => destruct x
  | |- sound (let _ := _ in _) => cbv zeta
  | |- sound _ => solve [auto with frame]
  end.

Lemma sound_display_home L : sound (display_home L).
Proof. unfold display_home. repeat sound_step. Qed.

Lemma sound_display_revenue_forecast L : sound (display_revenue_forecast L).
Proof. unfold display_revenue_forecast. repeat sound_step. Qed.

Lemma sound_display_team_revenue L : sound (display_team_revenue L).
Proof. unfold display_team_revenue. repeat sound_step. Qed.

Lemma sound_display_fan_segmentation L : sound (display_fan_segmentation L).
Proof. unfold display_fan_segmentation. repeat sound_step. Qed.

Lemma sound_display_model_performance L : sound (display_model_performance L).
Proof.
  unfold display_model_performance, model_comparison_part,
    feature_importance_part.
  repeat sound_step.
Qed.

Lemma sound_run_builder L b : sound (run_builder L b).
Proof.
  destruct b; simpl.
  - apply sound_display_home.
  - apply sound_display_revenue_forecast.
  - apply sound_display_team_revenue.
  - apply sound_display_fan_segmentation.
  - apply sound_display_model_performance.
Qed.

Lemma keeps_run_action L a w : keeps w (run_action L a w).
Proof.
  destruct a; simpl; [apply sound_load_data|apply sound_run_builder].
Qed.

Lemma keeps_run_actions L l w : keeps w (run_actions L l w).
Proof.
  revert w. induction l as [|a l IH]; intros w; simpl.
  - apply keeps_refl.
  - eapply keeps_trans; [apply keeps_run_action|apply IH].
Qed.

(* ------------------------------------------------------------------ *)
(** * Running a panel *)

Lemma load_data_some n w df :
  lookup_table w n = Ok (Some df) ->
  load_data n w =
  (Ok (Some (length (heap w))),
   mkWorld (files w) (cache_after (cache w) n (Some df)) (heap w ++ [df])
           (reads_after (reads w) (cache w) n (Some df)) (page w)).
Proof.
  intros H. rewrite load_data_eq. unfold outcome_of_load, after_load.
  now rewrite H.
Qed.

Lemma load_data_none n w :
  lookup_table w n = Ok None ->
  load_data n w =
  (Ok None,
   mkWorld (files w) (cache_after (cache w) n None) (heap w)
           (reads w) (page w)).
Proof.
  intros H. rewrite load_data_eq. unfold outcome_of_load, after_load, reads_after.
  rewrite H. now destruct (dict_get (cache w) n).
Qed.

Lemma load_data_raise n w e :
  lookup_table w n = Raise e ->
  load_data n w =
  (Raise e,
   mkWorld (files w) (cache w) (heap w) (reads w ++ [path_of n]) (page w)).
Proof.
  intros H. rewrite load_data_eq. unfold outcome_of_load, after_load.
  now rewrite H.
Qed.

Lemma lookup_table_known_result w n s : lookup_table w n <> Unknown s.
Proof.
  unfold lookup_table, table_of.
  destruct (dict_get (cache w) n); [discriminate|].
  destruct (dict_get file_map n) as [f|]; [|discriminate].
  destruct (truthy f); [|discriminate].
  destruct (dict_get (files w) _) as [[?|]|]; discriminate.
Qed.

Ltac exec :=
  cbn [bind ret lift st new_object deref assign get_column set_column
       files cache heap reads page fst snd].

(** The table behind a name, in a state a panel has reached from a state
    the context knows the tables of. *)
Ltac tables :=
  unfold lookup_table; cbn [files cache];
  repeat (rewrite table_of_cache_after by tables);
  match goal with
  | H : lookup_table _ ?n = _ |- table_of _ _ ?n = _ => exact H
  end.

(** One [load_data] step of a panel. *)
Ltac load :=
  match goal with
  | |- context [load_data ?n ?w0] =>
      first [ rewrite (load_data_some n w0 _ ltac:(tables))
            | rewrite (load_data_none n w0 ltac:(tables))
            | rewrite (load_data_raise n w0 _ ltac:(tables)) ]
  end; exec.

(** C7.  When the three loads return and one of the three tables is absent,
    the executive summary shows its heading and a single error notice, and
    no metric. *)
Theorem home_all_or_nothing :
  forall L w t1 t2 t3,
    lookup_table w "team_forecasts" = Ok t1 ->
    lookup_table w "revenue_forecast" = Ok t2 ->
    lookup_table w "fan_probabilities" = Ok t3 ->
    t1 = None \/ t2 = None \/ t3 = None ->
    fst (display_home L w) = Ok tt /\
    page (snd (display_home L w)) =
      page w ++
      [Title "📊 Resumo Executivo e KPIs";
       Markdown "Visão geral dos insights e principais indicadores de desempenho (KPIs) extraídos das análises.";
       Error home_missing].
Proof.
  intros L w t1 t2 t3 H1 H2 H3 H. unfold display_home. exec.
  destruct t1, t2, t3;
    try (exfalso; destruct H as [H|[H|H]]; discriminate H);
    load; load; load; rewrite <- !app_assoc; split; reflexivity.
Qed.

(* ------------------------------------------------------------------ *)
(** * Frames *)

Lemma dict_get_In {V : Type} (d : list (string * V)) k v :
  dict_get d k = Some v -> In (k, v) d.
Proof.
  induction d as [|[k' v'] d IH]; simpl; [discriminate|].
  destruct (String.eqb_spec k k') as [->|_].
  - intros [= ->]. now left.
  - intros H. right. auto.
Qed.

Lemma getitem_In df c col : getitem df c = Ok col -> In (c, col) (columns df).
Proof.
  unfold getitem. destruct (dict_get (columns df) c) eqn:E; [|discriminate].
  intros [= ->]. now apply dict_get_In.
Qed.

Lemma well_formed_len df c col :
  well_formed df = true -> getitem df c = Ok col ->
  col_len col = length (index df).
Proof.
  unfold well_formed. rewrite forallb_forall. intros Hwf Hg.
  apply getitem_In in Hg. specialize (Hwf _ Hg). simpl in Hwf.
  now apply Nat.eqb_eq.
Qed.

Lemma index_of_seq i n : (i < n)%nat -> forall k, index_of (k + i) (seq k n) = Some i.
Proof.
  revert i. induction n as [|n IH]; intros i Hi k; [lia|].
  simpl. destruct i as [|i].
  - rewrite Nat.add_0_r, Nat.eqb_refl. reflexivity.
  - destruct (Nat.eqb_spec (k + S i) k); [lia|].
    replace (k + S i)%nat with (S k + i)%nat by lia.
    rewrite IH by lia. reflexivity.
Qed.

Lemma nth_error_seq0 i n : (i < n)%nat -> nth_error (seq 0 n) i = Some i.
Proof.
  intros H. rewrite nth_error_nth' with (d := 0%nat) by now rewrite length_seq.
  now rewrite seq_nth.
Qed.

Lemma col_iloc_some col i :
  (i < col_len col)%nat -> exists v, col_iloc col i = Some v.
Proof.
  destruct col as [l|l|l|l]; simpl; intros H;
    destruct (nth_error l i) eqn:E;
    try (apply nth_error_None in E; lia); simpl; eauto.
Qed.

Lemma row_at_some cols i :
  Forall (fun nc => i < col_len (snd nc))%nat cols ->
  exists r, row_at cols i = Some r.
Proof.
  induction 1 as [|[n c] cols Hc _ IH]; simpl; [eauto|].
  destruct (col_iloc_some c i Hc) as [v ->]. destruct IH as [r ->]. eauto.
Qed.

Lemma row_at_get cols i r c :
  row_at cols i = Some r ->
  dict_get r c =
  match dict_get cols c with
  | Some col => col_iloc col i
  | None => None
  end.
Proof.
  revert r. induction cols as [|[n col] cols IH]; simpl; intros r.
  - now intros [= <-].
  - destruct (col_iloc col i) as [v|] eqn:Hv; [|discriminate].
    destruct (row_at cols i) as [r'|]; [|discriminate].
    intros [= <-]. simpl. destruct (String.eqb c n); auto.
Qed.

Lemma select_count {A : Type} (mask : list bool) (l : list A) :
  length mask = length l ->
  length (select mask l) = length (filter (fun b => b) mask).
Proof.
  revert l. induction mask as [|b mask IH]; intros [|x l] H; simpl in *;
    try discriminate; auto.
  destruct b; simpl; rewrite IH by lia; reflexivity.
Qed.

Lemma filter_map_length {A : Type} (f : A -> bool) (l : list A) :
  length (filter (fun b => b) (map f l)) = length (filter f l).
Proof.
  induction l as [|x l IH]; simpl; auto. destruct (f x); simpl; auto.
Qed.

(* ------------------------------------------------------------------ *)
(** * The maximum of a column *)

Lemma Qle_bool_false x y : Qle_bool x y = false -> (y < x)%Q.
Proof.
  intros H. apply Qnot_le_lt. intros Hle.
  apply Qle_bool_iff in Hle. congruence.
Qed.

Lemma Qgt_bool_strict q t :
  Qgt_bool q t = if Qlt_le_dec t q then true else false.
Proof.
  unfold Qgt_bool. destruct (Qlt_le_dec t q) as [Hlt|Hle].
  - destruct (Qle_bool q t) eqn:E; [|reflexivity].
    apply Qle_bool_iff in E. exfalso. eapply Qlt_not_le; eauto.
  - apply Qle_bool_iff in Hle. now rewrite Hle.
Qed.

Lemma nanargmax_from_spec l : forall best k i m,
  (forall bi b, best = Some (bi, b) -> (bi < k)%nat) ->
  nanargmax_from best k l = Some (i, m) ->
  (best = Some (i, m) \/
   (k <= i)%nat /\ nth_error l (i - k) = Some (Fin m)) /\
  (forall bi b, best = Some (bi, b) -> (b <= m)%Q /\ (bi <> i -> (b < m)%Q)) /\
  (forall j x, nth_error l j = Some (Fin x) ->
               (x <= m)%Q /\ ((k + j < i)%nat -> (x < m)%Q)).
Proof.
  induction l as [|[|q] l IH]; intros best k i m Hpre H; simpl in H.
  - subst best. split; [now left|]. split.
    + intros bi b [= -> ->]. split; [apply Qle_refl|congruence].
    + intros [|j] x; discriminate.
  - apply IH in H; [|intros bi b Hb; specialize (Hpre _ _ Hb); lia].
    destruct H as (A & B & C). split; [|split; [exact B|]].
    + destruct A as [A|[A1 A2]]; [now left|right]. split; [lia|].
      replace (i - k)%nat with (S (i - S k)) by lia. exact A2.
    + intros [|j] x Hj; simpl in Hj; [discriminate|].
      destruct (C j x Hj) as [C1 C2]. split; [exact C1|].
      intros Hlt. apply C2. lia.
  - assert (Hnew : forall best',
               nanargmax_from (Some (k, q)) (S k) l = Some (i, m) ->
               (forall bi b, best' = Some (bi, b) -> (b < q)%Q) ->
               (best' = Some (i, m) \/
                (k <= i)%nat /\ nth_error (Fin q :: l) (i - k) = Some (Fin m)) /\
               (forall bi b, best' = Some (bi, b) ->
                             (b <= m)%Q /\ (bi <> i -> (b < m)%Q)) /\
               (forall j x, nth_error (Fin q :: l) j = Some (Fin x) ->
                            (x <= m)%Q /\ ((k + j < i)%nat -> (x < m)%Q))).
    { intros best' H' Hlt. apply IH in H'; [|intros bi b [= <- <-]; lia].
      destruct H' as (A & B & C). destruct (B k q eq_refl) as [B1 B2].
      split; [|split].
      - right. destruct A as [[= <- <-]|[A1 A2]].
        + split; [lia|]. now rewrite Nat.sub_diag.
        + split; [lia|]. replace (i - k)%nat with (S (i - S k)) by lia.
          exact A2.
      - intros bi b Hb. specialize (Hlt _ _ Hb).
        assert (b < m)%Q by (eapply Qlt_le_trans; eauto).
        split; [now apply Qlt_le_weak|auto].
      - intros [|j] x Hj; simpl in Hj.
        + injection Hj as <-. split; [exact B1|]. intros Hlt'. apply B2. lia.
        + destruct (C j x Hj) as [C1 C2]. split; [exact C1|].
          intros Hlt'. apply C2. lia. }
    destruct best as [[bi b]|].
    + destruct (Qle_bool q b) eqn:Hq.
      * apply Qle_bool_iff in Hq.
        assert (Hbk : (bi < k)%nat) by (eapply Hpre; eauto).
        apply IH in H; [|intros bi' b' [= <- <-]; lia].
        destruct H as (A & B & C). destruct (B bi b eq_refl) as [B1 B2].
        split; [|split; [exact B|]].
        -- destruct A as [A|[A1 A2]]; [now left|right]. split; [lia|].
           replace (i - k)%nat with (S (i - S k)) by lia. exact A2.
        -- intros [|j] x Hj; simpl in Hj.
           ++ injection Hj as <-. split; [eapply Qle_trans; eauto|].
              intros Hlt. eapply Qle_lt_trans; [exact Hq|]. apply B2. lia.
           ++ destruct (C j x Hj) as [C1 C2]. split; [exact C1|].
              intros Hlt. apply C2. lia.
      * apply Qle_bool_false in Hq. apply Hnew; auto.
        intros bi' b' [= <- <-]. exact Hq.
    + apply Hnew; auto. discriminate.
Qed.

Lemma nanargmax_spec l i :
  nanargmax l = Some i ->
  exists m,
    nth_error l i = Some (Fin m) /\
    (forall j x, nth_error l j = Some (Fin x) -> (x <= m)%Q) /\
    (forall j x, (j < i)%nat -> nth_error l j = Some (Fin x) -> (x < m)%Q).
Proof.
  unfold nanargmax.
  destruct (nanargmax_from None 0 l) as [[i' m]|] eqn:E; [|discriminate].
  intros [= <-]. exists m.
  apply nanargmax_from_spec in E; [|discriminate].
  destruct E as ([E|[_ E]] & _ & C); [discriminate|].
  rewrite Nat.sub_0_r in E. split; [exact E|]. split.
  - intros j x Hj. now apply (C j x).
  - intros j x Hlt Hj. now apply (C j x).
Qed.

Lemma nanargmax_from_some l : forall best k,
  best <> None -> nanargmax_from best k l <> None.
Proof.
  induction l as [|[|q] l IH]; intros best k Hb; simpl; auto.
  destruct best as [[bi b]|]; [|congruence].
  destruct (Qle_bool q b); apply IH; congruence.
Qed.

Lemma nanargmax_from_value l : forall best k j x,
  nth_error l j = Some (Fin x) -> nanargmax_from best k l <> None.
Proof.
  induction l as [|[|q] l IH]; intros best k [|j] x Hj; simpl in *;
    try discriminate; eauto.
  - destruct best as [[bi b]|].
    + destruct (Qle_bool q b); apply nanargmax_from_some; discriminate.
    + apply nanargmax_from_some. discriminate.
  - destruct best as [[bi b]|]; [destruct (Qle_bool q b)|]; eauto.
Qed.

(** A column that holds a value has a maximum. *)
Lemma nanargmax_value l j x :
  nth_error l j = Some (Fin x) -> exists i, nanargmax l = Some i.
Proof.
  intros Hj. unfold nanargmax.
  pose proof (nanargmax_from_value l None 0 j x Hj) as H.
  destruct (nanargmax_from None 0 l) as [[i m]|]; [|congruence].
  simpl. eauto.
Qed.

Lemma nanargmax_from_none l : forall k,
  (forall j x, nth_error l j <> Some (Fin x)) ->
  nanargmax_from None k l = None.
Proof.
  induction l as [|[|q] l IH]; intros k H; simpl; auto.
  - apply IH. intros j x. exact (H (S j) x).
  - exfalso. exact (H 0%nat q eq_refl).
Qed.

Ltac heap_lookup :=
  repeat (rewrite nth_error_app1 by (rewrite ?length_app; simpl; lia));
  rewrite nth_error_snoc.

(** C6 (amended).  With the three tables present and an [Expected_Revenue]
    column that holds at least one value, the executive summary shows three
    metrics: the sum the library gives for all cells of [Revenue_Forecast];
    the identifier and the [Expected_Revenue] of the first row that holds
    the largest [Expected_Revenue]; and the number of fans whose
    [Purchase_Probability] is strictly above 0.75. *)
Theorem home_kpis :
  forall L w team fc fans revs exps probs id_name ids rest j0 x0,
    lookup_table w "team_forecasts" = Ok (Some team) ->
    lookup_table w "revenue_forecast" = Ok (Some fc) ->
    lookup_table w "fan_probabilities" = Ok (Some fans) ->
    getitem fc "Revenue_Forecast" = Ok (FloatCol revs) ->
    well_formed team = true ->
    range_indexed team ->
    columns team = (id_name, ObjCol ids) :: rest ->
    getitem team "Expected_Revenue" = Ok (FloatCol exps) ->
    nth_error exps j0 = Some (Fin x0) ->
    well_formed fans = true ->
    getitem fans "Purchase_Probability" = Ok (FloatCol probs) ->
    exists i team_id m,
      nth_error ids i = Some team_id /\
      nth_error exps i = Some (Fin m) /\
      (forall j x, nth_error exps j = Some (Fin x) -> (x <= m)%Q) /\
      (forall j x, (j < i)%nat -> nth_error exps j = Some (Fin x) -> (x < m)%Q) /\
      fst (display_home L w) = Ok tt /\
      page (snd (display_home L w)) =
        page w ++
        [Title "📊 Resumo Executivo e KPIs";
         Markdown "Visão geral dos insights e principais indicadores de desempenho (KPIs) extraídos das análises.";
         Markdown "### Principais Indicadores";
         Metric "Receita Prevista (30d)" (SFloat (float_sum L revs)) None;
         Metric "Time de Maior Potencial" (SObj team_id)
                (Some (SFloat (Fin m)));
         Metric "Fãs com Alta Prob. de Compra (>75%)"
                (SInt (Z.of_nat (length (filter above_three_quarters probs))))
                None;
         Markdown "---";
         Markdown home_summary].
Proof.
  intros L w team fc fans revs exps probs id_name ids rest j0 x0
         Ht Hf Hp Hrev Hwf Hri Hcols Hexp Hval Hwfp Hprob.
  destruct (nanargmax_value _ _ _ Hval) as [i Hmax].
  destruct (nanargmax_spec _ _ Hmax) as (m & Hi & Hle & Hlt).
  assert (Hlen : length exps = length (index team))
    by exact (well_formed_len _ _ _ Hwf Hexp).
  assert (Hin : (i < length (index team))%nat).
  { rewrite <- Hlen. apply nth_error_Some. congruence. }
  assert (Hrow : exists r, row_at (columns team) i = Some r).
  { apply row_at_some. apply Forall_forall. intros nc Hnc.
    unfold well_formed in Hwf. rewrite forallb_forall in Hwf.
    specialize (Hwf _ Hnc). apply Nat.eqb_eq in Hwf. lia. }
  destruct Hrow as [r Hr].
  assert (Hid : exists team_id,
             nth_error ids i = Some team_id /\ row_first r = Ok (SObj team_id)).
  { rewrite Hcols in Hr. simpl in Hr.
    destruct (nth_error ids i) as [v|]; [|discriminate]. simpl in Hr.
    destruct (row_at rest i); [|discriminate].
    injection Hr as <-. eauto. }
  destruct Hid as (team_id & Hid & Hfirst).
  assert (Hget : row_get r "Expected_Revenue" = Ok (SFloat (Fin m))).
  { unfold row_get. rewrite (row_at_get _ _ _ _ Hr).
    unfold getitem in Hexp.
    destruct (dict_get (columns team) "Expected_Revenue"); [|discriminate].
    injection Hexp as ->. simpl. now rewrite Hi. }
  assert (Hidx : idxmax team "Expected_Revenue" = Ok (Some i)).
  { unfold idxmax. rewrite Hexp. cbn [rbind col_len as_floats].
    destruct exps as [|e exps]; [destruct i; discriminate|].
    cbn [length Nat.eqb].
    rewrite Hmax, Hri. now rewrite nth_error_seq0. }
  assert (Hloc : df_loc team (Some i) = Ok r).
  { unfold df_loc. rewrite Hri.
    pose proof (index_of_seq i _ Hin 0) as E. simpl in E. rewrite E.
    rewrite Hr. unfold row_dtype. rewrite Hcols. reflexivity. }
  exists i, team_id, m. repeat (split; [assumption|]).
  unfold display_home. exec.
  load. load. load.
  heap_lookup. exec. rewrite Hrev. cbn [series_sum]. exec.
  heap_lookup. exec. rewrite Hidx. exec. rewrite Hloc. exec.
  heap_lookup. rewrite Hprob. cbn [series_gt]. exec.
  rewrite Hfirst, Hget. exec.
  unfold n_rows, df_select. cbn [index].
  rewrite select_count
    by (rewrite length_map; exact (well_formed_len _ _ _ Hwfp Hprob)).
  rewrite filter_map_length.
  rewrite (filter_ext _ above_three_quarters)
    by (intros [|q]; [reflexivity|apply Qgt_bool_strict]).
  rewrite <- !app_assoc. split; reflexivity.
Qed.

(** C6, as stated, fails: with the three tables present and a team table
    of two rows whose [Expected_Revenue] cells are all missing, no KPI is
    shown; the panel ends with an exception after its introduction. *)
Lemma unrated_teams_stop_home :
  lookup_table (fresh files_with_unrated_teams) "team_forecasts"
    = Ok (Some unrated_teams) /\
  lookup_table (fresh files_with_unrated_teams) "revenue_forecast"
    = Ok (Some sample_forecast) /\
  lookup_table (fresh files_with_unrated_teams) "fan_probabilities"
    = Ok (Some sample_fans) /\
  n_rows unrated_teams = 2%nat /\
  (exists e,
     fst (display_home sample_library (fresh files_with_unrated_teams))
     = Raise e) /\
  page (snd (display_home sample_library (fresh files_with_unrated_teams))) =
    [Title "📊 Resumo Executivo e KPIs";
     Markdown "Visão geral dos insights e principais indicadores de desempenho (KPIs) extraídos das análises."].
Proof.
  repeat split; try (vm_compute; reflexivity).
  eexists. vm_compute. reflexivity.
Qed.

(** C10.  With the three tables present and a team table of zero rows, the
    executive summary computes no KPI: looking for the row of the largest
    [Expected_Revenue] raises an exception, the panel ends with that
    exception, and no metric is shown. *)
Theorem home_empty_teams :
  forall L w team fc fans,
    lookup_table w "team_forecasts" = Ok (Some team) ->
    lookup_table w "revenue_forecast" = Ok (Some fc) ->
    lookup_table w "fan_probabilities" = Ok (Some fans) ->
    forall revs,
    getitem fc "Revenue_Forecast" = Ok (FloatCol revs) ->
    well_formed team = true ->
    n_rows team = 0%nat ->
    exists e,
      idxmax team "Expected_Revenue" = Raise e /\
      fst (display_home L w) = Raise e /\
      page (snd (display_home L w)) =
        page w ++
        [Title "📊 Resumo Executivo e KPIs";
         Markdown "Visão geral dos insights e principais indicadores de desempenho (KPIs) extraídos das análises."].
Proof.
  intros L w team fc fans Ht Hf Hp revs Hrev Hwf Hn.
  assert (Hidx : exists e, idxmax team "Expected_Revenue" = Raise e).
  { unfold idxmax. destruct (getitem team "Expected_Revenue") as [col|e|s] eqn:Hg;
      simpl; [|eauto|].
    - pose proof (well_formed_len _ _ _ Hwf Hg) as Hl.
      unfold n_rows in Hn. rewrite Hn in Hl. rewrite Hl. simpl. eauto.
    - unfold getitem in Hg.
      destruct (dict_get (columns team) "Expected_Revenue"); discriminate. }
  destruct Hidx as [e Hidx]. exists e. split; [exact Hidx|].
  unfold display_home. exec. load. load. load.
  heap_lookup. exec. rewrite Hrev. cbn [series_sum]. exec.
  heap_lookup. exec. rewrite Hidx. exec. now rewrite <- !app_assoc.
Qed.

(** C3 (amended).  The file map is defined on the seven logical names and on
    no other name.  A call with another name raises nothing: it returns
    [None], the value returned for a missing file, reads no file, and the
    [None] is cached like any other result. *)
Theorem load_unknown_name :
  (forall n, In n logical_names <-> exists f, dict_get file_map n = Some f) /\
  (forall n w,
      ~ In n logical_names ->
      dict_get (cache w) n = None ->
      fst (load_data n w) = Ok None /\
      reads (snd (load_data n w)) = reads w /\
      dict_get (cache (snd (load_data n w))) n = Some None /\
      fst (load_data n (snd (load_data n w))) = Ok None).
Proof.
  split; [exact file_map_names|].
  intros n w Hn Hc.
  assert (Ht : lookup_table w n = Ok None).
  { unfold lookup_table, table_of. rewrite Hc.
    destruct (dict_get file_map n) as [f|] eqn:Hf; [|reflexivity].
    exfalso. apply Hn. apply file_map_names. eauto. }
  rewrite (load_data_none n w Ht). cbn [fst snd reads cache].
  rewrite load_data_none by tables. cbn [fst].
  unfold cache_after at 1. rewrite Hc, dict_get_set_same. auto.
Qed.

(** C3, as stated, fails: an unknown name and a known name without a file
    give the same outcome, [None], and neither raises. *)
Lemma unknown_name_is_not_an_error :
  ~ In "sales" logical_names /\
  In "lstm_history" logical_names /\
  fst (load_data "sales" (fresh sample_files)) = Ok None /\
  fst (load_data "lstm_history" (fresh sample_files)) = Ok None.
Proof.
  split; [|split; [|split]].
  - simpl. intros H. repeat (destruct H as [H|H]; [discriminate H|]). exact H.
  - simpl. tauto.
  - vm_compute. reflexivity.
  - vm_compute. reflexivity.
Qed.

Lemma load_unknown_name_witness :
  fst (load_data "sales" (fresh sample_files)) = Ok None.
Proof.
  apply (proj2 load_unknown_name "sales" (fresh sample_files)).
  - simpl. intros H. repeat (destruct H as [H|H]; [discriminate H|]). exact H.
  - reflexivity.
Defined.

(* ------------------------------------------------------------------ *)
(** * Columns of derived frames *)

Lemma getitem_setitem_same df df' c col :
  setitem df c col = Ok df' -> getitem df' c = Ok col.
Proof.
  unfold setitem. destruct (Nat.eqb _ _); [|discriminate].
  intros [= <-]. unfold getitem. simpl. now rewrite dict_get_set_same.
Qed.

Lemma getitem_setitem_other df df' c c' col :
  setitem df c col = Ok df' -> c' <> c -> getitem df' c' = getitem df c'.
Proof.
  unfold setitem. destruct (Nat.eqb _ _); [|discriminate].
  intros [= <-] Hne. unfold getitem. simpl. now rewrite dict_get_set_other.
Qed.

Lemma setitem_ok df c col :
  col_len col = length (index df) ->
  setitem df c col = Ok (mkDF (index df) (dict_set (columns df) c col)).
Proof. unfold setitem. intros ->. now rewrite Nat.eqb_refl. Qed.

Lemma parse_cells_length parse l ts :
  parse_cells parse l = Ok ts -> length ts = length l.
Proof.
  revert ts. induction l as [|[s|] l IH]; simpl; intros ts.
  - now intros [= <-].
  - destruct (parse s); [|discriminate].
    destruct (parse_cells parse l) as [ts'| |]; simpl; try discriminate.
    intros [= <-]. simpl. now rewrite IH.
  - destruct (parse_cells parse l) as [ts'| |]; simpl; try discriminate.
    intros [= <-]. simpl. now rewrite IH.
Qed.

Lemma to_datetime_length L c times :
  to_datetime L c = Ok (TimeCol times) -> length times = col_len c.
Proof.
  destruct c as [l|l|l|l]; simpl.
  - intros [= <-]. now rewrite length_map.
  - intros [= <-]. now rewrite length_map.
  - destruct (parse_cells _ l) as [ts| |] eqn:E; simpl; try discriminate.
    intros [= <-]. now apply parse_cells_length in E.
  - now intros [= <-].
Qed.

Lemma dict_get_map_fst {V W : Type} (f : V -> W) (d : list (string * V)) k :
  dict_get (map (fun nc => (fst nc, f (snd nc))) d) k =
  option_map f (dict_get d k).
Proof.
  induction d as [|[k' v] d IH]; simpl; [reflexivity|].
  destruct (String.eqb k k'); auto.
Qed.

Lemma getitem_select df mask c :
  getitem (df_select df mask) c =
  (col <-- getitem df c ;; Ok (col_select mask col)).
Proof.
  unfold getitem, df_select. simpl. rewrite dict_get_map_fst.
  now destruct (dict_get (columns df) c).
Qed.

Lemma has_column_select df mask c :
  has_column (df_select df mask) c = has_column df c.
Proof.
  unfold has_column, df_select. simpl. now rewrite map_map.
Qed.

Lemma select_map_filter {A : Type} (f : A -> bool) (l : list A) :
  select (map f l) l = filter f l.
Proof.
  induction l as [|x l IH]; simpl; [reflexivity|].
  destruct (f x); now rewrite IH.
Qed.

(* ------------------------------------------------------------------ *)
(** * Group-by *)

Lemma insert_key_In x k l : In x (insert_key k l) <-> x = k \/ In x l.
Proof.
  induction l as [|h t IH]; simpl.
  - intuition.
  - destruct (String.compare k h) eqn:E; simpl.
    + apply String.compare_eq_iff in E. subst h. intuition.
    + intuition.
    + rewrite IH. intuition.
Qed.

Lemma group_keys_In x keys : In x (group_keys keys) <-> In (Some x) keys.
Proof.
  unfold group_keys.
  assert (G : forall acc,
             In x (fold_left
                     (fun acc k => match k with
                                   | Some s => insert_key s acc
                                   | None => acc
                                   end) keys acc)
             <-> In x acc \/ In (Some x) keys).
  { induction keys as [|[s|] keys IH]; intros acc; simpl.
    - intuition.
    - rewrite IH, insert_key_In. split.
      + intros [[->|H]|H]; auto.
      + intros [H|[[= ->]|H]]; auto.
    - rewrite IH. split.
      + intros [H|H]; auto.
      + intros [H|[H|H]]; auto. discriminate. }
  rewrite G. simpl. intuition.
Qed.

Lemma position_from_some {V : Type} (f : string -> V) d k l : forall i p,
  position_from i k l = Some p ->
  (i <= p)%nat /\ nth (p - i) (map f l) d = f k.
Proof.
  induction l as [|h t IH]; intros i p; simpl; [discriminate|].
  destruct (String.eqb_spec k h) as [->|Hne].
  - intros [= <-]. split; [lia|]. now rewrite Nat.sub_diag.
  - intros H. apply IH in H. destruct H as [Hle H]. split; [lia|].
    replace (p - i)%nat with (S (p - S i)) by lia. exact H.
Qed.

Lemma position_from_none k l : forall i,
  position_from i k l = None <-> ~ In k l.
Proof.
  induction l as [|h t IH]; intros i; simpl.
  - intuition.
  - destruct (String.eqb_spec k h) as [->|Hne].
    + split; [discriminate|]. intros H. exfalso. apply H. now left.
    + rewrite IH. intuition.
Qed.

(** An entry of a reindexed series: the entry of the label when the series
    has the label, NaN otherwise. *)
Lemma reindex_entry (f : string -> float64) (ks : list string) k :
  match position_of k ks with
  | Some i => nth i (map f ks) NaN
  | None => NaN
  end = if in_dec string_dec k ks then f k else NaN.
Proof.
  unfold position_of. destruct (position_from 0 k ks) as [p|] eqn:E.
  - destruct (in_dec string_dec k ks) as [Hin|Hnot].
    + destruct (position_from_some f NaN _ _ _ _ E) as [_ H].
      now rewrite Nat.sub_0_r in H.
    + apply (position_from_none k ks 0%nat) in Hnot. congruence.
  - apply position_from_none in E.
    destruct (in_dec string_dec k ks); [contradiction|reflexivity].
Qed.

Lemma select_combine {A B : Type} (f : A -> bool) (keys : list A) (vals : list B) :
  select (map f keys) vals =
  map snd (filter (fun row => f (fst row)) (combine keys vals)).
Proof.
  revert vals. induction keys as [|k keys IH]; intros [|v vals]; simpl; auto.
  destruct (f k); simpl; now rewrite IH.
Qed.

(** The name of the weekday of number [d]. *)
Lemma weekday_number_range t : (0 <= weekday_number t < 7)%Z.
Proof. unfold weekday_number. apply Z.mod_pos_bound. lia. Qed.

Lemma day_name_number t :
  day_name t = nth (Z.to_nat (weekday_number t)) weekdays "".
Proof. reflexivity. Qed.

Lemma key_is_weekday d t :
  (0 <= d < 7)%Z ->
  key_is (nth (Z.to_nat d) weekdays "") (option_map day_name t) = falls_on d t.
Proof.
  intros Hd. destruct t as [t|]; [|reflexivity]. simpl.
  rewrite day_name_number.
  pose proof (weekday_number_range t) as Hr.
  destruct (Z.eqb_spec (weekday_number t) d) as [->|Hne].
  - apply String.eqb_refl.
  - apply String.eqb_neq.
    assert (E1 : (weekday_number t = 0 \/ weekday_number t = 1 \/
                  weekday_number t = 2 \/ weekday_number t = 3 \/
                  weekday_number t = 4 \/ weekday_number t = 5 \/
                  weekday_number t = 6)%Z) by lia.
    assert (E2 : (d = 0 \/ d = 1 \/ d = 2 \/ d = 3 \/ d = 4 \/ d = 5 \/ d = 6)%Z)
      by lia.
    destruct E1 as [E1|[E1|[E1|[E1|[E1|[E1|E1]]]]]]; rewrite E1 in *;
      destruct E2 as [E2|[E2|[E2|[E2|[E2|[E2|E2]]]]]]; subst d;
      try (exfalso; apply Hne; reflexivity); discriminate.
Qed.

Lemma cells_on_group d times (revs : list float64) :
  (0 <= d < 7)%Z ->
  group_values (nth (Z.to_nat d) weekdays "") (map (option_map day_name) times)
               revs = cells_on d times revs.
Proof.
  intros Hd. unfold group_values, cells_on. rewrite map_map.
  rewrite (map_ext _ (falls_on d)) by (intros t; now apply key_is_weekday).
  apply select_combine.
Qed.

Lemma cells_on_nil d times (revs : list float64) :
  length times = length revs ->
  cells_on d times revs = [] <-> forall t, In t times -> falls_on d t = false.
Proof.
  unfold cells_on. revert revs.
  induction times as [|t times IH]; intros [|r revs] Hl; simpl in *;
    try discriminate.
  - intuition.
  - destruct (falls_on d t) eqn:E; simpl.
    + split; [discriminate|]. intros H. specialize (H t (or_introl eq_refl)).
      congruence.
    + rewrite IH by lia. split.
      * intros H t' [<-|Hin]; auto.
      * intros H t' Hin. apply H. now right.
Qed.

(** An entry of the weekday rollup. *)
Lemma rollup_entry L d times revs :
  (0 <= d < 7)%Z ->
  length times = length revs ->
  (if in_dec string_dec (nth (Z.to_nat d) weekdays "")
             (group_keys (map (option_map day_name) times))
   then group_float_sum L
          (group_values (nth (Z.to_nat d) weekdays "")
                        (map (option_map day_name) times) revs)
   else NaN) = weekday_total L times revs d.
Proof.
  intros Hd Hl. unfold weekday_total. rewrite cells_on_group by exact Hd.
  destruct (in_dec string_dec _ _) as [Hin|Hnot].
  - apply group_keys_In in Hin. apply in_map_iff in Hin.
    destruct Hin as (t & Ht & Hin).
    destruct (cells_on d times revs) eqn:E; [|reflexivity].
    exfalso. pose proof (proj1 (cells_on_nil d times revs Hl) E t Hin) as E'.
    rewrite <- (key_is_weekday d t Hd) in E'.
    rewrite Ht in E'. simpl in E'. now rewrite String.eqb_refl in E'.
  - destruct (cells_on d times revs) eqn:E; [reflexivity|].
    exfalso. apply Hnot. apply group_keys_In.
    assert (Hex : ~ (forall t, In t times -> falls_on d t = false)).
    { intros H. pose proof (proj2 (cells_on_nil d times revs Hl) H). congruence. }
    assert (Hsome : exists t, In t times /\ falls_on d t = true).
    { clear -Hex. induction times as [|t times IH].
      - exfalso. apply Hex. intros t [].
      - destruct (falls_on d t) eqn:Et; [exists t; simpl; auto|].
        destruct IH as (t' & Hin & Ht').
        + intros H. apply Hex. intros t' [<-|Hin]; auto.
        + exists t'. simpl. auto. }
    destruct Hsome as (t & Hin & Ht).
    rewrite <- (key_is_weekday d t Hd) in Ht.
    destruct t as [t|]; [|discriminate]. cbn [key_is option_map] in Ht.
    apply String.eqb_eq in Ht. rewrite <- Ht.
    apply in_map_iff. exists (Some t). split; [reflexivity|exact Hin].
Qed.

Lemma px_plain L kind df args :
  validated kind = false ->
  forallb (fun a => has_column df (snd a)) args = true ->
  px L kind df args = Ok (PxFigure kind df args).
Proof. unfold px. now intros -> ->. Qed.

Lemma px_checked L kind df args :
  validated kind = true ->
  forallb (fun a => has_column df (snd a)) args = true ->
  px L kind df args =
  if plotly_accepts L kind df args
  then Ok (PxFigure kind df args)
  else Raise (ValueError "Invalid value received by the chart").
Proof.
  unfold px. intros -> ->. now destruct (plotly_accepts L kind df args).
Qed.

Lemma set_nth_snoc {A : Type} (h : list A) (x y : A) :
  set_nth (length h) x (h ++ [y]) = h ++ [x].
Proof. induction h as [|a h IH]; simpl; [reflexivity|now rewrite IH]. Qed.

Lemma rollup_frame L times revs :
  length times = length revs ->
  exists s,
    reindex
      (mkSeries (group_keys (map (option_map day_name) times))
         (FloatCol (map (fun k => group_float_sum L
                                    (group_values
                                       k (map (option_map day_name) times)
                                       revs))
                        (group_keys (map (option_map day_name) times)))))
      ["Monday"; "Tuesday"; "Wednesday"; "Thursday"; "Friday";
       "Saturday"; "Sunday"] = Ok s /\
    reset_index s "Day_of_Week" "Revenue_Forecast" =
    mkDF (seq 0 7)
      [("Day_of_Week",
        ObjCol [Some "Monday"; Some "Tuesday"; Some "Wednesday";
                Some "Thursday"; Some "Friday"; Some "Saturday";
                Some "Sunday"]);
       ("Revenue_Forecast",
        FloatCol (map (weekday_total L times revs) [0; 1; 2; 3; 4; 5; 6]%Z))].
Proof.
  intros Hl. unfold reindex. cbn [values labels].
  eexists. split; [reflexivity|].
  unfold reset_index. cbn [values labels length seq].
  assert (E : forall f,
             f = (fun k => group_float_sum L
                             (group_values k (map (option_map day_name) times) revs)) ->
             map (fun k => match position_of k (group_keys
                                                  (map (option_map day_name) times))
                           with
                           | Some i =>
                               nth i (map f (group_keys
                                               (map (option_map day_name) times)))
                                   NaN
                           | None => NaN
                           end)
                 ["Monday"; "Tuesday"; "Wednesday"; "Thursday"; "Friday";
                  "Saturday"; "Sunday"] =
             map (weekday_total L times revs) [0; 1; 2; 3; 4; 5; 6]%Z).
  { intros f ->.
    change ["Monday"; "Tuesday"; "Wednesday"; "Thursday"; "Friday";
            "Saturday"; "Sunday"]
      with (map (fun d => nth (Z.to_nat d) weekdays "") [0; 1; 2; 3; 4; 5; 6]%Z).
    rewrite map_map. apply map_ext_in. intros d Hd.
    rewrite (reindex_entry
               (fun k => group_float_sum L
                           (group_values k (map (option_map day_name) times) revs))).
    apply rollup_entry; [|exact Hl].
    simpl in Hd. lia. }
  rewrite (E _ eq_refl). reflexivity.
Qed.

(** The state in which the forecast panel ends when its table has the four
    columns and its dates are read. *)
Lemma forecast_panel_run L w fc raw times revs ub lb :
  lookup_table w "revenue_forecast" = Ok (Some fc) ->
  well_formed fc = true ->
  getitem fc "Date" = Ok raw ->
  to_datetime L raw = Ok (TimeCol times) ->
  getitem fc "Revenue_Forecast" = Ok (FloatCol revs) ->
  getitem fc "Upper_Bound" = Ok ub ->
  getitem fc "Lower_Bound" = Ok lb ->
  display_revenue_forecast L w =
  (Ok tt,
   mkWorld (files w)
     (cache_after (cache w) "revenue_forecast" (Some fc))
     (heap w ++
      [mkDF (index fc)
         (dict_set (dict_set (columns fc) "Date" (TimeCol times))
                   "Day_of_Week" (ObjCol (map (option_map day_name) times)))])
     (reads_after (reads w) (cache w) "revenue_forecast" (Some fc))
     (page w ++
      [Title "📈 Previsão de Receita (Próximos 30 Dias)";
       Markdown "Projeção da receita diária com base no modelo preditivo de melhor performance (XGBoost).";
       PlotlyChart (GoFigure [Scatter (TimeCol times) ub "Limite Superior";
                              Scatter (TimeCol times) lb "Limite Inferior";
                              Scatter (TimeCol times) (FloatCol revs)
                                      "Previsão de Receita"]);
       Markdown "### Análise da Receita por Dia da Semana";
       PlotlyChart
         (PxFigure "bar"
            (mkDF (seq 0 7)
               [("Day_of_Week",
                 ObjCol [Some "Monday"; Some "Tuesday"; Some "Wednesday";
                         Some "Thursday"; Some "Friday"; Some "Saturday";
                         Some "Sunday"]);
                ("Revenue_Forecast",
                 FloatCol (map (weekday_total L times revs)
                               [0; 1; 2; 3; 4; 5; 6]%Z))])
            [("x", "Day_of_Week"); ("y", "Revenue_Forecast");
             ("color", "Revenue_Forecast")])])).
Proof.
  intros Ht Hwf Hd Hdt Hrv Hub Hlb.
  assert (Hlen : length times = length (index fc)).
  { rewrite (to_datetime_length _ _ _ Hdt). now apply (well_formed_len fc "Date"). }
  assert (Hlr : length times = length revs).
  { rewrite Hlen. symmetry.
    exact (well_formed_len fc "Revenue_Forecast" _ Hwf Hrv). }
  pose (fc1 := mkDF (index fc) (dict_set (columns fc) "Date" (TimeCol times))).
  assert (S1 : setitem fc "Date" (TimeCol times) = Ok fc1)
    by (apply setitem_ok; exact Hlen).
  pose (names := ObjCol (map (option_map day_name) times)).
  pose (fc2 := mkDF (index fc1) (dict_set (columns fc1) "Day_of_Week" names)).
  assert (S2 : setitem fc1 "Day_of_Week" names = Ok fc2).
  { apply setitem_ok. simpl. now rewrite length_map. }
  assert (D1 : getitem fc1 "Date" = Ok (TimeCol times))
    by exact (getitem_setitem_same _ _ _ _ S1).
  assert (U1 : getitem fc1 "Upper_Bound" = Ok ub)
    by (rewrite (getitem_setitem_other _ _ _ _ _ S1); [exact Hub|discriminate]).
  assert (L1 : getitem fc1 "Lower_Bound" = Ok lb)
    by (rewrite (getitem_setitem_other _ _ _ _ _ S1); [exact Hlb|discriminate]).
  assert (R1 : getitem fc1 "Revenue_Forecast" = Ok (FloatCol revs))
    by (rewrite (getitem_setitem_other _ _ _ _ _ S1); [exact Hrv|discriminate]).
  assert (G : groupby_sum L fc2 "Day_of_Week" "Revenue_Forecast" =
              Ok (mkSeries (group_keys (map (option_map day_name) times))
                    (FloatCol (map (fun k => group_float_sum L
                                               (group_values
                                                  k (map (option_map day_name) times)
                                                  revs))
                                   (group_keys (map (option_map day_name) times)))))).
  { unfold groupby_sum.
    rewrite (getitem_setitem_same _ _ _ _ S2).
    rewrite (getitem_setitem_other _ _ _ _ _ S2) by discriminate.
    rewrite R1. reflexivity. }
  destruct (rollup_frame L times revs Hlr) as (s & ER & RF).
  unfold display_revenue_forecast. exec. load.
  heap_lookup. rewrite Hd. exec. rewrite Hdt. exec.
  heap_lookup. rewrite S1. exec. rewrite set_nth_snoc.
  heap_lookup. rewrite D1. exec.
  heap_lookup. rewrite U1. exec.
  heap_lookup. rewrite D1. exec.
  heap_lookup. rewrite L1. exec.
  heap_lookup. rewrite D1. exec.
  heap_lookup. rewrite R1. exec.
  heap_lookup. rewrite D1. exec. cbn [dt_day_name]. exec.
  heap_lookup. fold names. rewrite S2. exec. rewrite set_nth_snoc.
  heap_lookup. rewrite G. exec.
  rewrite ER. exec. rewrite RF.
  rewrite px_plain by reflexivity. exec.
  rewrite <- !app_assoc. reflexivity.
Qed.

(** C1 (amended).  When pandas reads the dates of the table, the weekday
    chart of the revenue forecast has exactly seven entries, in the order
    Monday to Sunday; the value of a weekday is the sum the library gives
    for the [Revenue_Forecast] cells of the rows that fall on it, and NaN,
    not 0, for a weekday on which no row falls. *)
Theorem weekday_rollup :
  forall L w fc raw times revs ub lb,
    lookup_table w "revenue_forecast" = Ok (Some fc) ->
    well_formed fc = true ->
    getitem fc "Date" = Ok raw ->
    to_datetime L raw = Ok (TimeCol times) ->
    getitem fc "Revenue_Forecast" = Ok (FloatCol revs) ->
    getitem fc "Upper_Bound" = Ok ub ->
    getitem fc "Lower_Bound" = Ok lb ->
    fst (display_revenue_forecast L w) = Ok tt /\
    page (snd (display_revenue_forecast L w)) =
      page w ++
      [Title "📈 Previsão de Receita (Próximos 30 Dias)";
       Markdown "Projeção da receita diária com base no modelo preditivo de melhor performance (XGBoost).";
       PlotlyChart (GoFigure [Scatter (TimeCol times) ub "Limite Superior";
                              Scatter (TimeCol times) lb "Limite Inferior";
                              Scatter (TimeCol times) (FloatCol revs)
                                      "Previsão de Receita"]);
       Markdown "### Análise da Receita por Dia da Semana";
       PlotlyChart
         (PxFigure "bar"
            (mkDF (seq 0 7)
               [("Day_of_Week",
                 ObjCol [Some "Monday"; Some "Tuesday"; Some "Wednesday";
                         Some "Thursday"; Some "Friday"; Some "Saturday";
                         Some "Sunday"]);
                ("Revenue_Forecast",
                 FloatCol (map (weekday_total L times revs)
                               [0; 1; 2; 3; 4; 5; 6]%Z))])
            [("x", "Day_of_Week"); ("y", "Revenue_Forecast");
             ("color", "Revenue_Forecast")])].
Proof.
  intros L w fc raw times revs ub lb Ht Hwf Hd Hdt Hrv Hub Hlb.
  rewrite (forecast_panel_run L w fc raw times revs ub lb Ht Hwf Hd Hdt Hrv Hub Hlb).
  split; reflexivity.
Qed.

(** C1, as stated, fails on the example of the specification extended with
    a second Monday: the entry of Tuesday, a weekday without rows, is NaN
    and no number. *)
Lemma weekday_without_rows_is_nan :
  exists df args,
    last (page (snd (display_revenue_forecast sample_library (fresh sample_files))))
         (Title "") =
      PlotlyChart (PxFigure "bar" df args) /\
    getitem df "Day_of_Week" = Ok (ObjCol (map Some weekdays)) /\
    getitem df "Revenue_Forecast" =
      Ok (FloatCol [Fin 125; NaN; Fin 50; NaN; NaN; NaN; NaN]).
Proof. do 2 eexists. vm_compute. repeat split; reflexivity. Qed.

Lemma weekday_rollup_witness :
  fst (display_revenue_forecast sample_library (fresh sample_files)) = Ok tt.
Proof.
  apply (weekday_rollup sample_library (fresh sample_files) sample_forecast
           (texts ["2024-01-01"; "2024-01-03"; "2024-01-08"])
           [Some 1704067200000000000; Some 1704240000000000000;
            Some 1704672000000000000]%Z
           [Fin 100; Fin 50; Fin 25]
           (floats [120; 60; 30]%Z) (floats [80; 40; 20]%Z));
    reflexivity.
Defined.

(* ------------------------------------------------------------------ *)
(** * Positional selection *)

Lemma take_app {A : Type} (l : list A) a b :
  take l (a ++ b) = take l a ++ take l b.
Proof. unfold take. apply flat_map_app. Qed.

Lemma take_cons {A : Type} (l : list A) i idx :
  take l (i :: idx) =
  match nth_error l i with Some x => [x] | None => [] end ++ take l idx.
Proof. reflexivity. Qed.

Lemma take_map_valid {A B : Type} (l : list A) (f : B -> nat) (g : B -> A) ps :
  Forall (fun p => nth_error l (f p) = Some (g p)) ps ->
  take l (map f ps) = map g ps.
Proof.
  induction 1 as [|p ps Hp _ IH]; cbn [map]; [reflexivity|].
  rewrite take_cons, Hp, IH. reflexivity.
Qed.

Lemma take_rev {A : Type} (l : list A) idx :
  take l (rev idx) = rev (take l idx).
Proof.
  induction idx as [|i idx IH]; cbn [rev]; [reflexivity|].
  rewrite take_app, IH, !take_cons. change (take l []) with (@nil A).
  destruct (nth_error l i); simpl; now rewrite ?app_nil_r.
Qed.

Lemma take_perm {A : Type} (l : list A) a b :
  Permutation a b -> Permutation (take l a) (take l b).
Proof. intros H. unfold take. now apply Permutation_flat_map. Qed.

Lemma take_app_l {A : Type} (l l' : list A) idx :
  Forall (fun i => i < length l)%nat idx -> take (l ++ l') idx = take l idx.
Proof.
  induction 1 as [|i idx Hi _ IH]; [reflexivity|].
  rewrite !take_cons, IH, nth_error_app1 by exact Hi. reflexivity.
Qed.

Lemma Forall_seq_lt n : Forall (fun i => i < n)%nat (seq 0 n).
Proof. apply Forall_forall. intros i Hi. apply in_seq in Hi. lia. Qed.

Lemma take_seq_all {A : Type} (l : list A) : take l (seq 0 (length l)) = l.
Proof.
  induction l as [|x l IH] using rev_ind; [reflexivity|].
  rewrite length_app. cbn [length]. rewrite Nat.add_1_r, seq_S, take_app.
  cbn [Nat.add]. rewrite take_app_l by apply Forall_seq_lt. rewrite IH.
  rewrite take_cons, nth_error_snoc. reflexivity.
Qed.


Lemma nth_error_take {A : Type} (l : list A) idx k :
  Forall (fun i => i < length l)%nat idx ->
  nth_error (take l idx) k =
  match nth_error idx k with
  | Some i => nth_error l i
  | None => None
  end.
Proof.
  intros H. revert k. induction H as [|i idx Hi _ IH]; intros k.
  - now destruct k.
  - rewrite take_cons.
    destruct (nth_error l i) as [x|] eqn:E;
      [|apply nth_error_None in E; lia].
    destruct k as [|k]; simpl; [now rewrite E|apply IH].
Qed.

Lemma take_take {A : Type} (l : list A) idx p :
  Forall (fun i => i < length l)%nat idx ->
  take (take l idx) p = take l (take idx p).
Proof.
  intros H. induction p as [|k p IH]; [reflexivity|].
  rewrite !take_cons, take_app, IH, nth_error_take by exact H.
  destruct (nth_error idx k) as [i|]; [|reflexivity].
  rewrite take_cons. unfold take at 3. simpl. now rewrite app_nil_r.
Qed.

Lemma take_map {A B : Type} (f : A -> B) l idx :
  take (map f l) idx = map f (take l idx).
Proof.
  induction idx as [|i idx IH]; [reflexivity|].
  rewrite !take_cons, IH, nth_error_map, map_app.
  now destruct (nth_error l i).
Qed.


(* ------------------------------------------------------------------ *)
(** * Finite and missing cells of a column *)

Lemma combine_snoc {A B : Type} (a : list A) (b : list B) x y :
  length a = length b ->
  combine (a ++ [x]) (b ++ [y]) = combine a b ++ [(x, y)].
Proof.
  revert b. induction a as [|h a IH]; intros [|k b] H; simpl in *;
    try discriminate; [reflexivity|].
  now rewrite IH by lia.
Qed.

Lemma enumerate_snoc {A : Type} (l : list A) x :
  enumerate (l ++ [x]) = enumerate l ++ [(length l, x)].
Proof.
  unfold enumerate. rewrite length_app. simpl.
  rewrite Nat.add_1_r, seq_S. simpl.
  apply combine_snoc. now rewrite length_seq.
Qed.

Lemma notna_enum_snoc l x :
  notna_enum (l ++ [x]) =
  notna_enum l ++ match x with Fin q => [(length l, q)] | NaN => [] end.
Proof.
  unfold notna_enum. rewrite enumerate_snoc, flat_map_app. simpl.
  now rewrite app_nil_r.
Qed.

Lemma isna_idx_snoc l x :
  isna_idx (l ++ [x]) =
  isna_idx l ++ match x with Fin _ => [] | NaN => [length l] end.
Proof.
  unfold isna_idx. rewrite enumerate_snoc, flat_map_app. simpl.
  now rewrite app_nil_r.
Qed.

Lemma notna_enum_spec l :
  Forall (fun p => nth_error l (fst p) = Some (Fin (snd p))) (notna_enum l).
Proof.
  induction l as [|x l IH] using rev_ind; [constructor|].
  rewrite notna_enum_snoc. apply Forall_app. split.
  - eapply Forall_impl; [|exact IH]. intros p Hp.
    rewrite nth_error_app1; [exact Hp|]. apply nth_error_Some. congruence.
  - destruct x; constructor; [|constructor]. simpl. apply nth_error_snoc.
Qed.

Lemma isna_idx_spec l :
  Forall (fun i => nth_error l i = Some NaN) (isna_idx l).
Proof.
  induction l as [|x l IH] using rev_ind; [constructor|].
  rewrite isna_idx_snoc. apply Forall_app. split.
  - eapply Forall_impl; [|exact IH]. intros p Hp.
    rewrite nth_error_app1; [exact Hp|]. apply nth_error_Some. congruence.
  - destruct x; constructor; [|constructor]. apply nth_error_snoc.
Qed.

Lemma notna_isna_perm l :
  Permutation (map fst (notna_enum l) ++ isna_idx l) (seq 0 (length l)).
Proof.
  induction l as [|x l IH] using rev_ind; [constructor|].
  rewrite notna_enum_snoc, isna_idx_snoc, length_app. simpl.
  rewrite Nat.add_1_r, seq_S. simpl. destruct x as [|q].
  - rewrite app_nil_r, app_assoc. now apply Permutation_app_tail.
  - rewrite app_nil_r, map_app. simpl. rewrite <- app_assoc.
    etransitivity; [apply Permutation_app_head, Permutation_app_comm|].
    rewrite app_assoc. now apply Permutation_app_tail.
Qed.

Lemma notna_enum_lt l :
  Forall (fun i => i < length l)%nat (map fst (notna_enum l)).
Proof.
  apply Forall_map. eapply Forall_impl; [|apply notna_enum_spec].
  intros p Hp. apply nth_error_Some. congruence.
Qed.


Lemma take_notna l :
  take l (map fst (notna_enum l)) = map Fin (map snd (notna_enum l)).
Proof.
  rewrite map_map. apply take_map_valid. apply notna_enum_spec.
Qed.

Lemma take_isna l : take l (isna_idx l) = map (fun _ => NaN) (isna_idx l).
Proof.
  rewrite <- (map_id (isna_idx l)) at 1.
  apply (take_map_valid l (fun i => i)). apply isna_idx_spec.
Qed.

(* ------------------------------------------------------------------ *)
(** * The guarantee of a sort *)

Lemma is_permutation_b_perm idx n :
  is_permutation_b idx n = true -> Permutation idx (seq 0 n).
Proof.
  unfold is_permutation_b. rewrite andb_true_iff, forallb_forall.
  intros [Hlen Hall]. apply Nat.eqb_eq in Hlen. symmetry.
  apply NoDup_Permutation_bis.
  - apply seq_NoDup.
  - rewrite length_seq. lia.
  - intros i Hi. specialize (Hall i Hi). apply existsb_exists in Hall.
    destruct Hall as (j & Hj & E). apply Nat.eqb_eq in E. now subst j.
Qed.

Lemma perm_seq_lt idx n :
  Permutation idx (seq 0 n) -> Forall (fun i => i < n)%nat idx.
Proof.
  intros H. apply Forall_forall. intros i Hi.
  apply (Permutation_in _ H) in Hi. apply in_seq in Hi. lia.
Qed.

Lemma take_nth_valid (a : list Q) idx :
  Forall (fun i => i < length a)%nat idx ->
  take a idx = map (fun i => nth i a 0%Q) idx.
Proof.
  intros H. rewrite <- (map_id idx) at 1.
  apply (take_map_valid a (fun i => i)).
  eapply Forall_impl; [|exact H]. intros i Hi. now apply nth_error_nth'.
Qed.

Lemma ascending_b_sorted a idx :
  Forall (fun i => i < length a)%nat idx ->
  ascending_b a idx = true ->
  StronglySorted Qle (take a idx).
Proof.
  intros Hv. rewrite (take_nth_valid a idx Hv). clear Hv.
  induction idx as [|i idx IH]; simpl; [constructor|].
  rewrite andb_true_iff, forallb_forall. intros [Hi Hrest].
  constructor; [now apply IH|].
  apply Forall_map, Forall_forall. intros j Hj.
  apply Qle_bool_iff. now apply Hi.
Qed.

Lemma StronglySorted_app {A : Type} (R : A -> A -> Prop) l1 l2 :
  StronglySorted R l1 -> StronglySorted R l2 ->
  (forall x y, In x l1 -> In y l2 -> R x y) ->
  StronglySorted R (l1 ++ l2).
Proof.
  induction 1 as [|x l1 Hs IH Hx]; intros H2 Hc; simpl; [exact H2|].
  constructor.
  - apply IH; [exact H2|]. intros a b Ha Hb. apply Hc; simpl; auto.
  - apply Forall_app. split; [exact Hx|].
    apply Forall_forall. intros y Hy. apply Hc; simpl; auto.
Qed.

Lemma StronglySorted_rev {A : Type} (R : A -> A -> Prop) l :
  StronglySorted R l -> StronglySorted (fun x y => R y x) (rev l).
Proof.
  induction 1 as [|x l Hs IH Hx]; simpl; [constructor|].
  apply StronglySorted_app; [exact IH|repeat constructor|].
  intros a b Ha [<-|[]]. apply in_rev in Ha.
  rewrite Forall_forall in Hx. now apply Hx.
Qed.

Lemma StronglySorted_map {A B : Type} (R : A -> A -> Prop) (S : B -> B -> Prop)
  (f : A -> B) l :
  (forall x y, R x y -> S (f x) (f y)) ->
  StronglySorted R l -> StronglySorted S (map f l).
Proof.
  intros HRS. induction 1 as [|x l Hs IH Hx]; simpl; constructor; [exact IH|].
  apply Forall_map. eapply Forall_impl; [|exact Hx]. intros; now apply HRS.
Qed.

(* ------------------------------------------------------------------ *)

Lemma In_take {A : Type} (l : list A) idx i x :
  In i idx -> nth_error l i = Some x -> In x (take l idx).
Proof.
  intros Hin Hx. unfold take. apply in_flat_map. exists i.
  split; [exact Hin|]. rewrite Hx. now left.
Qed.

Lemma take_length_valid {A : Type} (l : list A) idx :
  Forall (fun i => i < length l)%nat idx -> length (take l idx) = length idx.
Proof.
  induction 1 as [|i idx Hi _ IH]; [reflexivity|].
  rewrite take_cons, length_app, IH.
  destruct (nth_error l i) eqn:E; [reflexivity|].
  apply nth_error_None in E. lia.
Qed.

Lemma col_iloc_take c idx :
  Forall (fun i => i < col_len c)%nat idx -> forall k i,
  nth_error idx k = Some i ->
  col_iloc (col_take c idx) k = col_iloc c i.
Proof.
  intros Hv k i Hk.
  destruct c; simpl in *; rewrite nth_error_take by exact Hv;
    now rewrite Hk.
Qed.

Lemma row_at_take cols n idx k i :
  Forall (fun nc => col_len (snd nc) = n) cols ->
  Forall (fun i => i < n)%nat idx ->
  nth_error idx k = Some i ->
  row_at (map (fun nc => (fst nc, col_take (snd nc) idx)) cols) k =
  row_at cols i.
Proof.
  intros Hc Hv Hk. induction Hc as [|[c0 col] cols Hlen _ IH]; simpl.
  - reflexivity.
  - simpl in Hlen. subst n.
    rewrite (col_iloc_take col idx Hv k i Hk), IH. reflexivity.
Qed.

Lemma well_formed_cols df :
  well_formed df = true ->
  Forall (fun nc => col_len (snd nc) = length (index df)) (columns df).
Proof.
  unfold well_formed. rewrite forallb_forall. intros H.
  apply Forall_forall. intros nc Hnc. now apply Nat.eqb_eq, H.
Qed.

Lemma select_positions {A : Type} (mask : list bool) :
  forall (l pre : list A),
    length mask = length l ->
    select mask l = take (pre ++ l) (positions_from (length pre) mask).
Proof.
  induction mask as [|b mask IH]; intros [|x l] pre Hlen; try discriminate.
  - reflexivity.
  - injection Hlen as Hlen. simpl.
    specialize (IH l (pre ++ [x]) Hlen).
    rewrite <- app_assoc, length_app in IH. simpl in IH.
    rewrite Nat.add_1_r in IH.
    destruct b; [|exact IH].
    rewrite take_cons, nth_error_app2, Nat.sub_diag by lia. simpl.
    now rewrite IH.
Qed.

Lemma positions_from_spec mask : forall k i,
  In i (positions_from k mask) <->
  (k <= i)%nat /\ nth_error mask (i - k) = Some true.
Proof.
  induction mask as [|b mask IH]; intros k i; simpl.
  - split; [contradiction|]. intros [_ H]. now destruct (i - k)%nat.
  - assert (Hstep : In i (positions_from (S k) mask) <->
                    (k < i)%nat /\ nth_error (b :: mask) (i - k) = Some true).
    { rewrite IH. split; intros [H1 H2]; (split; [lia|]).
      - replace (i - k)%nat with (S (i - S k)) by lia. exact H2.
      - replace (i - k)%nat with (S (i - S k)) in H2 by lia. exact H2. }
    destruct b; simpl; rewrite ?Hstep.
    + split.
      * intros [<-|[H1 H2]]; [|split; [lia|exact H2]].
        rewrite Nat.sub_diag. split; [lia|reflexivity].
      * intros [H1 H2]. destruct (Nat.eq_dec k i) as [->|Hne]; [now left|].
        right. split; [lia|exact H2].
    + split.
      * intros [H1 H2]. split; [lia|exact H2].
      * intros [H1 H2]. split; [|exact H2].
        destruct (Nat.eq_dec k i) as [->|Hne]; [|lia].
        rewrite Nat.sub_diag in H2. discriminate.
Qed.

Lemma positions_from_sorted mask : forall k,
  StronglySorted lt (positions_from k mask).
Proof.
  induction mask as [|b mask IH]; intros k; simpl; [constructor|].
  destruct b; [|apply IH].
  constructor; [apply IH|].
  apply Forall_forall. intros i Hi. apply positions_from_spec in Hi. lia.
Qed.


Lemma has_column_dict_get df c :
  has_column df c = true <-> exists col, dict_get (columns df) c = Some col.
Proof.
  unfold has_column. induction (columns df) as [|[n col] l IH]; simpl.
  - split; [discriminate|intros [col H]; discriminate].
  - destruct (String.eqb c n); simpl; [|exact IH].
    split; eauto.
Qed.

Lemma getitem_missing df c :
  has_column df c = false -> getitem df c = Raise (KeyError c).
Proof.
  intros H. unfold getitem.
  destruct (dict_get (columns df) c) as [col|] eqn:E; [|reflexivity].
  assert (has_column df c = true) by (apply has_column_dict_get; eauto).
  congruence.
Qed.

Lemma getitem_present df c col :
  getitem df c = Ok col -> has_column df c = true.
Proof.
  unfold getitem. intros H. apply has_column_dict_get.
  destruct (dict_get (columns df) c); [eauto|discriminate].
Qed.


Lemma px_missing L kind df args a :
  In a args -> has_column df (snd a) = false ->
  px L kind df args =
  Raise (ValueError "Value of argument is not the name of a column").
Proof.
  intros Hin Hc. unfold px.
  destruct (forallb (fun a => has_column df (snd a)) args) eqn:E;
    [|reflexivity].
  rewrite forallb_forall in E. specialize (E a Hin). congruence.
Qed.


(** * A descending sort *)

Lemma nargsort_desc qs items :
  nargsort qs false items =
  rev (take (rev (map fst (notna_enum items))) (qs (descending_input items)))
  ++ isna_idx items.
Proof. reflexivity. Qed.

Lemma descending_input_length items :
  length (descending_input items) = length (map fst (notna_enum items)).
Proof. unfold descending_input. now rewrite length_rev, !length_map. Qed.

Lemma nargsort_desc_perm qs items :
  is_permutation_b (qs (descending_input items))
                   (length (descending_input items)) = true ->
  Permutation (nargsort qs false items) (seq 0 (length items)).
Proof.
  intros H. apply is_permutation_b_perm in H.
  rewrite nargsort_desc. rewrite <- notna_isna_perm.
  apply Permutation_app_tail.
  rewrite <- Permutation_rev.
  rewrite (take_perm _ _ _ H), descending_input_length.
  rewrite <- (length_rev (map fst (notna_enum items))), take_seq_all.
  symmetry. apply Permutation_rev.
Qed.

Lemma nargsort_desc_values qs items :
  is_permutation_b (qs (descending_input items))
                   (length (descending_input items)) = true ->
  take items (nargsort qs false items) =
  map Fin (rev (take (descending_input items) (qs (descending_input items))))
  ++ map (fun _ => NaN) (isna_idx items).
Proof.
  intros H. rewrite nargsort_desc, take_app, take_isna. f_equal.
  rewrite take_rev, <- take_take.
  - rewrite take_rev, take_notna, <- map_rev, take_map, <- map_rev.
    reflexivity.
  - apply Forall_rev. apply notna_enum_lt.
Qed.

Lemma nargsort_desc_sorted qs items :
  argsort_ok qs (descending_input items) = true ->
  StronglySorted not_below (take items (nargsort qs false items)).
Proof.
  unfold argsort_ok. rewrite andb_true_iff. intros [Hp Ha].
  rewrite (nargsort_desc_values _ _ Hp).
  apply ascending_b_sorted in Ha;
    [|apply (perm_seq_lt _ _ (is_permutation_b_perm _ _ Hp))].
  apply StronglySorted_app.
  - apply (StronglySorted_map (fun x y => (y <= x)%Q)); [now intros x y|].
    now apply StronglySorted_rev.
  - apply (StronglySorted_map (fun _ _ => True)); [now intros x y|].
    induction (isna_idx items); constructor; auto.
    now apply Forall_forall.
  - intros x y _ Hy. apply in_map_iff in Hy. destruct Hy as (i & <- & _).
    now destruct x.
Qed.

Lemma getitem_take df idx c :
  getitem (df_take df idx) c = (col <-- getitem df c ;; Ok (col_take col idx)).
Proof.
  unfold getitem, df_take. simpl.
  rewrite (dict_get_map_fst (fun col => col_take col idx)).
  now destruct (dict_get (columns df) c).
Qed.

Lemma has_column_take df idx c :
  has_column (df_take df idx) c = has_column df c.
Proof. unfold has_column, df_take. simpl. now rewrite map_map. Qed.

Lemma getitem_rename df old new c :
  c <> old -> c <> new ->
  getitem (rename_columns df old new) c = getitem df c.
Proof.
  intros Ho Hn. unfold getitem, rename_columns. simpl.
  replace (dict_get (map _ (columns df)) c) with (dict_get (columns df) c);
    [reflexivity|].
  induction (columns df) as [|[n col] d IH]; simpl; [reflexivity|].
  destruct (String.eqb_spec n old) as [->|_].
  - apply String.eqb_neq in Ho, Hn. now rewrite Ho, Hn.
  - destruct (String.eqb c n); auto.
Qed.

Lemma has_column_rename_new df old new :
  has_column df old = true -> has_column (rename_columns df old new) new = true.
Proof.
  unfold has_column, rename_columns. simpl. rewrite map_map. simpl.
  rewrite !existsb_exists. intros (n & Hn & E).
  apply String.eqb_eq in E. subst n. apply in_map_iff in Hn.
  destruct Hn as ([n col] & E & Hin). simpl in E. subst n.
  exists new. split; [|apply String.eqb_refl].
  apply in_map_iff. exists (old, col). simpl.
  now rewrite String.eqb_refl.
Qed.

Lemma has_column_rename_other df old new c :
  c <> old -> has_column df c = true ->
  has_column (rename_columns df old new) c = true.
Proof.
  intros Hne. unfold has_column, rename_columns. simpl. rewrite map_map. simpl.
  rewrite !existsb_exists. intros (n & Hn & E).
  apply String.eqb_eq in E. subst n. apply in_map_iff in Hn.
  destruct Hn as ([n col] & E & Hin). simpl in E. subst n.
  exists c. split; [|apply String.eqb_refl].
  apply in_map_iff. exists (c, col). simpl.
  apply String.eqb_neq in Hne. now rewrite Hne.
Qed.

Lemma dict_get_rename_new {V : Type} (d : list (string * V)) old new :
  dict_get d new = None ->
  dict_get (map (fun nc => (if String.eqb (fst nc) old then new else fst nc,
                            snd nc)) d) new =
  dict_get d old.
Proof.
  induction d as [|[n v] d IH]; simpl; [reflexivity|].
  destruct (String.eqb_spec new n) as [->|Hn]; [discriminate|].
  intros Hd. rewrite (String.eqb_sym old n).
  destruct (String.eqb_spec n old) as [->|Ho].
  - now rewrite String.eqb_refl.
  - apply String.eqb_neq in Hn. rewrite Hn. now apply IH.
Qed.

Lemma dict_get_rename_old {V : Type} (d : list (string * V)) old new :
  old <> new ->
  dict_get (map (fun nc => (if String.eqb (fst nc) old then new else fst nc,
                            snd nc)) d) old = None.
Proof.
  intros Hne. induction d as [|[n v] d IH]; simpl; [reflexivity|].
  destruct (String.eqb_spec n old) as [->|Ho].
  - apply String.eqb_neq in Hne. now rewrite Hne.
  - assert (E : String.eqb old n = false) by (apply String.eqb_neq; congruence).
    now rewrite E.
Qed.

Lemma has_column_false df c :
  has_column df c = false <-> dict_get (columns df) c = None.
Proof.
  destruct (has_column df c) eqn:E.
  - apply has_column_dict_get in E. destruct E as [col E].
    split; [discriminate|congruence].
  - split; [|reflexivity]. intros _.
    destruct (dict_get (columns df) c) as [col|] eqn:D; [|reflexivity].
    assert (has_column df c = true) by (apply has_column_dict_get; eauto).
    congruence.
Qed.


(* ------------------------------------------------------------------ *)
(** * Rows of a filtered frame *)

(** A boolean filter is the positional selection of the positions the mask
    holds true at. *)
Lemma df_select_take df mask :
  well_formed df = true ->
  length mask = length (index df) ->
  df_select df mask = df_take df (true_positions mask) /\
  Forall (fun i => i < length (index df))%nat (true_positions mask) /\
  (forall i, In i (true_positions mask) <-> nth_error mask i = Some true).
Proof.
  intros Hwf Hmask.
  assert (Hspec : forall i, In i (true_positions mask) <->
                            nth_error mask i = Some true).
  { intros i. unfold true_positions. rewrite positions_from_spec.
    rewrite Nat.sub_0_r. intuition lia. }
  assert (Hsel : forall (A : Type) (l : list A),
             length l = length (index df) ->
             select mask l = take l (true_positions mask)).
  { intros A l Hl. apply (select_positions mask l []). congruence. }
  split; [|split; [|exact Hspec]].
  - unfold df_select, df_take. f_equal; [now apply Hsel|].
    apply map_ext_in. intros [c col] Hin. simpl. f_equal.
    pose proof (well_formed_cols _ Hwf) as Hc.
    rewrite Forall_forall in Hc. specialize (Hc _ Hin). simpl in Hc.
    destruct col; simpl in *; f_equal; now apply Hsel.
  - apply Forall_forall. intros i Hi. apply Hspec in Hi.
    rewrite <- Hmask. apply nth_error_Some. congruence.
Qed.

(** A row of a positional selection. *)
Lemma df_take_row df idx k i :
  well_formed df = true ->
  Forall (fun i => i < length (index df))%nat idx ->
  nth_error idx k = Some i ->
  exists label r,
    nth_error (index df) i = Some label /\
    row_at (columns df) i = Some r /\
    nth_error (index (df_take df idx)) k = Some label /\
    row_at (columns (df_take df idx)) k = Some r.
Proof.
  intros Hwf Hv Hk.
  assert (Hi : (i < length (index df))%nat).
  { rewrite Forall_forall in Hv. apply Hv. eapply nth_error_In; eauto. }
  destruct (nth_error (index df) i) as [label|] eqn:El;
    [|apply nth_error_None in El; lia].
  destruct (row_at_some (columns df) i) as [r Hr].
  { eapply Forall_impl; [|exact (well_formed_cols _ Hwf)].
    intros nc E. simpl in E. lia. }
  exists label, r. repeat split; auto.
  - cbn [index df_take]. rewrite nth_error_take by exact Hv. now rewrite Hk.
  - cbn [columns df_take].
    rewrite (row_at_take _ _ _ k i (well_formed_cols _ Hwf) Hv Hk).
    exact Hr.
Qed.

Lemma series_ne_int cl i :
  nth_error (series_ne (IntCol cl) 0) i = Some true <->
  exists z, nth_error cl i = Some z /\ z <> 0%Z.
Proof.
  simpl. rewrite nth_error_map.
  destruct (nth_error cl i) as [z|]; simpl.
  - split.
    + intros [= Hz]. exists z. split; [reflexivity|].
      apply negb_true_iff in Hz. now apply Z.eqb_neq.
    + intros (z' & [= <-] & Hz). f_equal.
      apply negb_true_iff. now apply Z.eqb_neq.
  - split; [discriminate|]. intros (z & Hz & _). discriminate.
Qed.

(** C2 (amended).  The two cluster charts of the fan segmentation are drawn
    from the cluster table without its rows of cluster 0: their [Cluster]
    column holds the other clusters in table order, and every row they are
    drawn from is a row of the cluster table whose [Cluster] is not 0.  The
    fan scatter is asked for the whole fan table, rows of cluster 0
    included; when Plotly refuses the cells of that table the panel ends
    with an exception after the heading of the scatter. *)
Theorem fan_segmentation_views :
  forall L w clusters fans cl,
    lookup_table w "cluster_analysis" = Ok (Some clusters) ->
    lookup_table w "fan_probabilities" = Ok (Some fans) ->
    getitem clusters "Cluster" = Ok (IntCol cl) ->
    has_column clusters "Revenue_Share" = true ->
    has_column clusters "Total_Spent_mean" = true ->
    forallb (has_column fans)
            ["Total_Spent"; "Purchase_Probability"; "Cluster"; "fan_id";
             "Favorite_Team"] = true ->
    let shown := df_select clusters (series_ne (IntCol cl) 0) in
    let scatter_args :=
      [("x", "Total_Spent"); ("y", "Purchase_Probability");
       ("color", "Cluster"); ("size", "Total_Spent");
       ("hover_data", "fan_id"); ("hover_data", "Favorite_Team")] in
    let cluster_charts :=
      [Title "👥 Análise de Fãs e Segmentação";
       Markdown "Divisão dos fãs em grupos (clusters) com base em seu comportamento de compra e engajamento.";
       Markdown "### Comparativo entre Clusters";
       PlotlyChart (PxFigure "pie" shown
                      [("names", "Cluster"); ("values", "Revenue_Share")]);
       PlotlyChart (PxFigure "bar" shown
                      [("x", "Cluster"); ("y", "Total_Spent_mean");
                       ("color", "Cluster")]);
       Markdown "### Análise Detalhada dos Fãs"] in
    (if plotly_accepts L "scatter" fans scatter_args
     then
       fst (display_fan_segmentation L w) = Ok tt /\
       page (snd (display_fan_segmentation L w)) =
         page w ++ cluster_charts ++
         [PlotlyChart (PxFigure "scatter" fans scatter_args)]
     else
       (exists e, fst (display_fan_segmentation L w) = Raise e) /\
       page (snd (display_fan_segmentation L w)) = page w ++ cluster_charts) /\
    getitem shown "Cluster" =
      Ok (IntCol (filter (fun z => negb (Z.eqb z 0)) cl)) /\
    Forall (fun z => z <> 0%Z) (filter (fun z => negb (Z.eqb z 0)) cl) /\
    (well_formed clusters = true ->
     forall k, (k < n_rows shown)%nat ->
       exists i z label r,
         nth_error cl i = Some z /\ z <> 0%Z /\
         nth_error (index clusters) i = Some label /\
         row_at (columns clusters) i = Some r /\
         nth_error (index shown) k = Some label /\
         row_at (columns shown) k = Some r).
Proof.
  intros L w clusters fans cl Hc Hf Hcl Hrs Hts Hfans shown scatter_args
         cluster_charts.
  subst scatter_args cluster_charts.
  assert (Hcc : has_column clusters "Cluster" = true)
    by exact (getitem_present _ _ _ Hcl).
  assert (Hcols : forallb (fun a => has_column fans (snd a))
                    [("x", "Total_Spent"); ("y", "Purchase_Probability");
                     ("color", "Cluster"); ("size", "Total_Spent");
                     ("hover_data", "fan_id"); ("hover_data", "Favorite_Team")]
                  = true).
  { simpl in Hfans. rewrite !andb_true_iff in Hfans.
    destruct Hfans as (F1 & F2 & F3 & F4 & F5 & _).
    simpl. now rewrite F1, F2, F3, F4, F5. }
  split; [|split; [|split]].
  - unfold display_fan_segmentation. exec. load. load.
    heap_lookup. rewrite Hcl. exec. fold shown.
    rewrite px_plain
      by (try reflexivity; simpl; unfold shown;
          rewrite !has_column_select, Hcc, Hrs; reflexivity).
    exec.
    rewrite px_plain
      by (try reflexivity; simpl; unfold shown;
          rewrite !has_column_select, Hcc, Hts; reflexivity).
    exec. heap_lookup.
    rewrite (px_checked L "scatter" fans _ eq_refl Hcols).
    destruct (plotly_accepts L "scatter" fans _); exec;
      rewrite <- !app_assoc.
    + split; reflexivity.
    + split; [eexists; reflexivity|reflexivity].
  - unfold shown. rewrite getitem_select, Hcl. simpl.
    now rewrite select_map_filter.
  - apply Forall_forall. intros z Hz. apply filter_In in Hz.
    destruct Hz as [_ Hz]. apply negb_true_iff in Hz. now apply Z.eqb_neq.
  - intros Hwf k Hk.
    pose proof (well_formed_len _ _ _ Hwf Hcl) as Hlen. simpl in Hlen.
    assert (Hmask : length (series_ne (IntCol cl) 0) = length (index clusters))
      by (simpl; now rewrite length_map).
    destruct (df_select_take clusters _ Hwf Hmask) as (Hdf & Hv & Hspec).
    unfold shown in *. rewrite Hdf in *.
    unfold n_rows in Hk. cbn [index df_take] in Hk.
    rewrite (take_length_valid _ _ Hv) in Hk.
    destruct (nth_error (true_positions (series_ne (IntCol cl) 0)) k)
      as [i|] eqn:Ei; [|apply nth_error_None in Ei; lia].
    assert (Hin : In i (true_positions (series_ne (IntCol cl) 0)))
      by (eapply nth_error_In; eauto).
    apply Hspec in Hin. apply series_ne_int in Hin.
    destruct Hin as (z & Hz & Hnz).
    destruct (df_take_row clusters _ k i Hwf Hv Ei) as (label & r & A & B & C & D).
    exists i, z, label, r. repeat split; auto.
Qed.

(** C2, as stated, fails: the fan scatter of the sample shows a fan of
    cluster 0, the cluster with the largest revenue share. *)
Lemma scatter_shows_cluster_0 :
  exists df args cl,
    last (page (snd (display_fan_segmentation sample_library
                       (fresh sample_files)))) (Title "") =
      PlotlyChart (PxFigure "scatter" df args) /\
    getitem df "Cluster" = Ok (IntCol cl) /\
    In 0%Z cl /\
    getitem sample_clusters "Cluster" = Ok (IntCol [0; 1; 2]%Z) /\
    getitem sample_clusters "Revenue_Share" =
      Ok (FloatCol [Fin 60; Fin 10; Fin 30]).
Proof.
  do 3 eexists. vm_compute. split; [reflexivity|].
  split; [reflexivity|]. split; [left; reflexivity|]. split; reflexivity.
Qed.

Lemma fan_segmentation_views_witness :
  fst (display_fan_segmentation sample_library (fresh sample_files)) = Ok tt.
Proof.
  pose proof (fan_segmentation_views sample_library (fresh sample_files)
                sample_clusters sample_fans [0; 1; 2]%Z
                eq_refl eq_refl eq_refl eq_refl eq_refl eq_refl) as H.
  cbv zeta in H. destruct H as [H _].
  change (plotly_accepts sample_library "scatter" sample_fans
            [("x", "Total_Spent"); ("y", "Purchase_Probability");
             ("color", "Cluster"); ("size", "Total_Spent");
             ("hover_data", "fan_id"); ("hover_data", "Favorite_Team")])
    with true in H.
  exact (proj1 H).
Defined.

(* ------------------------------------------------------------------ *)
(** * The team panel *)


(** The team panel up to its first chart, on a table that has the columns
    the charts name: the frame it shows and the page. *)
Lemma team_panel_run L w team col exps :
  lookup_table w "team_forecasts" = Ok (Some team) ->
  getitem team "Expected_Revenue" = Ok col ->
  sort_keys col = Ok exps ->
  has_column team "Unnamed: 0" = true ->
  forallb (has_column team)
          ["Avg_Purchase_Probability"; "Fan_Count"; "Historical_Avg"] = true ->
  let shown := rename_columns (df_take team (nargsort (quicksort L) false exps))
                              "Unnamed: 0" "Time" in
  let treemap_args :=
    [("path", "Time"); ("values", "Expected_Revenue");
     ("color", "Fan_Count"); ("hover_data", "Historical_Avg")] in
  let first_chart :=
    [Title "🏆 Estimativa de Receita por Time";
     Markdown "Previsão de receita para cada time na próxima campanha, com base no comportamento dos seus fãs.";
     Markdown "#### Comparativo de Receita Esperada";
     PlotlyChart (PxFigure "bar" shown
                    [("x", "Time"); ("y", "Expected_Revenue");
                     ("color", "Avg_Purchase_Probability")]);
     Markdown "#### Distribuição da Receita e Fãs"] in
  if plotly_accepts L "treemap" shown treemap_args
  then
    fst (display_team_revenue L w) = Ok tt /\
    page (snd (display_team_revenue L w)) =
      page w ++ first_chart ++
      [PlotlyChart (PxFigure "treemap" shown treemap_args);
       Markdown "#### Detalhamento dos Dados por Time";
       DataFrameView shown]
  else
    (exists e, fst (display_team_revenue L w) = Raise e) /\
    page (snd (display_team_revenue L w)) = page w ++ first_chart.
Proof.
  intros Ht Hcol Hexp Hun Hcols shown treemap_args first_chart.
  subst treemap_args first_chart.
  pose proof (getitem_present _ _ _ Hcol) as Hexp'.
  simpl in Hcols. rewrite !andb_true_iff in Hcols.
  destruct Hcols as (C1 & C2 & C3 & _).
  assert (Hshown : forall c, c <> "Unnamed: 0" -> has_column team c = true ->
                             has_column shown c = true).
  { intros c Hne Hc. unfold shown. apply has_column_rename_other; auto.
    now rewrite has_column_take. }
  assert (Htime : has_column shown "Time" = true).
  { unfold shown. apply has_column_rename_new. now rewrite has_column_take. }
  assert (Hargs : forallb (fun a => has_column shown (snd a))
                    [("path", "Time"); ("values", "Expected_Revenue");
                     ("color", "Fan_Count"); ("hover_data", "Historical_Avg")]
                  = true).
  { simpl. rewrite Htime, !Hshown by (auto; discriminate). reflexivity. }
  unfold display_team_revenue. exec. load.
  heap_lookup. exec. unfold sort_values. rewrite Hcol. cbn [rbind].
  rewrite Hexp. cbn [rbind]. exec.
  heap_lookup. rewrite has_column_take, Hun. exec.
  rewrite set_nth_snoc. fold shown.
  heap_lookup.
  rewrite px_plain
    by (try reflexivity; simpl;
        rewrite Htime, !Hshown by (auto; discriminate); reflexivity).
  exec.
  rewrite (px_checked L "treemap" shown _ eq_refl Hargs).
  destruct (plotly_accepts L "treemap" shown _); exec;
    rewrite <- !app_assoc.
  - split; reflexivity.
  - split; [eexists; reflexivity|reflexivity].
Qed.




(* ------------------------------------------------------------------ *)
(** * The stable sort *)












(* ------------------------------------------------------------------ *)
(** * A stable argsort on labelled values *)








(* ------------------------------------------------------------------ *)
(** * The n largest *)

















Lemma as_floats_length col imp :
  as_floats col = Ok imp -> length imp = col_len col.
Proof.
  destruct col; simpl; try discriminate; intros [= <-];
    now rewrite ?length_map.
Qed.



(* ------------------------------------------------------------------ *)
(** * Further properties of the loader *)

Lemma lookup_table_missing w n :
  In n logical_names ->
  dict_get (cache w) n = None ->
  dict_get (files w) (path_of n) = None ->
  lookup_table w n = Ok None.
Proof.
  intros Hn Hc Hf. rewrite (lookup_table_file w n Hc Hn). now rewrite Hf.
Qed.

(** X1.  A known name whose file is not on disk: the call returns [None]
    without reading, the [None] is cached, and the name stays absent for
    every later call, also after the file has been put in place. *)
Theorem missing_file_stays_missing :
  forall n w,
    In n logical_names ->
    dict_get (cache w) n = None ->
    dict_get (files w) (path_of n) = None ->
    fst (load_data n w) = Ok None /\
    reads (snd (load_data n w)) = reads w /\
    forall fs h r p,
      fst (load_data n (mkWorld fs (cache (snd (load_data n w))) h r p)) =
        Ok None /\
      reads (snd (load_data n (mkWorld fs (cache (snd (load_data n w))) h r p))) =
        r.
Proof.
  intros n w Hn Hc Hf.
  pose proof (lookup_table_missing w n Hn Hc Hf) as Ht.
  rewrite (load_data_none n w Ht). cbn [fst snd reads cache].
  split; [reflexivity|]. split; [reflexivity|].
  intros fs h r p.
  assert (Hc' : dict_get (cache_after (cache w) n None) n = Some None).
  { unfold cache_after. rewrite Hc. apply dict_get_set_same. }
  rewrite load_data_none.
  - split; reflexivity.
  - unfold lookup_table, table_of. cbn [cache]. now rewrite Hc'.
Qed.

Lemma missing_file_stays_missing_witness :
  fst (load_data "team_forecasts"
         (mkWorld (on_disk sample_files)
                  (cache (snd (load_data "team_forecasts" (fresh []))))
                  [] [] [])) = Ok None.
Proof.
  apply (missing_file_stays_missing "team_forecasts" (fresh []));
    [simpl; tauto|reflexivity|reflexivity].
Defined.

(** X2.  The first call for a known name whose file is on disk and holds a
    table reads that file, the one the file map names inside the artifacts
    directory, returns its table and caches it. *)
Theorem load_reads_the_mapped_file :
  forall n f w df,
    dict_get file_map n = Some f ->
    dict_get (cache w) n = None ->
    dict_get (files w) (String.append "artifacts/" f) = Some (Csv df) ->
    returned (load_data n w) = Ok (Some df) /\
    reads (snd (load_data n w)) = reads w ++ [String.append "artifacts/" f] /\
    dict_get (cache (snd (load_data n w))) n = Some (Some df).
Proof.
  intros n f w df Hf Hc Hd.
  assert (Ht : lookup_table w n = Ok (Some df)).
  { unfold lookup_table, table_of. rewrite Hc, Hf.
    rewrite (file_map_truthy _ _ Hf).
    change (os_path_join ARTIFACTS_DIR f) with (String.append "artifacts/" f).
    now rewrite Hd. }
  rewrite returned_load, Ht. rewrite (load_data_some n w df Ht).
  cbn [snd reads cache]. unfold reads_after, cache_after, path_of.
  rewrite Hc, Hf. split; [reflexivity|]. split; [reflexivity|].
  apply dict_get_set_same.
Qed.

Lemma load_reads_the_mapped_file_witness :
  returned (load_data "team_forecasts" (fresh sample_files)) =
  Ok (Some sample_teams).
Proof.
  apply (load_reads_the_mapped_file "team_forecasts"
           "team_revenue_forecasts.csv" (fresh sample_files) sample_teams);
    reflexivity.
Defined.

(* ------------------------------------------------------------------ *)
(** * Further properties of the executive summary *)

Lemma row_at_cell cols i r c col :
  row_at cols i = Some r -> dict_get cols c = Some col ->
  exists v, col_iloc col i = Some v.
Proof.
  revert r. induction cols as [|[n0 c0] cols IH]; intros r Hr Hc; simpl in *.
  - discriminate.
  - destruct (col_iloc c0 i) as [v0|] eqn:E0; [|discriminate].
    destruct (row_at cols i) as [r'|]; [|discriminate].
    destruct (String.eqb c n0).
    + injection Hc as <-. eauto.
    + eapply IH; eauto.
Qed.

Lemma dict_get_upcast (r : Row) c :
  dict_get (map (fun kv => (fst kv, upcast (snd kv))) r) c =
  option_map upcast (dict_get r c).
Proof.
  induction r as [|[k v] r IH]; simpl; [reflexivity|].
  destruct (String.eqb c k); auto.
Qed.

Lemma row_get_ok cols i r c col :
  row_at cols i = Some r -> dict_get cols c = Some col ->
  exists v, row_get (row_dtype cols r) c = Ok v.
Proof.
  intros Hr Hc. unfold row_get, row_dtype.
  destruct (row_at_cell _ _ _ _ _ Hr Hc) as [v Hv].
  pose proof (row_at_get _ _ _ c Hr) as Hg. rewrite Hc, Hv in Hg.
  destruct (_ && _).
  - rewrite dict_get_upcast, Hg. simpl. eauto.
  - rewrite Hg. eauto.
Qed.

Lemma row_first_ok cols i r c col :
  row_at cols i = Some r -> dict_get cols c = Some col ->
  exists v, row_first (row_dtype cols r) = Ok v.
Proof.
  intros Hr Hc. destruct cols as [|[n0 c0] cols]; [discriminate|].
  unfold row_dtype. simpl in Hr. destruct (col_iloc c0 i); [|discriminate].
  destruct (row_at cols i); [|discriminate].
  injection Hr as <-. destruct (_ && _); simpl; eauto.
Qed.

Lemma df_loc_row df label r :
  df_loc df label = Ok r ->
  exists i r0, row_at (columns df) i = Some r0 /\ r = row_dtype (columns df) r0.
Proof.
  unfold df_loc. destruct label as [l|]; [|discriminate].
  destruct (index_of l (index df)) as [i|]; [|discriminate].
  destruct (row_at (columns df) i) as [r'|] eqn:E; [|discriminate].
  intros [= <-]. eauto.
Qed.

Lemma idxmax_column df c label :
  idxmax df c = Ok label -> exists col, dict_get (columns df) c = Some col.
Proof.
  unfold idxmax, getitem.
  destruct (dict_get (columns df) c) as [col|]; [eauto|discriminate].
Qed.

(** The panel stopped before its first metric. *)
Ltac no_metric :=
  rewrite <- ?app_assoc; eexists; split; [reflexivity|right; reflexivity].

(** X3.  The three metrics of the executive summary are shown together or not at
    all: whatever the tables hold, the panel either completes with its three
    metrics, or shows none (a table is absent, or an exception ends the
    panel before the first metric). *)
Theorem home_metrics_all_or_none :
  forall L w, exists out,
    page (snd (display_home L w)) = page w ++ out /\
    (fst (display_home L w) = Ok tt /\ length (filter is_metric out) = 3%nat \/
     filter is_metric out = []).
Proof.
  intros L w. unfold display_home. exec.
  destruct (lookup_table w "team_forecasts") as [[team|]|e1|s1] eqn:H1;
    [ | | load; no_metric
      | exfalso; exact (lookup_table_known_result _ _ _ H1) ];
  (destruct (lookup_table w "revenue_forecast") as [[fc|]|e2|s2] eqn:H2;
    [ | | load; load; no_metric
      | exfalso; exact (lookup_table_known_result _ _ _ H2) ]);
  (destruct (lookup_table w "fan_probabilities") as [[fans|]|e3|s3] eqn:H3;
    [ | | load; load; load; no_metric
      | exfalso; exact (lookup_table_known_result _ _ _ H3) ]);
    load; load; load; try no_metric.
  heap_lookup. exec.
  destruct (getitem fc "Revenue_Forecast") as [rev|e|s]; exec; try no_metric.
  destruct (series_sum L rev) as [total|e|s]; exec; try no_metric.
  heap_lookup. exec.
  destruct (idxmax team "Expected_Revenue") as [label|e|s] eqn:Hidx; exec;
    try no_metric.
  destruct (df_loc team label) as [r|e|s] eqn:Hloc; exec; try no_metric.
  heap_lookup.
  destruct (getitem fans "Purchase_Probability") as [prob|e|s]; exec;
    try no_metric.
  destruct (series_gt prob (3 # 4)) as [mask|e|s]; exec; try no_metric.
  destruct (idxmax_column _ _ _ Hidx) as [col Hcol].
  destruct (df_loc_row _ _ _ Hloc) as (i & r0 & Hr & ->).
  destruct (row_first_ok _ _ _ _ _ Hr Hcol) as [v1 ->].
  destruct (row_get_ok _ _ _ _ _ Hr Hcol) as [v2 ->]. exec.
  rewrite <- !app_assoc. eexists. split; [reflexivity|].
  left. split; reflexivity.
Qed.

(* ------------------------------------------------------------------ *)
(** * Further properties of the revenue forecast *)

(** X4.  Without the forecast table the panel shows its heading and one error
    notice, and ends normally. *)
Theorem forecast_file_missing :
  forall L w,
    lookup_table w "revenue_forecast" = Ok None ->
    fst (display_revenue_forecast L w) = Ok tt /\
    page (snd (display_revenue_forecast L w)) =
      page w ++
      [Title "📈 Previsão de Receita (Próximos 30 Dias)";
       Markdown "Projeção da receita diária com base no modelo preditivo de melhor performance (XGBoost).";
       Error forecast_missing].
Proof.
  intros L w H. unfold display_revenue_forecast. exec. load.
  rewrite <- !app_assoc. split; reflexivity.
Qed.

Lemma forecast_file_missing_witness :
  fst (display_revenue_forecast sample_library (fresh [])) = Ok tt.
Proof. apply (forecast_file_missing sample_library (fresh [])). reflexivity. Defined.

(** The panel stopped where it stands. *)
Ltac stopped := rewrite <- ?app_assoc; eexists; split; reflexivity.

Lemma getitem_known df c s : getitem df c <> Unknown s.
Proof. unfold getitem. destruct (dict_get (columns df) c); discriminate. Qed.

Lemma parse_cells_known parse l s : parse_cells parse l <> Unknown s.
Proof.
  induction l as [|[x|] l IH]; simpl; try discriminate.
  - destruct (parse x); [|discriminate].
    destruct (parse_cells parse l); simpl; try discriminate. congruence.
  - destruct (parse_cells parse l); simpl; try discriminate. congruence.
Qed.

Lemma to_datetime_known L c s : to_datetime L c <> Unknown s.
Proof.
  destruct c as [l|l|l|l]; simpl; try discriminate.
  pose proof (parse_cells_known (parse_datetime L l) l) as H.
  destruct (parse_cells (parse_datetime L l) l) as [ts|e|u]; simpl;
    try discriminate.
  intros _. exact (H u eq_refl).
Qed.

Lemma setitem_known df c col s : setitem df c col <> Unknown s.
Proof. unfold setitem. destruct (Nat.eqb _ _); discriminate. Qed.

(** X5.  The line chart of the forecast needs the four columns [Date],
    [Upper_Bound], [Lower_Bound] and [Revenue_Forecast]: when the table
    lacks one of them the panel ends with an exception and has drawn
    nothing, neither the line chart nor the weekday chart. *)
Theorem forecast_needs_its_columns :
  forall L w fc c,
    lookup_table w "revenue_forecast" = Ok (Some fc) ->
    In c ["Date"; "Upper_Bound"; "Lower_Bound"; "Revenue_Forecast"] ->
    has_column fc c = false ->
    exists e,
      fst (display_revenue_forecast L w) = Raise e /\
      page (snd (display_revenue_forecast L w)) =
        page w ++
        [Title "📈 Previsão de Receita (Próximos 30 Dias)";
         Markdown "Projeção da receita diária com base no modelo preditivo de melhor performance (XGBoost)."].
Proof.
  intros L w fc c Ht Hc Hmiss.
  unfold display_revenue_forecast. exec. load. heap_lookup.
  destruct (getitem fc "Date") as [raw|e|s] eqn:Hd; exec;
    [|stopped|exfalso; exact (getitem_known _ _ _ Hd)].
  destruct (to_datetime L raw) as [dates|e|s] eqn:Hdt; exec;
    [|stopped|exfalso; exact (to_datetime_known _ _ _ Hdt)].
  heap_lookup.
  destruct (setitem fc "Date" dates) as [fc1|e|s] eqn:S1; exec;
    [|stopped|exfalso; exact (setitem_known _ _ _ _ S1)].
  rewrite set_nth_snoc. heap_lookup.
  rewrite (getitem_setitem_same _ _ _ _ S1). exec. heap_lookup.
  rewrite (getitem_setitem_other _ _ _ _ _ S1) by discriminate.
  destruct (getitem fc "Upper_Bound") as [ub|e|s] eqn:Hub; exec;
    [|stopped|exfalso; exact (getitem_known _ _ _ Hub)].
  heap_lookup. rewrite (getitem_setitem_same _ _ _ _ S1). exec. heap_lookup.
  rewrite (getitem_setitem_other _ _ _ _ _ S1) by discriminate.
  destruct (getitem fc "Lower_Bound") as [lb|e|s] eqn:Hlb; exec;
    [|stopped|exfalso; exact (getitem_known _ _ _ Hlb)].
  heap_lookup. rewrite (getitem_setitem_same _ _ _ _ S1). exec. heap_lookup.
  rewrite (getitem_setitem_other _ _ _ _ _ S1) by discriminate.
  destruct (getitem fc "Revenue_Forecast") as [rv|e|s] eqn:Hrv; exec;
    [|stopped|exfalso; exact (getitem_known _ _ _ Hrv)].
  exfalso.
  apply getitem_present in Hd, Hub, Hlb, Hrv.
  simpl in Hc. destruct Hc as [<-|[<-|[<-|[<-|[]]]]]; congruence.
Qed.

Lemma forecast_needs_its_columns_witness :
  exists e,
    fst (display_revenue_forecast sample_library
           (fresh [("artifacts/revenue_forecast_30d.csv",
                    mkDF (range_index 2)
                         [("Date", texts ["2024-01-01"; "2024-01-02"]);
                          ("Revenue_Forecast", floats [100; 50]%Z)])])) =
    Raise e.
Proof.
  destruct (forecast_needs_its_columns sample_library
              (fresh [("artifacts/revenue_forecast_30d.csv",
                       mkDF (range_index 2)
                            [("Date", texts ["2024-01-01"; "2024-01-02"]);
                             ("Revenue_Forecast", floats [100; 50]%Z)])])
              (mkDF (range_index 2)
                    [("Date", texts ["2024-01-01"; "2024-01-02"]);
                     ("Revenue_Forecast", floats [100; 50]%Z)])
              "Upper_Bound" eq_refl (or_intror (or_introl eq_refl)) eq_refl)
    as (e & H & _).
  exists e. exact H.
Defined.

(** The state of the forecast panel once its table is edited: whatever
    happens to the weekday chart, the heap holds the edited table and the
    cache the loaded one. *)
Lemma forecast_panel_edits L w fc raw times rv ub lb :
  lookup_table w "revenue_forecast" = Ok (Some fc) ->
  well_formed fc = true ->
  getitem fc "Date" = Ok raw ->
  to_datetime L raw = Ok (TimeCol times) ->
  getitem fc "Revenue_Forecast" = Ok rv ->
  getitem fc "Upper_Bound" = Ok ub ->
  getitem fc "Lower_Bound" = Ok lb ->
  exists out pg,
    display_revenue_forecast L w =
    (out,
     mkWorld (files w)
       (cache_after (cache w) "revenue_forecast" (Some fc))
       (heap w ++
        [mkDF (index fc)
           (dict_set (dict_set (columns fc) "Date" (TimeCol times))
                     "Day_of_Week" (ObjCol (map (option_map day_name) times)))])
       (reads_after (reads w) (cache w) "revenue_forecast" (Some fc))
       pg).
Proof.
  intros Ht Hwf Hd Hdt Hrv Hub Hlb.
  assert (Hlen : length times = length (index fc)).
  { rewrite (to_datetime_length _ _ _ Hdt). now apply (well_formed_len fc "Date"). }
  pose (fc1 := mkDF (index fc) (dict_set (columns fc) "Date" (TimeCol times))).
  assert (S1 : setitem fc "Date" (TimeCol times) = Ok fc1)
    by (apply setitem_ok; exact Hlen).
  pose (names := ObjCol (map (option_map day_name) times)).
  pose (fc2 := mkDF (index fc1) (dict_set (columns fc1) "Day_of_Week" names)).
  assert (S2 : setitem fc1 "Day_of_Week" names = Ok fc2).
  { apply setitem_ok. simpl. now rewrite length_map. }
  unfold display_revenue_forecast. exec. load.
  heap_lookup. rewrite Hd. exec. rewrite Hdt. exec.
  heap_lookup. rewrite S1. exec. rewrite set_nth_snoc.
  repeat (heap_lookup;
          first [ rewrite (getitem_setitem_same _ _ _ _ S1)
                | rewrite (getitem_setitem_other _ _ _ _ _ S1) by discriminate ];
          rewrite ?Hub, ?Hlb, ?Hrv; exec).
  cbn [dt_day_name]. exec.
  heap_lookup. fold names. rewrite S2. exec. rewrite set_nth_snoc.
  heap_lookup.
  destruct (groupby_sum L fc2 "Day_of_Week" "Revenue_Forecast") as [s|e|u];
    exec; [|do 2 eexists; reflexivity|do 2 eexists; reflexivity].
  destruct (reindex s _) as [s'|e|u];
    exec; [|do 2 eexists; reflexivity|do 2 eexists; reflexivity].
  destruct (px L "bar" _ _) as [fig|e|u]; exec; do 2 eexists; reflexivity.
Qed.

(** X7.  The panel edits the table it was handed in place: afterwards that
    object has its [Date] column as timestamps and a further column
    [Day_of_Week].  The edits stay in the panel's own object: every object
    that existed before is as it was, and the name still stands for the
    table as loaded. *)
Theorem forecast_edits_its_own_copy :
  forall L w fc raw times rv revs ub lb,
    lookup_table w "revenue_forecast" = Ok (Some fc) ->
    well_formed fc = true ->
    getitem fc "Date" = Ok raw ->
    to_datetime L raw = Ok (TimeCol times) ->
    getitem fc "Revenue_Forecast" = Ok rv ->
    as_floats rv = Ok revs ->
    getitem fc "Upper_Bound" = Ok ub ->
    getitem fc "Lower_Bound" = Ok lb ->
    exists edited,
      heap (snd (display_revenue_forecast L w)) = heap w ++ [edited] /\
      index edited = index fc /\
      getitem edited "Date" = Ok (TimeCol times) /\
      getitem edited "Day_of_Week" =
        Ok (ObjCol (map (option_map day_name) times)) /\
      (forall c, c <> "Date" -> c <> "Day_of_Week" ->
                 getitem edited c = getitem fc c) /\
      lookup_table (snd (display_revenue_forecast L w)) "revenue_forecast" =
        Ok (Some fc).
Proof.
  intros L w fc raw times rv revs ub lb Ht Hwf Hd Hdt Hrv Hfl Hub Hlb.
  destruct (forecast_panel_edits L w fc raw times rv ub lb
              Ht Hwf Hd Hdt Hrv Hub Hlb) as (out & pg & ->).
  cbn [snd heap]. eexists. split; [reflexivity|]. split; [reflexivity|].
  unfold getitem. cbn [columns].
  split; [|split; [|split]].
  - rewrite dict_get_set_other by discriminate.
    now rewrite dict_get_set_same.
  - now rewrite dict_get_set_same.
  - intros c H1 H2. now rewrite !dict_get_set_other by assumption.
  - unfold lookup_table. cbn [files cache].
    rewrite table_of_cache_after; exact Ht.
Qed.

Lemma forecast_edits_its_own_copy_witness :
  exists edited,
    heap (snd (display_revenue_forecast sample_library (fresh sample_files))) =
    [edited].
Proof.
  destruct (forecast_edits_its_own_copy sample_library (fresh sample_files)
              sample_forecast
              (texts ["2024-01-01"; "2024-01-03"; "2024-01-08"])
              [Some 1704067200000000000; Some 1704240000000000000;
               Some 1704672000000000000]%Z
              (floats [100; 50; 25]%Z)
              [Fin 100; Fin 50; Fin 25]
              (floats [120; 60; 30]%Z) (floats [80; 40; 20]%Z)
              eq_refl eq_refl eq_refl eq_refl eq_refl eq_refl eq_refl eq_refl)
    as (edited & H & _).
  exists edited. exact H.
Defined.

(* ------------------------------------------------------------------ *)
(** * Further properties of the team panel *)

(** X8.  Without the team table the panel shows its heading and one error
    notice, and ends normally. *)
Theorem teams_file_missing :
  forall L w,
    lookup_table w "team_forecasts" = Ok None ->
    fst (display_team_revenue L w) = Ok tt /\
    page (snd (display_team_revenue L w)) =
      page w ++
      [Title "🏆 Estimativa de Receita por Time";
       Markdown "Previsão de receita para cada time na próxima campanha, com base no comportamento dos seus fãs.";
       Error teams_missing].
Proof.
  intros L w H. unfold display_team_revenue. exec. load.
  rewrite <- !app_assoc. split; reflexivity.
Qed.

Lemma teams_file_missing_witness :
  fst (display_team_revenue sample_library (fresh [])) = Ok tt.
Proof.
  apply (teams_file_missing sample_library (fresh [])). reflexivity.
Defined.

Lemma sort_keys_numbers col exps :
  as_floats col = Ok exps -> sort_keys col = Ok exps.
Proof. destruct col; simpl; try discriminate; auto. Qed.

(** X9.  The charts of the team panel name the teams by a column [Time], which
    the panel obtains by renaming the column [Unnamed: 0].  A table that has
    neither column is sorted, and then the first chart is refused: the
    panel ends with an exception after the heading of that chart, with no
    chart and no table. *)
Theorem team_panel_needs_team_column :
  forall L w team col exps,
    lookup_table w "team_forecasts" = Ok (Some team) ->
    getitem team "Expected_Revenue" = Ok col ->
    as_floats col = Ok exps ->
    has_column team "Unnamed: 0" = false ->
    has_column team "Time" = false ->
    exists e,
      fst (display_team_revenue L w) = Raise e /\
      page (snd (display_team_revenue L w)) =
        page w ++
        [Title "🏆 Estimativa de Receita por Time";
         Markdown "Previsão de receita para cada time na próxima campanha, com base no comportamento dos seus fãs.";
         Markdown "#### Comparativo de Receita Esperada"].
Proof.
  intros L w team col exps Ht Hcol Hexp Hun Htime.
  unfold display_team_revenue. exec. load.
  heap_lookup. exec. unfold sort_values. rewrite Hcol. cbn [rbind].
  rewrite (sort_keys_numbers _ _ Hexp). cbn [rbind]. exec.
  heap_lookup. rewrite has_column_take, Hun. exec.
  heap_lookup.
  rewrite (px_missing L "bar" _ _ ("x", "Time"))
    by (simpl; rewrite ?has_column_take; auto).
  exec. stopped.
Qed.

Lemma team_panel_needs_team_column_witness :
  exists e,
    fst (display_team_revenue sample_library
           (fresh [("artifacts/team_revenue_forecasts.csv",
                    mkDF (range_index 2)
                         [("Club", texts ["Imperial"; "Santos"]);
                          ("Expected_Revenue", floats [800; 1200]%Z)])])) =
    Raise e.
Proof.
  destruct (team_panel_needs_team_column sample_library
              (fresh [("artifacts/team_revenue_forecasts.csv",
                       mkDF (range_index 2)
                            [("Club", texts ["Imperial"; "Santos"]);
                             ("Expected_Revenue", floats [800; 1200]%Z)])])
              (mkDF (range_index 2)
                    [("Club", texts ["Imperial"; "Santos"]);
                     ("Expected_Revenue", floats [800; 1200]%Z)])
              (floats [800; 1200]%Z) [Fin 800; Fin 1200]
              eq_refl eq_refl eq_refl eq_refl eq_refl)
    as (e & H & _).
  exists e. exact H.
Defined.

(** The position of a maximum that no other row reaches. *)
Lemma nanargmax_unique l i m :
  nth_error l i = Some (Fin m) ->
  (forall j x, j <> i -> nth_error l j = Some (Fin x) -> (x < m)%Q) ->
  nanargmax l = Some i.
Proof.
  intros Hi Huniq.
  destruct (nanargmax_value _ _ _ Hi) as [i' E]. rewrite E.
  destruct (nanargmax_spec _ _ E) as (m' & Hi' & Hle & _).
  destruct (Nat.eq_dec i' i) as [->|Hne]; [reflexivity|].
  pose proof (Huniq _ _ Hne Hi'). pose proof (Hle _ _ Hi). lra.
Qed.

(** X10.  When one team holds the largest [Expected_Revenue] alone, the first row
    of the team panel's table is the row the executive summary names as the
    team of largest potential, whatever the sort kind does with ties. *)
Theorem top_row_is_top_team :
  forall L team exps i m,
    well_formed team = true ->
    getitem team "Expected_Revenue" = Ok (FloatCol exps) ->
    nth_error exps i = Some (Fin m) ->
    (forall j x, j <> i -> nth_error exps j = Some (Fin x) -> (x < m)%Q) ->
    argsort_ok (quicksort L) (descending_input exps) = true ->
    exists sorted label,
      sort_values L team "Expected_Revenue" false = Ok sorted /\
      hd_error (index sorted) = Some label /\
      nth_error (index team) i = Some label /\
      idxmax team "Expected_Revenue" = Ok (Some label).
Proof.
  intros L team exps i m Hwf Hget Hi Huniq Hok.
  pose proof (well_formed_len _ _ _ Hwf Hget) as Hlen. simpl in Hlen.
  assert (Hin : (i < length exps)%nat) by (apply nth_error_Some; congruence).
  destruct (nth_error (index team) i) as [label|] eqn:Hlabel;
    [|apply nth_error_None in Hlabel; lia].
  set (indexer := nargsort (quicksort L) false exps).
  assert (Hp : Permutation indexer (seq 0 (length exps))).
  { apply nargsort_desc_perm. unfold argsort_ok in Hok.
    now apply andb_true_iff in Hok. }
  pose proof (nargsort_desc_sorted _ _ Hok) as Hs. fold indexer in Hs.
  assert (Hi_in : In i indexer).
  { apply (Permutation_in _ (Permutation_sym Hp)). apply in_seq. lia. }
  destruct indexer as [|h t] eqn:Hidx; [contradiction|].
  assert (Hh : h = i).
  { destruct (Nat.eq_dec h i) as [->|Hne]; [reflexivity|exfalso].
    destruct Hi_in as [->|Hi_in]; [congruence|].
    assert (Hh_lt : (h < length exps)%nat).
    { pose proof (perm_seq_lt _ _ Hp) as F. now inversion F. }
    destruct (nth_error exps h) as [xh|] eqn:Hxh;
      [|apply nth_error_None in Hxh; lia].
    rewrite take_cons, Hxh in Hs. simpl in Hs.
    apply StronglySorted_inv in Hs. destruct Hs as [_ Hs].
    rewrite Forall_forall in Hs.
    specialize (Hs _ (In_take _ _ _ _ Hi_in Hi)).
    destruct xh as [|a]; simpl in Hs; [contradiction|].
    pose proof (Huniq _ _ Hne Hxh). lra. }
  subst h.
  exists (df_take team (i :: t)), label.
  split; [|split; [|split]].
  - unfold sort_values. rewrite Hget. simpl. fold indexer. now rewrite Hidx.
  - cbn [index df_take]. rewrite take_cons, Hlabel. reflexivity.
  - reflexivity.
  - unfold idxmax. rewrite Hget. cbn [rbind col_len as_floats].
    destruct exps as [|e exps]; [destruct i; discriminate|].
    cbn [length Nat.eqb].
    now rewrite (nanargmax_unique _ _ _ Hi Huniq), Hlabel.
Qed.

Lemma top_row_is_top_team_witness :
  exists sorted,
    sort_values sample_library
      (mkDF (range_index 3)
            [("Unnamed: 0", texts ["Imperial"; "Flamengo"; "Santos"]);
             ("Expected_Revenue", floats [800; 1500; 1200]%Z)])
      "Expected_Revenue" false = Ok sorted /\
    hd_error (index sorted) = Some 1%nat.
Proof.
  destruct (top_row_is_top_team sample_library
              (mkDF (range_index 3)
                    [("Unnamed: 0", texts ["Imperial"; "Flamengo"; "Santos"]);
                     ("Expected_Revenue", floats [800; 1500; 1200]%Z)])
              [Fin 800; Fin 1500; Fin 1200] 1%nat 1500%Q
              eq_refl eq_refl eq_refl)
    as (sorted & label & Hs & Hh & Hl & _).
  - intros [|[|[|j]]] x Hj Hx; simpl in Hx; try congruence;
      try (injection Hx as <-; reflexivity).
    now destruct j.
  - reflexivity.
  - exists sorted. split; [exact Hs|].
    injection Hl as <-. exact Hh.
Defined.

(** X11.  Sorting moves whole rows.  The table the team panel shows is the loaded
    table with its rows rearranged: every row of the loaded table is shown
    once, with its index label and all its cells, so a team keeps its
    revenue, its probability, its fan count and its historical average. *)
Theorem sorting_moves_whole_rows :
  forall L team exps,
    well_formed team = true ->
    getitem team "Expected_Revenue" = Ok (FloatCol exps) ->
    is_permutation_b (quicksort L (descending_input exps))
                     (length (descending_input exps)) = true ->
    exists sorted indexer,
      sort_values L team "Expected_Revenue" false = Ok sorted /\
      Permutation indexer (seq 0 (n_rows team)) /\
      n_rows sorted = n_rows team /\
      forall k, (k < n_rows team)%nat ->
        exists i label r,
          nth_error indexer k = Some i /\
          nth_error (index team) i = Some label /\
          row_at (columns team) i = Some r /\
          nth_error (index sorted) k = Some label /\
          row_at (columns sorted) k = Some r.
Proof.
  intros L team exps Hwf Hget Hperm.
  pose proof (well_formed_len _ _ _ Hwf Hget) as Hlen. simpl in Hlen.
  set (indexer := nargsort (quicksort L) false exps).
  assert (Hp : Permutation indexer (seq 0 (n_rows team))).
  { unfold n_rows. rewrite <- Hlen. now apply nargsort_desc_perm. }
  pose proof (perm_seq_lt _ _ Hp) as Hv. unfold n_rows in Hv.
  assert (Hn : length (take (index team) indexer) = length (index team)).
  { rewrite (take_length_valid _ _ Hv), (Permutation_length Hp).
    apply length_seq. }
  exists (df_take team indexer), indexer.
  split; [|split; [exact Hp|split; [exact Hn|]]].
  - unfold sort_values. now rewrite Hget.
  - intros k Hk.
    destruct (nth_error indexer k) as [i|] eqn:Ei.
    2:{ apply nth_error_None in Ei.
        rewrite (Permutation_length Hp), length_seq in Ei. lia. }
    destruct (df_take_row team indexer k i Hwf Hv Ei)
      as (label & r & A & B & C & D).
    exists i, label, r. repeat split; auto.
Qed.

Lemma sorting_moves_whole_rows_witness :
  exists sorted,
    sort_values sample_library paired_teams "Expected_Revenue" false =
    Ok sorted /\
    n_rows sorted = 4%nat.
Proof.
  destruct (sorting_moves_whole_rows sample_library paired_teams
              (map (fun z => Fin (inject_Z z)) [1000; 1000; 2000; 2000]%Z)
              eq_refl eq_refl)
    as (sorted & indexer & Hs & _ & Hn & _); [vm_compute; reflexivity|].
  exists sorted. split; [exact Hs|exact Hn].
Defined.

Lemma getitem_take_cells df idx c col :
  Forall (fun i => i < length (index df))%nat idx ->
  well_formed df = true ->
  getitem df c = Ok col ->
  exists col',
    getitem (df_take df idx) c = Ok col' /\
    forall k i, nth_error idx k = Some i -> col_iloc col' k = col_iloc col i.
Proof.
  intros Hv Hwf Hc. exists (col_take col idx). split.
  - rewrite getitem_take, Hc. reflexivity.
  - intros k i Hk. apply col_iloc_take; [|exact Hk].
    now rewrite (well_formed_len _ _ _ Hwf Hc).
Qed.

(** X12.  The column [Time] of the table the team panel draws its charts from is
    the column [Unnamed: 0] of the loaded table under its new name, its
    cells rearranged by the sort like those of every other column; that
    table has no column [Unnamed: 0] any more, and its other columns keep
    their names. *)
Theorem time_column_holds_the_teams :
  forall L w team col exps ids,
    lookup_table w "team_forecasts" = Ok (Some team) ->
    well_formed team = true ->
    getitem team "Expected_Revenue" = Ok col ->
    as_floats col = Ok exps ->
    getitem team "Unnamed: 0" = Ok ids ->
    has_column team "Time" = false ->
    forallb (has_column team)
            ["Avg_Purchase_Probability"; "Fan_Count"; "Historical_Avg"] = true ->
    is_permutation_b (quicksort L (descending_input exps))
                     (length (descending_input exps)) = true ->
    exists indexer shown time,
      nth_error (page (snd (display_team_revenue L w))) (length (page w) + 3) =
        Some (PlotlyChart (PxFigure "bar" shown
                             [("x", "Time"); ("y", "Expected_Revenue");
                              ("color", "Avg_Purchase_Probability")])) /\
      Permutation indexer (seq 0 (n_rows team)) /\
      getitem shown "Time" = Ok time /\
      (forall k i, nth_error indexer k = Some i ->
                   col_iloc time k = col_iloc ids i) /\
      has_column shown "Unnamed: 0" = false /\
      forall c x, c <> "Unnamed: 0" -> c <> "Time" ->
        getitem team c = Ok x ->
        exists x',
          getitem shown c = Ok x' /\
          forall k i, nth_error indexer k = Some i ->
                      col_iloc x' k = col_iloc x i.
Proof.
  intros L w team col exps ids Ht Hwf Hcol Hexp Hids Htime Hcols Hperm.
  set (indexer := nargsort (quicksort L) false exps).
  set (shown := rename_columns (df_take team indexer) "Unnamed: 0" "Time").
  assert (Hlen : length exps = length (index team)).
  { rewrite <- (well_formed_len _ _ _ Hwf Hcol). now apply as_floats_length. }
  assert (Hp : Permutation indexer (seq 0 (n_rows team))).
  { unfold n_rows. rewrite <- Hlen. now apply nargsort_desc_perm. }
  pose proof (perm_seq_lt _ _ Hp) as Hv. unfold n_rows in Hv.
  destruct (getitem_take_cells team indexer _ _ Hv Hwf Hids) as (time & Ht1 & Ht2).
  exists indexer, shown, time.
  split; [|split; [exact Hp|split; [|split; [exact Ht2|split]]]].
  - pose proof (team_panel_run L w team col exps Ht Hcol
                  (sort_keys_numbers _ _ Hexp)
                  (getitem_present _ _ _ Hids) Hcols) as Hrun.
    cbv zeta in Hrun. fold indexer in Hrun. fold shown in Hrun.
    assert (Hpage : exists rest,
               page (snd (display_team_revenue L w)) =
               page w ++
               [Title "🏆 Estimativa de Receita por Time";
                Markdown "Previsão de receita para cada time na próxima campanha, com base no comportamento dos seus fãs.";
                Markdown "#### Comparativo de Receita Esperada";
                PlotlyChart (PxFigure "bar" shown
                               [("x", "Time"); ("y", "Expected_Revenue");
                                ("color", "Avg_Purchase_Probability")])] ++ rest).
    { destruct (plotly_accepts L "treemap" shown _);
        destruct Hrun as [_ ->]; eexists; simpl; reflexivity. }
    destruct Hpage as [rest ->].
    rewrite nth_error_app2 by lia.
    replace (length (page w) + 3 - length (page w))%nat with 3%nat by lia.
    reflexivity.
  - unfold shown, getitem, rename_columns. cbn [columns].
    rewrite dict_get_rename_new.
    + unfold getitem in Ht1.
      destruct (dict_get (columns (df_take team indexer)) "Unnamed: 0");
        [|discriminate].
      exact Ht1.
    + apply has_column_false. now rewrite has_column_take.
  - apply has_column_false. unfold shown, rename_columns. cbn [columns].
    apply dict_get_rename_old. discriminate.
  - intros c x H1 H2 Hx. unfold shown. rewrite getitem_rename by assumption.
    exact (getitem_take_cells team indexer c x Hv Hwf Hx).
Qed.

Lemma time_column_holds_the_teams_witness :
  exists shown time,
    getitem shown "Time" = Ok time /\
    has_column shown "Unnamed: 0" = false.
Proof.
  destruct (time_column_holds_the_teams sample_library (fresh sample_files)
              sample_teams (floats [800; 1200; 1200]%Z)
              [Fin 800; Fin 1200; Fin 1200]
              (texts ["Imperial"; "Flamengo"; "Santos"])
              eq_refl eq_refl eq_refl eq_refl eq_refl eq_refl eq_refl eq_refl)
    as (indexer & shown & time & _ & _ & H1 & _ & H2 & _).
  exists shown, time. split; [exact H1|exact H2].
Defined.

(* ------------------------------------------------------------------ *)
(** * Further properties of the fan segmentation *)

(** X13.  The fan segmentation needs both of its tables: when both loads return
    and either table is absent the panel shows its heading and one error
    notice, draws nothing of the table that is present, and ends
    normally. *)
Theorem fans_file_missing :
  forall L w t1 t2,
    lookup_table w "cluster_analysis" = Ok t1 ->
    lookup_table w "fan_probabilities" = Ok t2 ->
    t1 = None \/ t2 = None ->
    fst (display_fan_segmentation L w) = Ok tt /\
    page (snd (display_fan_segmentation L w)) =
      page w ++
      [Title "👥 Análise de Fãs e Segmentação";
       Markdown "Divisão dos fãs em grupos (clusters) com base em seu comportamento de compra e engajamento.";
       Error fans_missing].
Proof.
  intros L w t1 t2 H1 H2 H. unfold display_fan_segmentation. exec.
  destruct t1, t2;
    try (exfalso; destruct H as [H|H]; discriminate H);
    load; load; rewrite <- !app_assoc; split; reflexivity.
Qed.

Lemma fans_file_missing_witness :
  fst (display_fan_segmentation sample_library (fresh files_without_fans)) =
  Ok tt.
Proof.
  apply (fans_file_missing sample_library (fresh files_without_fans)
           (Some sample_clusters) None eq_refl eq_refl).
  right. reflexivity.
Defined.

(** X14.  The three charts of the fan segmentation are drawn one after the other.
    When the fan table lacks a column its scatter names, the two cluster
    charts are on the page already: the panel ends with an exception after
    the heading of the scatter. *)
Theorem scatter_failure_leaves_cluster_charts :
  forall L w clusters fans cl c,
    lookup_table w "cluster_analysis" = Ok (Some clusters) ->
    lookup_table w "fan_probabilities" = Ok (Some fans) ->
    getitem clusters "Cluster" = Ok cl ->
    has_column clusters "Revenue_Share" = true ->
    has_column clusters "Total_Spent_mean" = true ->
    In c ["Total_Spent"; "Purchase_Probability"; "Cluster"; "fan_id";
          "Favorite_Team"] ->
    has_column fans c = false ->
    let shown := df_select clusters (series_ne cl 0) in
    exists e,
      fst (display_fan_segmentation L w) = Raise e /\
      page (snd (display_fan_segmentation L w)) =
        page w ++
        [Title "👥 Análise de Fãs e Segmentação";
         Markdown "Divisão dos fãs em grupos (clusters) com base em seu comportamento de compra e engajamento.";
         Markdown "### Comparativo entre Clusters";
         PlotlyChart (PxFigure "pie" shown
                        [("names", "Cluster"); ("values", "Revenue_Share")]);
         PlotlyChart (PxFigure "bar" shown
                        [("x", "Cluster"); ("y", "Total_Spent_mean");
                         ("color", "Cluster")]);
         Markdown "### Análise Detalhada dos Fãs"].
Proof.
  intros L w clusters fans cl c Hc Hf Hcl Hrs Hts Hin Hmiss shown.
  pose proof (getitem_present _ _ _ Hcl) as Hcc.
  unfold display_fan_segmentation. exec. load. load.
  heap_lookup. rewrite Hcl. exec. fold shown.
  rewrite px_plain
    by (try reflexivity; simpl; unfold shown;
        rewrite !has_column_select, Hcc, Hrs; reflexivity).
  exec.
  rewrite px_plain
    by (try reflexivity; simpl; unfold shown;
        rewrite !has_column_select, Hcc, Hts; reflexivity).
  exec. heap_lookup.
  assert (Hbad : exists a,
             In a [("x", "Total_Spent"); ("y", "Purchase_Probability");
                   ("color", "Cluster"); ("size", "Total_Spent");
                   ("hover_data", "fan_id"); ("hover_data", "Favorite_Team")] /\
             snd a = c).
  { simpl in Hin.
    destruct Hin as [<-|[<-|[<-|[<-|[<-|[]]]]]];
      eexists (_, _); (split; [|reflexivity]); simpl; tauto. }
  destruct Hbad as (a & Ha & <-).
  rewrite (px_missing L "scatter" _ _ a Ha Hmiss). exec. stopped.
Qed.

Lemma scatter_failure_leaves_cluster_charts_witness :
  exists e,
    fst (display_fan_segmentation sample_library
           (fresh [("artifacts/cluster_analysis.csv", sample_clusters);
                   ("artifacts/fan_purchase_probabilities.csv",
                    mkDF (range_index 2)
                         [("fan_id", IntCol [1; 2]%Z);
                          ("Total_Spent", floats [0; 150]%Z);
                          ("Purchase_Probability",
                           FloatCol [Fin (1 # 10); Fin (3 # 4)]);
                          ("Cluster", IntCol [0; 1]%Z)])])) = Raise e.
Proof.
  destruct (scatter_failure_leaves_cluster_charts sample_library
              (fresh [("artifacts/cluster_analysis.csv", sample_clusters);
                      ("artifacts/fan_purchase_probabilities.csv",
                       mkDF (range_index 2)
                            [("fan_id", IntCol [1; 2]%Z);
                             ("Total_Spent", floats [0; 150]%Z);
                             ("Purchase_Probability",
                              FloatCol [Fin (1 # 10); Fin (3 # 4)]);
                             ("Cluster", IntCol [0; 1]%Z)])])
              sample_clusters
              (mkDF (range_index 2)
                    [("fan_id", IntCol [1; 2]%Z);
                     ("Total_Spent", floats [0; 150]%Z);
                     ("Purchase_Probability",
                      FloatCol [Fin (1 # 10); Fin (3 # 4)]);
                     ("Cluster", IntCol [0; 1]%Z)])
              (IntCol [0; 1; 2]%Z) "Favorite_Team"
              eq_refl eq_refl eq_refl eq_refl eq_refl)
    as (e & H & _).
  - simpl; tauto.
  - reflexivity.
  - exists e. exact H.
Defined.

(** X15.  Filtering keeps whole rows.  The table the cluster charts are drawn
    from holds the rows of the cluster table whose [Cluster] is not 0, in
    table order, each with its index label and all its cells: a cluster
    keeps its revenue share and its average spend. *)
Theorem cluster_filter_keeps_whole_rows :
  forall clusters cl,
    well_formed clusters = true ->
    getitem clusters "Cluster" = Ok (IntCol cl) ->
    exists kept,
      (forall i, In i kept <->
                 exists z, nth_error cl i = Some z /\ z <> 0%Z) /\
      StronglySorted lt kept /\
      n_rows (df_select clusters (series_ne (IntCol cl) 0)) = length kept /\
      forall k i, nth_error kept k = Some i ->
        exists label r,
          nth_error (index clusters) i = Some label /\
          row_at (columns clusters) i = Some r /\
          nth_error (index (df_select clusters (series_ne (IntCol cl) 0))) k =
            Some label /\
          row_at (columns (df_select clusters (series_ne (IntCol cl) 0))) k =
            Some r.
Proof.
  intros clusters cl Hwf Hcl.
  pose proof (well_formed_len _ _ _ Hwf Hcl) as Hlen. simpl in Hlen.
  assert (Hmask : length (series_ne (IntCol cl) 0) = length (index clusters))
    by (simpl; now rewrite length_map).
  destruct (df_select_take clusters _ Hwf Hmask) as (Hdf & Hv & Hspec).
  exists (true_positions (series_ne (IntCol cl) 0)).
  split; [|split; [|split]].
  - intros i. rewrite Hspec. apply series_ne_int.
  - apply positions_from_sorted.
  - rewrite Hdf. unfold n_rows. cbn [index df_take].
    now apply take_length_valid.
  - intros k i Hk. rewrite Hdf. exact (df_take_row clusters _ k i Hwf Hv Hk).
Qed.

Lemma cluster_filter_keeps_whole_rows_witness :
  exists kept : list nat,
    n_rows (df_select sample_clusters (series_ne (IntCol [0; 1; 2]%Z) 0)) =
    length kept.
Proof.
  destruct (cluster_filter_keeps_whole_rows sample_clusters [0; 1; 2]%Z
              eq_refl eq_refl)
    as (kept & _ & _ & H & _).
  exists kept. exact H.
Defined.

(* ------------------------------------------------------------------ *)
(** * Further properties of the model performance panel *)

Lemma nlargest_numbers L df col imp :
  getitem df "importance" = Ok col ->
  as_floats col = Ok imp ->
  nlargest L df 15 "importance" =
  Ok (df_take df (nlargest_indexer (quicksort L) 15 imp)).
Proof.
  intros Hcol Himp. unfold nlargest. rewrite Hcol. cbn [rbind].
  destruct col; simpl in Himp; try discriminate; injection Himp as <-;
    reflexivity.
Qed.

(** X16.  The two halves of the panel answer for their own file.  Without the
    model comparison the panel warns and still draws the feature chart from
    the rows [nlargest] selects. *)
Theorem importance_shown_without_comparison :
  forall L w df col imp,
    lookup_table w "model_comparison" = Ok None ->
    lookup_table w "xgboost_importance" = Ok (Some df) ->
    getitem df "importance" = Ok col ->
    as_floats col = Ok imp ->
    has_column df "feature" = true ->
    fst (display_model_performance L w) = Ok tt /\
    page (snd (display_model_performance L w)) =
      page w ++
      [Title "⚙️ Desempenho dos Modelos";
       Markdown "Comparativo de performance entre os modelos de previsão e análise das features mais importantes.";
       Warning "Arquivo 'model_comparison.csv' não encontrado na pasta 'artifacts'.";
       Markdown "### Importância das Features (Modelo XGBoost)";
       PlotlyChart (PxFigure "bar"
                      (df_take df (nlargest_indexer (quicksort L) 15 imp))
                      [("x", "importance"); ("y", "feature");
                       ("color", "importance")])].
Proof.
  intros L w df col imp Hc Hi Hcol Himp Hfeat.
  pose proof (getitem_present _ _ _ Hcol) as Himpc.
  unfold display_model_performance, model_comparison_part,
    feature_importance_part.
  exec. load. load. heap_lookup.
  rewrite (nlargest_numbers L df col imp Hcol Himp). exec.
  rewrite px_plain
    by (try reflexivity; simpl;
        rewrite !has_column_take, Himpc, Hfeat; reflexivity).
  exec. rewrite <- !app_assoc. split; reflexivity.
Qed.

Lemma importance_shown_without_comparison_witness :
  fst (display_model_performance sample_library
         (fresh [("artifacts/xgboost_feature_importance.csv",
                  sample_importance)])) = Ok tt.
Proof.
  apply (importance_shown_without_comparison sample_library
           (fresh [("artifacts/xgboost_feature_importance.csv",
                    sample_importance)])
           sample_importance
           (floats [20; 3; 19; 18; 17; 7; 16; 15; 14; 13;
                    12; 11; 10; 9; 2; 30; 7; 25; 1; 0]%Z)
           (map (fun z => Fin (inject_Z z))
                [20; 3; 19; 18; 17; 7; 16; 15; 14; 13;
                 12; 11; 10; 9; 2; 30; 7; 25; 1; 0]%Z));
    reflexivity.
Defined.

(** X17.  Without the feature importance the panel draws the comparison chart and
    warns.  The chart is drawn from a table of one row per model and error
    measure, the rows of RMSE before those of MAE, each with the model's
    name; no other column of the file is in it. *)
Theorem comparison_chart_rows :
  forall L w comp models rmse mae,
    lookup_table w "model_comparison" = Ok (Some comp) ->
    lookup_table w "xgboost_importance" = Ok None ->
    getitem comp "Model" = Ok (ObjCol models) ->
    getitem comp "RMSE" = Ok (FloatCol rmse) ->
    getitem comp "MAE" = Ok (FloatCol mae) ->
    let n := n_rows comp in
    let metrics :=
      mkDF (seq 0 (n + n))
           [("Model", ObjCol (models ++ models));
            ("Metric", ObjCol (repeat (Some "RMSE") n ++ repeat (Some "MAE") n));
            ("Value", FloatCol (rmse ++ mae))] in
    fst (display_model_performance L w) = Ok tt /\
    page (snd (display_model_performance L w)) =
      page w ++
      [Title "⚙️ Desempenho dos Modelos";
       Markdown "Comparativo de performance entre os modelos de previsão e análise das features mais importantes.";
       Markdown "### Comparativo de Métricas dos Modelos";
       PlotlyChart (PxFigure "bar" metrics
                      [("x", "Metric"); ("y", "Value"); ("color", "Model")]);
       Warning "Arquivo 'xgboost_feature_importance.csv' não encontrado na pasta 'artifacts'."].
Proof.
  intros L w comp models rmse mae Hc Hi Hm Hr Ha n metrics.
  unfold display_model_performance, model_comparison_part,
    feature_importance_part.
  exec. load. load. heap_lookup.
  unfold melt2. rewrite Hm, Hr, Ha. cbn [rbind col_concat]. exec.
  fold n. fold metrics.
  rewrite px_plain by reflexivity.
  exec. rewrite <- !app_assoc. split; reflexivity.
Qed.

Lemma comparison_chart_rows_witness :
  fst (display_model_performance sample_library
         (fresh [("artifacts/model_comparison.csv", sample_models)])) = Ok tt.
Proof.
  apply (comparison_chart_rows sample_library
           (fresh [("artifacts/model_comparison.csv", sample_models)])
           sample_models
           [Some "XGBoost"; Some "LSTM"]
           [Fin 10; Fin 14] [Fin 7; Fin 9]);
    reflexivity.
Defined.

(** X18.  A model comparison table that lacks one of the columns [Model], [RMSE]
    and [MAE] ends the panel with an exception after the heading of the
    comparison, once both loads have returned: the feature chart is not
    drawn, also when its file is present. *)
Theorem broken_comparison_hides_importance :
  forall L w comp c t,
    lookup_table w "model_comparison" = Ok (Some comp) ->
    lookup_table w "xgboost_importance" = Ok t ->
    In c ["Model"; "RMSE"; "MAE"] ->
    has_column comp c = false ->
    exists e,
      fst (display_model_performance L w) = Raise e /\
      page (snd (display_model_performance L w)) =
        page w ++
        [Title "⚙️ Desempenho dos Modelos";
         Markdown "Comparativo de performance entre os modelos de previsão e análise das features mais importantes.";
         Markdown "### Comparativo de Métricas dos Modelos"].
Proof.
  intros L w comp c t Hc Hi Hin Hmiss.
  assert (Hmelt : exists e,
             melt2 comp "Model" "RMSE" "MAE" "Metric" "Value" = Raise e).
  { unfold melt2.
    destruct (getitem comp "Model") as [ids|e|s] eqn:H1;
      [|simpl; eauto|exfalso; exact (getitem_known _ _ _ H1)].
    destruct (getitem comp "RMSE") as [c1|e|s] eqn:H2;
      [|simpl; eauto|exfalso; exact (getitem_known _ _ _ H2)].
    destruct (getitem comp "MAE") as [c2|e|s] eqn:H3;
      [|simpl; eauto|exfalso; exact (getitem_known _ _ _ H3)].
    exfalso. apply getitem_present in H1, H2, H3.
    simpl in Hin. destruct Hin as [<-|[<-|[<-|[]]]]; congruence. }
  destruct Hmelt as [e Hmelt].
  unfold display_model_performance, model_comparison_part,
    feature_importance_part.
  exec. load.
  destruct t as [imp|]; load; heap_lookup; rewrite Hmelt; exec; stopped.
Qed.

Lemma broken_comparison_hides_importance_witness :
  exists e,
    fst (display_model_performance sample_library
           (fresh [("artifacts/model_comparison.csv",
                    mkDF (range_index 2)
                         [("Model", texts ["XGBoost"; "LSTM"]);
                          ("RMSE", floats [10; 14]%Z)]);
                   ("artifacts/xgboost_feature_importance.csv",
                    sample_importance)])) = Raise e.
Proof.
  destruct (broken_comparison_hides_importance sample_library
              (fresh [("artifacts/model_comparison.csv",
                       mkDF (range_index 2)
                            [("Model", texts ["XGBoost"; "LSTM"]);
                             ("RMSE", floats [10; 14]%Z)]);
                      ("artifacts/xgboost_feature_importance.csv",
                       sample_importance)])
              (mkDF (range_index 2)
                    [("Model", texts ["XGBoost"; "LSTM"]);
                     ("RMSE", floats [10; 14]%Z)])
              "MAE" (Some sample_importance) eq_refl eq_refl)
    as (e & H & _).
  - simpl; tauto.
  - reflexivity.
  - exists e. exact H.
Defined.

(* ------------------------------------------------------------------ *)
(** * The whole script *)

Lemma confined_same {A} names (c : M A) :
  (forall w, cache (snd (c w)) = cache w /\ reads (snd (c w)) = reads w) ->
  confined names c.
Proof.
  intros H w. destruct (H w) as [-> ->]. split; auto.
Qed.

Lemma confined_ret {A} names (a : A) : confined names (ret a).
Proof. apply confined_same. intros w. now split. Qed.

Lemma confined_lift {A} names (r : result A) : confined names (lift r).
Proof. apply confined_same. intros w. now split. Qed.

Lemma confined_st names x : confined names (st x).
Proof. apply confined_same. intros w. now split. Qed.

Lemma confined_new_object names df : confined names (new_object df).
Proof. apply confined_same. intros w. now split. Qed.

Lemma confined_assign names r df : confined names (assign r df).
Proof. apply confined_same. intros w. now split. Qed.

Lemma confined_deref names r : confined names (deref r).
Proof.
  apply confined_same. intros w. unfold deref.
  now destruct (nth_error (heap w) r).
Qed.

Lemma confined_bind {A B} names (c : M A) (k : A -> M B) :
  confined names c -> (forall a, confined names (k a)) ->
  confined names (bind c k).
Proof.
  intros Hc Hk w. unfold bind. destruct (Hc w) as [C1 R1].
  destruct (c w) as [[a|e|s] w1]; simpl in *; [|now split|now split].
  destruct (Hk a w1) as [C2 R2]. split.
  - intros n Hn. now rewrite C2, C1.
  - intros p Hp. destruct (R2 p Hp) as [H|H]; auto.
Qed.

Lemma confined_get_column names r c : confined names (get_column r c).
Proof.
  unfold get_column.
  apply confined_bind; [apply confined_deref|intros; apply confined_lift].
Qed.

Lemma confined_set_column names r c col : confined names (set_column r c col).
Proof.
  unfold set_column. apply confined_bind; [apply confined_deref|intros].
  apply confined_bind; [apply confined_lift|intros; apply confined_assign].
Qed.

Lemma confined_load_data names n : In n names -> confined names (load_data n).
Proof.
  intros Hn w. rewrite load_data_eq. unfold after_load. cbn [snd].
  destruct (lookup_table w n) as [t|e|s]; cbn [cache reads]; split;
    try (intros m Hm; reflexivity).
  - intros m Hm. unfold cache_after.
    destruct (dict_get (cache w) n); [reflexivity|].
    apply dict_get_set_other. congruence.
  - intros p Hp. unfold reads_after in Hp.
    destruct (dict_get (cache w) n); [now left|].
    destruct t; [|now left].
    apply in_app_or in Hp. destruct Hp as [Hp|[<-|[]]]; [now left|].
    right. now apply in_map.
  - intros p Hp. apply in_app_or in Hp. destruct Hp as [Hp|[<-|[]]]; [now left|].
    right. now apply in_map.
  - intros p Hp. apply in_app_or in Hp. destruct Hp as [Hp|[<-|[]]]; [now left|].
    right. now apply in_map.
Qed.

Ltac confined_step :=
  match goal with
  | |- confined _ (bind _ _) => apply confined_bind; [|intros ?]
  | |- confined _ (match ?x with _ => _ end) => destruct x
  | |- confined _ (let _ := _ in _) => cbv zeta
  | |- confined _ (load_data _) =>
      apply confined_load_data; simpl; tauto
  | |- confined _ _ =>
      first [ apply confined_ret | apply confined_lift | apply confined_st
            | apply confined_new_object | apply confined_assign
            | apply confined_deref | apply confined_get_column
            | apply confined_set_column ]
  end.

Lemma confined_script L : confined panel_names (script L).
Proof.
  unfold script, page_setup, display_home, display_revenue_forecast,
    display_team_revenue, display_fan_segmentation,
    display_model_performance, model_comparison_part,
    feature_importance_part.
  repeat confined_step.
Qed.

(** X19.  The file map has an entry for the training history of the LSTM, and no
    panel loads it: a run of the script leaves the cache entry of
    [lstm_history] as it was and does not read its file. *)
Theorem script_never_loads_lstm :
  forall L w,
    dict_get file_map "lstm_history" = Some "lstm_training_history.csv" /\
    dict_get (cache (snd (script L w))) "lstm_history" =
      dict_get (cache w) "lstm_history" /\
    (In "artifacts/lstm_training_history.csv"
        (reads (snd (script L w))) ->
     In "artifacts/lstm_training_history.csv" (reads w)).
Proof.
  intros L w. destruct (confined_script L w) as [C R].
  split; [reflexivity|]. split.
  - apply C. simpl. intuition discriminate.
  - intros Hp. destruct (R _ Hp) as [H|H]; [exact H|].
    exfalso. simpl in H. vm_compute in H. intuition discriminate.
Qed.

(** X20.  With none of the six tables available, a run of the script completes:
    after what the module shows before its panels, every panel shows its
    heading and its notice, four errors and two warnings in all; no chart
    is drawn and no file is read. *)
Theorem script_without_artifacts :
  forall L w,
    (forall n, In n panel_names -> lookup_table w n = Ok None) ->
    fst (script L w) = Ok tt /\
    reads (snd (script L w)) = reads w /\
    page (snd (script L w)) =
      page w ++ setup_widgets ++
      [Tab 1;
       Title "📊 Resumo Executivo e KPIs";
       Markdown "Visão geral dos insights e principais indicadores de desempenho (KPIs) extraídos das análises.";
       Error home_missing;
       Tab 2;
       Title "📈 Previsão de Receita (Próximos 30 Dias)";
       Markdown "Projeção da receita diária com base no modelo preditivo de melhor performance (XGBoost).";
       Error forecast_missing;
       Tab 3;
       Title "🏆 Estimativa de Receita por Time";
       Markdown "Previsão de receita para cada time na próxima campanha, com base no comportamento dos seus fãs.";
       Error teams_missing;
       Tab 4;
       Title "👥 Análise de Fãs e Segmentação";
       Markdown "Divisão dos fãs em grupos (clusters) com base em seu comportamento de compra e engajamento.";
       Error fans_missing;
       Tab 5;
       Title "⚙️ Desempenho dos Modelos";
       Markdown "Comparativo de performance entre os modelos de previsão e análise das features mais importantes.";
       Warning "Arquivo 'model_comparison.csv' não encontrado na pasta 'artifacts'.";
       Warning "Arquivo 'xgboost_feature_importance.csv' não encontrado na pasta 'artifacts'."].
Proof.
  intros L w H.
  assert (H1 : lookup_table w "team_forecasts" = Ok None)
    by (apply H; simpl; tauto).
  assert (H2 : lookup_table w "revenue_forecast" = Ok None)
    by (apply H; simpl; tauto).
  assert (H3 : lookup_table w "fan_probabilities" = Ok None)
    by (apply H; simpl; tauto).
  assert (H4 : lookup_table w "cluster_analysis" = Ok None)
    by (apply H; simpl; tauto).
  assert (H5 : lookup_table w "model_comparison" = Ok None)
    by (apply H; simpl; tauto).
  assert (H6 : lookup_table w "xgboost_importance" = Ok None)
    by (apply H; simpl; tauto).
  unfold script, page_setup, display_home, display_revenue_forecast,
    display_team_revenue, display_fan_segmentation,
    display_model_performance, model_comparison_part,
    feature_importance_part.
  exec. do 9 load.
  unfold setup_widgets. rewrite <- !app_assoc. repeat split; reflexivity.
Qed.

Lemma script_without_artifacts_witness :
  fst (script sample_library (fresh [])) = Ok tt.
Proof.
  apply (script_without_artifacts sample_library (fresh [])).
  intros n Hn. simpl in Hn.
  repeat (destruct Hn as [<-|Hn]; [reflexivity|]). contradiction.
Defined.

Lemma warm_keeps w w' : keeps w w' -> warm w -> warm w'.
Proof.
  intros (_ & C & _) Hw n Hn. specialize (Hw n Hn).
  destruct (dict_get (cache w) n) as [v|] eqn:E; [|congruence].
  now rewrite (C n v E).
Qed.

Lemma quiet_same {A} (c : M A) :
  (forall w, reads (snd (c w)) = reads w) -> quiet c.
Proof. intros H w _. apply H. Qed.

Lemma quiet_bind {A B} (c : M A) (k : A -> M B) :
  quiet c -> sound c -> (forall a, quiet (k a)) -> quiet (bind c k).
Proof.
  intros Qc Sc Qk w Hw. unfold bind.
  specialize (Qc w Hw). specialize (Sc w).
  destruct (c w) as [[a|e|s] w1]; simpl in *; [|exact Qc|exact Qc].
  rewrite (Qk a w1); [exact Qc|]. eapply warm_keeps; eauto.
Qed.

Lemma quiet_deref r : quiet (deref r).
Proof.
  apply quiet_same. intros w. unfold deref.
  now destruct (nth_error (heap w) r).
Qed.

Lemma quiet_get_column r c : quiet (get_column r c).
Proof.
  apply quiet_same. intros w. unfold get_column, bind, deref, lift.
  now destruct (nth_error (heap w) r).
Qed.

Lemma quiet_set_column r c col : quiet (set_column r c col).
Proof.
  apply quiet_same. intros w. unfold set_column, bind, deref, lift, assign.
  destruct (nth_error (heap w) r); [|reflexivity].
  now destruct (setitem d c col).
Qed.

Lemma quiet_load_data n : In n panel_names -> quiet (load_data n).
Proof.
  intros Hn w Hw. rewrite load_data_eq. cbn [snd].
  specialize (Hw n Hn).
  unfold after_load, lookup_table, table_of, reads_after.
  destruct (dict_get (cache w) n) as [v|] eqn:E; [|congruence].
  cbn [reads]. rewrite ?E. reflexivity.
Qed.

Ltac quiet_step :=
  match goal with
  | |- quiet (bind _ _) =>
      apply quiet_bind; [|solve [repeat sound_step]|intros ?]
  | |- quiet (match ?x with _ => _ end) => destruct x
  | |- quiet (let _ := _ in _) => cbv zeta
  | |- quiet (load_data _) => apply quiet_load_data; simpl; tauto
  | |- quiet (deref _) => apply quiet_deref
  | |- quiet (get_column _ _) => apply quiet_get_column
  | |- quiet (set_column _ _ _) => apply quiet_set_column
  | |- quiet _ => apply quiet_same; intros ?; reflexivity
  end.

Lemma quiet_script L : quiet (script L).
Proof.
  unfold script, page_setup, display_home, display_revenue_forecast,
    display_team_revenue, display_fan_segmentation,
    display_model_performance, model_comparison_part,
    feature_importance_part.
  repeat quiet_step.
Qed.

(** A load that returns leaves a cache entry for its name. *)
Lemma caches_load_data n : caches n (load_data n).
Proof.
  intros w a. rewrite load_data_eq. unfold outcome_of_load, after_load.
  cbn [fst snd].
  destruct (lookup_table w n) as [t|e|s] eqn:Ht; try discriminate.
  intros _. cbn [cache]. unfold lookup_table in Ht.
  rewrite (cache_after_get _ _ _ _ Ht). discriminate.
Qed.

Lemma caches_bind_l {A B} (c : M A) (k : A -> M B) n :
  caches n c -> (forall a, sound (k a)) -> caches n (bind c k).
Proof.
  intros Hc Hk w b. unfold bind. specialize (Hc w).
  destruct (c w) as [[a|e|s] w1]; cbn [fst snd] in *; try discriminate.
  intros _. specialize (Hc a eq_refl).
  destruct (Hk a w1) as (_ & C & _).
  destruct (dict_get (cache w1) n) as [v|] eqn:E; [|congruence].
  now rewrite (C n v E).
Qed.

Lemma caches_bind_r {A B} (c : M A) (k : A -> M B) n :
  (forall a, caches n (k a)) -> caches n (bind c k).
Proof.
  intros Hk w b. unfold bind.
  destruct (c w) as [[a|e|s] w1]; cbn [fst snd] in *; try discriminate.
  apply Hk.
Qed.

(** The load of a name stands somewhere on the path every completed run
    takes. *)
Ltac cached :=
  first [ apply caches_load_data
        | apply caches_bind_l; [cached|intros ?; solve [repeat sound_step]]
        | apply caches_bind_r; intros ?; cached ].

Lemma script_caches L n : In n panel_names -> caches n (script L).
Proof.
  intros Hn.
  unfold script, page_setup, display_home, display_revenue_forecast,
    display_team_revenue, display_fan_segmentation,
    display_model_performance, model_comparison_part,
    feature_importance_part.
  simpl in Hn.
  destruct Hn as [<-|[<-|[<-|[<-|[<-|[<-|[]]]]]]]; cached.
Qed.

Lemma script_warms L w : fst (script L w) = Ok tt -> warm (snd (script L w)).
Proof.
  intros H n Hn. exact (script_caches L n Hn w tt H).
Qed.

(** X21.  After one complete run of the script every table the panels load is in
    the cache, and a later run reads no file, whatever has happened to the
    disk since. *)
Theorem rerun_reads_nothing :
  forall L w w2,
    fst (script L w) = Ok tt ->
    cache w2 = cache (snd (script L w)) ->
    reads (snd (script L w2)) = reads w2.
Proof.
  intros L w w2 Hok Hc. apply quiet_script.
  intros n Hn. rewrite Hc. now apply (script_warms L w Hok).
Qed.

Lemma rerun_reads_nothing_witness :
  reads (snd (script sample_library
                (snd (script sample_library (fresh sample_files))))) =
  reads (snd (script sample_library (fresh sample_files))).
Proof.
  refine (rerun_reads_nothing sample_library (fresh sample_files)
            (snd (script sample_library (fresh sample_files))) _ eq_refl).
  vm_compute. reflexivity.
Defined.

(** X22.  An exception in the first panel ends the run.  With a team table of
    zero rows the executive summary raises, and the run adds to the page
    only what the module shows before its panels and the heading of the
    first panel: the four panels after it are not rendered, whatever their
    tables hold. *)
Theorem empty_teams_stop_the_script :
  forall L w team fc fans revs,
    lookup_table w "team_forecasts" = Ok (Some team) ->
    lookup_table w "revenue_forecast" = Ok (Some fc) ->
    lookup_table w "fan_probabilities" = Ok (Some fans) ->
    getitem fc "Revenue_Forecast" = Ok (FloatCol revs) ->
    well_formed team = true ->
    n_rows team = 0%nat ->
    exists e,
      fst (script L w) = Raise e /\
      page (snd (script L w)) =
        page w ++ setup_widgets ++
        [Tab 1;
         Title "📊 Resumo Executivo e KPIs";
         Markdown "Visão geral dos insights e principais indicadores de desempenho (KPIs) extraídos das análises."].
Proof.
  intros L w team fc fans revs Ht Hf Hp Hrev Hwf Hn.
  assert (Hidx : exists e, idxmax team "Expected_Revenue" = Raise e).
  { unfold idxmax. destruct (getitem team "Expected_Revenue") as [col|e|s] eqn:Hg;
      simpl; [|eauto|exfalso; exact (getitem_known _ _ _ Hg)].
    pose proof (well_formed_len _ _ _ Hwf Hg) as Hl.
    unfold n_rows in Hn. rewrite Hn in Hl. rewrite Hl. simpl. eauto. }
  destruct Hidx as [e Hidx]. exists e.
  unfold script, page_setup, display_home. exec. load. load. load.
  heap_lookup. exec. rewrite Hrev. cbn [series_sum]. exec.
  heap_lookup. exec. rewrite Hidx. exec.
  unfold setup_widgets. now rewrite <- !app_assoc.
Qed.

Lemma empty_teams_stop_the_script_witness :
  exists e,
    fst (script sample_library (fresh files_with_empty_teams)) = Raise e.
Proof.
  destruct (empty_teams_stop_the_script sample_library
              (fresh files_with_empty_teams)
              empty_teams sample_forecast sample_fans
              [Fin 100; Fin 50; Fin 25]
              eq_refl eq_refl eq_refl eq_refl eq_refl eq_refl)
    as (e & H & _).
  exists e. exact H.
Defined.

Lemma stable_same {A} (c : M A) :
  (forall w, files (snd (c w)) = files w /\ cache (snd (c w)) = cache w) ->
  stable c.
Proof.
  intros H w n. unfold lookup_table. destruct (H w) as [-> ->]. reflexivity.
Qed.

Lemma stable_bind {A B} (c : M A) (k : A -> M B) :
  stable c -> (forall a, stable (k a)) -> stable (bind c k).
Proof.
  intros Hc Hk w n. unfold bind. specialize (Hc w n).
  destruct (c w) as [[a|e|s] w1]; simpl in *; [|exact Hc|exact Hc].
  now rewrite (Hk a w1 n).
Qed.

Lemma stable_deref r : stable (deref r).
Proof.
  apply stable_same. intros w. unfold deref.
  now destruct (nth_error (heap w) r).
Qed.

Lemma stable_get_column r c : stable (get_column r c).
Proof.
  apply stable_same. intros w. unfold get_column, bind, deref, lift.
  now destruct (nth_error (heap w) r).
Qed.

Lemma stable_set_column r c col : stable (set_column r c col).
Proof.
  apply stable_same. intros w. unfold set_column, bind, deref, lift, assign.
  destruct (nth_error (heap w) r); [|now split].
  now destruct (setitem d c col).
Qed.

Lemma stable_load_data n : stable (load_data n).
Proof.
  intros w m. rewrite load_data_eq. apply lookup_table_after_load.
Qed.

Ltac stable_step :=
  match goal with
  | |- stable (bind _ _) => apply stable_bind; [|intros ?]
  | |- stable (match ?x with _ => _ end) => destruct x
  | |- stable (let _ := _ in _) => cbv zeta
  | |- stable (load_data _) => apply stable_load_data
  | |- stable (deref _) => apply stable_deref
  | |- stable (get_column _ _) => apply stable_get_column
  | |- stable (set_column _ _ _) => apply stable_set_column
  | |- stable _ => apply stable_same; intros ?; split; reflexivity
  end.

Lemma stable_run_builder L b : stable (run_builder L b).
Proof.
  destruct b; simpl;
    unfold display_home, display_revenue_forecast, display_team_revenue,
      display_fan_segmentation, display_model_performance,
      model_comparison_part, feature_importance_part;
    repeat stable_step.
Qed.

(** X23.  Over a session, a name stands for one table: whatever loads and panel
    renderings have happened in between, [load_data] returns for every name
    what it would have returned at the start.  No panel puts anything into
    the cache but what the loader returns. *)
Theorem session_keeps_tables :
  forall L acts w n,
    returned (load_data n (run_actions L acts w)) =
    returned (load_data n w).
Proof.
  intros L acts w n. rewrite !returned_load.
  revert w. induction acts as [|a acts IH]; intros w; [reflexivity|].
  change (run_actions L (a :: acts) w)
    with (run_actions L acts (run_action L a w)).
  rewrite IH. destruct a as [m|b]; simpl.
  - apply stable_load_data.
  - apply stable_run_builder.
Qed.

(* ------------------------------------------------------------------ *)
(** * The cache and the builders *)

(** C5 (amended).  When a call of [load_data] returns, a later call with
    the same name returns the same table, whatever happened to the disk,
    the objects and the page in between, and reads no file; one call reads
    at most one file; over any sequence of loads and panel renderings of a
    process a file that can be parsed, or is absent, is read at most once;
    and a call that raises caches nothing and has read the file. *)
Theorem load_data_cached :
  forall n w,
    (forall t, returned (load_data n w) = Ok t ->
       forall w2,
         dict_get (cache w2) n = dict_get (cache (snd (load_data n w))) n ->
         returned (load_data n w2) = Ok t /\
         reads (snd (load_data n w2)) = reads w2) /\
    (length (reads (snd (load_data n w))) <= S (length (reads w)))%nat /\
    (forall L fs acts,
        dict_get fs (path_of n) <> Some Damaged ->
        (count_occ string_dec
                   (reads (run_actions L acts (mkWorld fs [] [] [] [])))
                   (path_of n) <= 1)%nat) /\
    (forall e, fst (load_data n w) = Raise e ->
        cache (snd (load_data n w)) = cache w /\
        reads (snd (load_data n w)) = reads w ++ [path_of n]).
Proof.
  intros n w. split; [|split; [|split]].
  - intros t Ht w2 Hc. rewrite returned_load in Ht.
    rewrite load_data_eq in Hc. cbn [snd] in Hc. unfold after_load in Hc.
    rewrite Ht in Hc. cbn [cache] in Hc.
    unfold lookup_table in Ht. rewrite (cache_after_get _ _ _ _ Ht) in Hc.
    assert (E : lookup_table w2 n = Ok t)
      by (unfold lookup_table, table_of; now rewrite Hc).
    rewrite returned_load, load_data_eq. cbn [snd].
    split; [exact E|].
    unfold after_load. rewrite E. cbn [reads]. unfold reads_after.
    now rewrite Hc.
  - rewrite load_data_eq. cbn [snd]. unfold after_load, reads_after.
    destruct (lookup_table w n) as [t|e|s]; cbn [reads];
      [destruct (dict_get (cache w) n), t|..];
      rewrite ?length_app; simpl; lia.
  - intros L fs acts Hfs.
    destruct (keeps_run_actions L acts (mkWorld fs [] [] [] [])) as (F & _ & H).
    destruct H as [Hnamed Hacc].
    { split; [intros p []|]. intros m _ _. simpl. split; [lia|contradiction]. }
    destruct (in_dec string_dec n logical_names) as [Hn|Hn].
    + apply (Hacc n Hn). unfold readable. now rewrite F.
    + rewrite (proj1 (count_occ_not_In string_dec _ _)); [lia|].
      intros Hin. destruct (Hnamed _ Hin) as (m & Hm & E).
      exact (path_of_unknown n m Hn Hm E).
  - intros e He. rewrite load_data_eq in *. cbn [fst snd] in *.
    unfold outcome_of_load in He. unfold after_load.
    destruct (lookup_table w n) as [t|e'|s]; try discriminate.
    split; reflexivity.
Qed.

(** C5, as stated, fails: a team file that cannot be parsed is read by
    each of two calls in a row; both raise and nothing is cached. *)
Lemma damaged_file_is_read_again :
  In "team_forecasts" logical_names /\
  (exists e,
     fst (load_data "team_forecasts" damaged_start) = Raise e /\
     fst (load_data "team_forecasts"
            (snd (load_data "team_forecasts" damaged_start))) = Raise e) /\
  reads (snd (load_data "team_forecasts"
                (snd (load_data "team_forecasts" damaged_start)))) =
    ["artifacts/team_revenue_forecasts.csv";
     "artifacts/team_revenue_forecasts.csv"] /\
  cache (snd (load_data "team_forecasts"
                (snd (load_data "team_forecasts" damaged_start)))) = [].
Proof.
  split; [simpl; tauto|]. split; [|vm_compute; split; reflexivity].
  eexists. vm_compute. split; reflexivity.
Qed.

Lemma load_data_cached_witness :
  returned (load_data "team_forecasts"
              (disk_emptied (snd (load_data "team_forecasts"
                                            (fresh sample_files))))) =
  Ok (Some sample_teams).
Proof.
  apply (proj1 (load_data_cached "team_forecasts" (fresh sample_files))
               (Some sample_teams) eq_refl).
  reflexivity.
Defined.

(** C9 (amended).  A panel rendering leaves the tables of the loader as it
    found them: an entry of the cache is unchanged, a later load of any
    name returns what a load before the rendering would have returned,
    also when the name was not cached yet, and the disk is not touched.
    (The builders do update frames in place; those are the copies they were
    handed, not the cache entries.) *)
Theorem builders_keep_cache :
  forall L b n w,
    (forall v, dict_get (cache w) n = Some v ->
               dict_get (cache (snd (run_builder L b w))) n = Some v) /\
    returned (load_data n (snd (run_builder L b w))) =
      returned (load_data n w) /\
    files (snd (run_builder L b w)) = files w.
Proof.
  intros L b n w.
  destruct (sound_run_builder L b w) as (F & C & _).
  split; [intros v Hv; auto|]. split; [|exact F].
  rewrite !returned_load. apply stable_run_builder.
Qed.

(** C9, as stated, fails: the forecast panel makes no new table for its
    date conversion and its weekday column.  The object [load_data] hands
    out holds the dates as text and no weekday column; after the panel that
    same object holds the dates as timestamps and a weekday column.  The
    cache entry is as it was. *)
Lemma forecast_panel_edits_in_place :
  fst (load_data "revenue_forecast" (fresh sample_files)) = Ok (Some 0%nat) /\
  nth_error (heap (snd (load_data "revenue_forecast" (fresh sample_files)))) 0 =
    Some sample_forecast /\
  getitem sample_forecast "Date" =
    Ok (texts ["2024-01-01"; "2024-01-03"; "2024-01-08"]) /\
  has_column sample_forecast "Day_of_Week" = false /\
  option_map (fun df => getitem df "Date")
    (nth_error (heap (snd (display_revenue_forecast sample_library
                             (fresh sample_files)))) 0) =
    Some (Ok (TimeCol [Some 1704067200000000000; Some 1704240000000000000;
                       Some 1704672000000000000]%Z)) /\
  option_map (fun df => getitem df "Day_of_Week")
    (nth_error (heap (snd (display_revenue_forecast sample_library
                             (fresh sample_files)))) 0) =
    Some (Ok (texts ["Monday"; "Wednesday"; "Monday"])) /\
  dict_get (cache (snd (display_revenue_forecast sample_library
                          (fresh sample_files)))) "revenue_forecast" =
    Some (Some sample_forecast).
Proof. vm_compute. repeat split; reflexivity. Qed.

Lemma builders_keep_cache_witness :
  returned (load_data "revenue_forecast"
              (snd (display_revenue_forecast sample_library
                      (fresh sample_files)))) =
  Ok (Some sample_forecast).
Proof.
  exact (proj1 (proj2 (builders_keep_cache sample_library RevenueForecast
                         "revenue_forecast" (fresh sample_files)))).
Defined.

(* ------------------------------------------------------------------ *)
(** * The statements at the sample artifacts *)

Lemma home_kpis_witness :
  fst (display_home sample_library (fresh sample_files)) = Ok tt.
Proof.
  destruct (home_kpis sample_library (fresh sample_files) sample_teams
              sample_forecast sample_fans
              [Fin 100; Fin 50; Fin 25] [Fin 800; Fin 1200; Fin 1200]
              [Fin (1 # 10); Fin (3 # 4); Fin (9 # 10); Fin (4 # 5)]
              "Unnamed: 0" [Some "Imperial"; Some "Flamengo"; Some "Santos"]
              (tl (columns sample_teams)) 0%nat 800%Q
              eq_refl eq_refl eq_refl eq_refl eq_refl eq_refl eq_refl eq_refl
              eq_refl eq_refl eq_refl)
    as (i & team_id & m & _ & _ & _ & _ & H & _).
  exact H.
Defined.

Lemma home_all_or_nothing_witness :
  fst (display_home sample_library (fresh files_without_fans)) = Ok tt.
Proof.
  apply (home_all_or_nothing sample_library (fresh files_without_fans)
           (Some sample_teams) (Some sample_forecast) None
           eq_refl eq_refl eq_refl).
  right. right. reflexivity.
Defined.

Lemma home_empty_teams_witness :
  exists e,
    fst (display_home sample_library (fresh files_with_empty_teams)) = Raise e.
Proof.
  destruct (home_empty_teams sample_library (fresh files_with_empty_teams)
              empty_teams sample_forecast sample_fans
              eq_refl eq_refl eq_refl [Fin 100; Fin 50; Fin 25]
              eq_refl eq_refl eq_refl) as (e & _ & H & _).
  exists e. exact H.
Defined.
